(** * app.aswarriors: the pain-trend aggregator, the attachment guard and the
    form schemas, embedded from the TypeScript sources.

    Layout: the JavaScript values the components compute with (exceptions,
    Date, number, Array.prototype.sort) and the date-fns [format] patterns
    the code uses; one module per source ([PainChart], [Feedback],
    [Settings], [AuthForm], [NewEntryForm], [StorageRules]); the vocabulary
    the statements are written in; the theorems. *)

From Stdlib Require Import ZArith List String Ascii Bool Lia QArith Qabs Qreduction.
From Stdlib Require Import Permutation Sorted DecimalString.
From Stdlib Require Qcanon.
Import ListNotations.

Local Open Scope string_scope.
Local Open Scope list_scope.
Local Open Scope Z_scope.

(** ** Exceptions

    A thrown JavaScript exception is the left summand; [Throws A] is the
    type of a computation that returns an [A] or throws. *)

Inductive Exn : Type :=
| RangeError (msg : string)
| Rejected (msg : string).

Definition Throws (A : Type) : Type := (Exn + A)%type.

Definition ret {A} (a : A) : Throws A := inr a.

Definition bind {A B} (c : Throws A) (k : A -> Throws B) : Throws B :=
  match c with
  | inl e => inl e
  | inr a => k a
  end.

Declare Scope throws_scope.
Delimit Scope throws_scope with throws.
Notation "x <- c ;; k" := (bind c (fun x => k))
  (at level 61, c at next level, right associativity) : throws_scope.

(** [for (const x of xs) acc = await f(acc, x)], stopping at the first throw. *)
Fixpoint foldM {A B} (f : B -> A -> Throws B) (acc : B) (xs : list A) : Throws B :=
  match xs with
  | [] => ret acc
  | x :: xs' => bind (f acc x) (fun acc' => foldM f acc' xs')
  end.

(** [xs.map(f)] where [f] may throw. *)
Fixpoint mapM {A B} (f : A -> Throws B) (xs : list A) : Throws (list B) :=
  match xs with
  | [] => ret []
  | x :: xs' => bind (f x) (fun y => bind (mapM f xs') (fun ys => ret (y :: ys)))
  end.

(** ** JavaScript Date

    A Date object holds a time value: milliseconds since the epoch, or NaN
    (an Invalid Date). *)

Module JsDate.

Inductive Date : Type :=
| TimeValue (t : Z)
| InvalidDate.

(** [d.valueOf()] / [d.getTime()]; [None] is NaN. *)
Definition getTime (d : Date) : option Z :=
  match d with
  | TimeValue t => Some t
  | InvalidDate => None
  end.

(** [a >= b] and [a <= b] on Dates compare the time values as numbers; a
    comparison with NaN is false. *)
Definition ge (a b : Date) : bool :=
  match getTime a, getTime b with
  | Some x, Some y => y <=? x
  | _, _ => false
  end.

Definition le (a b : Date) : bool :=
  match getTime a, getTime b with
  | Some x, Some y => x <=? y
  | _, _ => false
  end.

(** The local time zone of the browser, as a fixed offset from UTC in
    milliseconds (local = UTC + offset). *)
Class TimeZone : Type := { utcOffsetMs : Z }.

Definition msPerDay : Z := 86400000.

(** Days since 1970-01-01 of the local calendar day a time value falls on. *)
Definition localDay `{TimeZone} (t : Z) : Z := (t + utcOffsetMs) / msPerDay.

(** Proleptic Gregorian calendar: day number to (year, month 1..12, day 1..31). *)
Definition civil_from_days (z0 : Z) : Z * Z * Z :=
  let z := z0 + 719468 in
  let era := z / 146097 in
  let doe := z - era * 146097 in
  let yoe := (doe - doe / 1460 + doe / 36524 - doe / 146096) / 365 in
  let y := yoe + era * 400 in
  let doy := doe - (365 * yoe + yoe / 4 - yoe / 100) in
  let mp := (5 * doy + 2) / 153 in
  let d := doy - (153 * mp + 2) / 5 + 1 in
  let m := if mp <? 10 then mp + 3 else mp - 9 in
  (if m <=? 2 then y + 1 else y, m, d).

(** (year, month, day) to day number; a day past the end of its month runs
    over into the next one, as MakeDay does. *)
Definition days_from_civil (y0 m d : Z) : Z :=
  let y := if m <=? 2 then y0 - 1 else y0 in
  let era := y / 400 in
  let yoe := y - era * 400 in
  let mp := if 2 <? m then m - 3 else m + 9 in
  let doy := (153 * mp + 2) / 5 + d - 1 in
  let doe := yoe * 365 + yoe / 4 - yoe / 100 + doy in
  era * 146097 + doe - 719468.

(** [getFullYear()], [getMonth() + 1], [getDate()] of a valid date. *)
Definition localFields `{TimeZone} (t : Z) : Z * Z * Z :=
  civil_from_days (localDay t).

(** [new Date(year, month - 1, day)]: local midnight of a calendar day. *)
Definition ofLocalDay `{TimeZone} (y m d : Z) : Date :=
  TimeValue (days_from_civil y m d * msPerDay - utcOffsetMs).

Definition monthNames : list string :=
  ["Jan"; "Feb"; "Mar"; "Apr"; "May"; "Jun";
   "Jul"; "Aug"; "Sep"; "Oct"; "Nov"; "Dec"].

Fixpoint index_of (s : string) (l : list string) (i : Z) : option Z :=
  match l with
  | [] => None
  | x :: l' => if String.eqb s x then Some i else index_of s l' (i + 1)
  end.

Definition is_digit (c : ascii) : bool :=
  let n := N_of_ascii c in ((48 <=? n) && (n <=? 57))%N.

Fixpoint all_digits (s : string) : bool :=
  match s with
  | EmptyString => true
  | String c s' => is_digit c && all_digits s'
  end.

Fixpoint digits_value (s : string) (acc : Z) : Z :=
  match s with
  | EmptyString => acc
  | String c s' => digits_value s' (10 * acc + (Z.of_N (N_of_ascii c) - 48))
  end.

(** The month (1..12) and the day a string such as "Jan 1" spells: a month
    abbreviation, a blank and a day of the month from 1 to 31. *)
Definition monthAndDay (s : string) : option (Z * Z) :=
  match s with
  | String a (String b (String c (String " " ds))) =>
      match index_of (String a (String b (String c EmptyString))) monthNames 1 with
      | Some m =>
          let d := digits_value ds 0 in
          if all_digits ds && negb (String.eqb ds "") && (1 <=? d) && (d <=? 31)
          then Some (m, d)
          else None
      | None => None
      end
  | _ => None
  end.

(** [new Date(s)] for a string that is not an ISO date goes to the engine's
    legacy parser.  The model covers the one shape the chart hands it, a
    month and a day without a year ("Jan 1"), and reads it as V8 and
    JavaScriptCore do: the missing year is 2001, the time is local midnight,
    and a day past the end of the month runs over into the next month.
    Every other string is an Invalid Date. *)
Definition parse `{TimeZone} (s : string) : Date :=
  match monthAndDay s with
  | Some (m, d) => ofLocalDay 2001 m d
  | None => InvalidDate
  end.

End JsDate.

Import JsDate.

#[global] Instance UTC : TimeZone := {| utcOffsetMs := 0 |}.

(** ** date-fns [format]

    The two patterns the components use are 'yyyy-MM-dd' and 'MMM d'.  A
    pattern is read as runs of one letter; the tokens below are the ones
    those patterns contain, any other letter run is refused as date-fns
    refuses an unknown token, and any other character stands for itself. *)

Module DateFns.

Definition decimal (n : Z) : string :=
  NilEmpty.string_of_uint (N.to_uint (Z.to_N n)).

Fixpoint zeros (n : nat) : string :=
  match n with
  | O => ""
  | S n' => String "0" (zeros n')
  end.

(** [addLeadingZeros(n, targetLength)]. *)
Definition addLeadingZeros (n : Z) (targetLength : nat) : string :=
  let s := decimal (Z.abs n) in
  let sign := if n <? 0 then "-" else "" in
  (sign ++ zeros (targetLength - String.length s) ++ s)%string.

Definition is_letter (c : ascii) : bool :=
  let n := N_of_ascii c in
  (((65 <=? n) && (n <=? 90)) || ((97 <=? n) && (n <=? 122)))%N.

(** One token: the letter [c] repeated [n] times, for the date [(y, m, d)]. *)
Definition formatToken (c : ascii) (n : nat) (ymd : Z * Z * Z) : Throws string :=
  let '(y, m, d) := ymd in
  if negb (is_letter c) then ret (String.concat "" (repeat (String c "") n))
  else if Ascii.eqb c "y" then
    match n with
    | 4%nat =>
        (* the year of the era: 1 BC is year 1, like 1 AD *)
        ret (addLeadingZeros (if 0 <? y then y else 1 - y) n)
    | _ => inl (RangeError "Format string contains an unsupported token")
    end
  else if Ascii.eqb c "M" then
    match n with
    | 1%nat | 2%nat => ret (addLeadingZeros m n)
    | 3%nat => ret (nth (Z.to_nat (m - 1)) monthNames "")
    | _ => inl (RangeError "Format string contains an unsupported token")
    end
  else if Ascii.eqb c "d" then
    match n with
    | 1%nat | 2%nat => ret (addLeadingZeros d n)
    | _ => inl (RangeError "Format string contains an unsupported token")
    end
  else inl (RangeError "Format string contains an unescaped latin alphabet character").

(** The pattern, read left to right with the current run [(c, n)] pending. *)
Fixpoint formatRuns (run : option (ascii * nat)) (p : string) (ymd : Z * Z * Z)
  : Throws string :=
  match p with
  | EmptyString =>
      match run with
      | None => ret ""
      | Some (c, n) => formatToken c n ymd
      end
  | String c p' =>
      match run with
      | None => formatRuns (Some (c, 1%nat)) p' ymd
      | Some (c0, n) =>
          if Ascii.eqb c c0 then formatRuns (Some (c0, S n)) p' ymd
          else
            (s <- formatToken c0 n ymd ;;
             r <- formatRuns (Some (c, 1%nat)) p' ymd ;;
             ret (s ++ r)%string)%throws
      end
  end.

(** [format(date, formatStr)]: throws RangeError on an Invalid Date. *)
Definition format `{TimeZone} (date : Date) (formatStr : string) : Throws string :=
  match date with
  | InvalidDate => inl (RangeError "Invalid time value")
  | TimeValue t => formatRuns None formatStr (localFields t)
  end.

End DateFns.

Import DateFns.

(** ** JavaScript numbers

    A finite binary64 value is carried by the rational it is exactly; every
    arithmetic operation rounds the exact result to the nearest binary64,
    ties to even.  NaN, the infinities (so also overflow) and the sign of
    zero are outside the model: the aggregator adds pain levels and divides
    a sum by a positive count. *)

Module JsNumber.

(** A value of type number as a form field or a schema sees it. *)
Inductive number : Type :=
| Finite (q : Q)
| NaN
| PosInfinity
| NegInfinity.

(** [lo <= v] and [v <= hi] for a finite bound; false on NaN. *)
Definition geq (v : number) (lo : Q) : bool :=
  match v with
  | Finite q => Qle_bool lo q
  | PosInfinity => true
  | NaN | NegInfinity => false
  end.

Definition leq (v : number) (hi : Q) : bool :=
  match v with
  | Finite q => Qle_bool q hi
  | NegInfinity => true
  | NaN | PosInfinity => false
  end.

(** The integer nearest to [a / b] for [0 < b], ties to the even one. *)
Definition round_half_even (a b : Z) : Z :=
  let q := a / b in
  let r := a mod b in
  if 2 * r <? b then q
  else if b <? 2 * r then q + 1
  else if Z.even q then q else q + 1.

(** Round a rational to binary64 (53-bit significand, least exponent -1074). *)
Definition round64 (x : Q) : Q :=
  let a := Qnum x in
  let c := Z.pos (Qden x) in
  if a =? 0 then 0%Q
  else
    let n := Z.abs a in
    let l := Z.log2 n - Z.log2 c in
    (* floor (log2 (n / c)) is l or l - 1 *)
    let l' := if n * 2 ^ Z.max (- l) 0 <? c * 2 ^ Z.max l 0 then l - 1 else l in
    let e := Z.max (l' - 52) (-1074) in
    let m := round_half_even (n * 2 ^ Z.max (- e) 0) (c * 2 ^ Z.max e 0) in
    Qred (Qmake (Z.sgn a * m * 2 ^ Z.max e 0) (Z.to_pos (2 ^ Z.max (- e) 0))).

(** [x + y] and [x / y]. *)
Definition add (x y : Q) : Q := round64 (x + y).
Definition div (x y : Q) : Q := round64 (x / y).

(** The string [x.toFixed(1)] returns for [|x| < 1e21], kept as its sign
    and its digits: "-12.3" is [{| negative := true; tenths := 123 |}]. *)
Record Fixed1 : Type := { negative : bool; tenths : Z }.

(** Number.prototype.toFixed(1): "let n be an integer for which n / 10 - x
    is as close to zero as possible; if there are two such n, pick the
    larger", on the magnitude of [x], the sign put in front. *)
Definition toFixed1 (x : Q) : Fixed1 :=
  let a := Z.abs (Qnum x) in
  let c := Z.pos (Qden x) in
  {| negative := Qnum x <? 0; tenths := (20 * a + c) / (2 * c) |}.

(** [Number(s)] of such a string: the decimal it spells.  (The double
    nearest to it prints as the same decimal.) *)
Definition Number (s : Fixed1) : Q :=
  Qred (Qmake (if negative s then - tenths s else tenths s) 10).

End JsNumber.

(** ** Array.prototype.sort

    The sort is stable, and [compareFn] orders [a] before [b] when it
    returns a negative number; for a comparator that is a difference of
    keys the result is the stable sort by key, which insertion from the
    right computes. *)

Module JsArray.

Section Sort.
Context {A : Type} (compareFn : A -> A -> Z).

Fixpoint insert (x : A) (l : list A) : list A :=
  match l with
  | [] => [x]
  | y :: l' => if compareFn x y <=? 0 then x :: y :: l' else y :: insert x l'
  end.

Fixpoint sort (l : list A) : list A :=
  match l with
  | [] => []
  | x :: l' => insert x (sort l')
  end.

End Sort.

End JsArray.

(** ** src/lib/types.ts *)

(** [PainEntry]; a number is held by its exact value (see [JsNumber]). *)
Record PainEntry : Type := {
  id : string;
  userId : string;
  painLevel : Q;
  date : Date;
  notes : string;
  createdAt : Date
}.

(** ** src/components/pain/PainChart.tsx: [chartData] *)

Module PainChart.

Record DateRange : Type := { from : Date; to : Date }.

(** A value of [dailyData]: [{ date, totalPain, count }]. *)
Record Daily : Type := { d_date : Date; totalPain : Q; count : Q }.

(** An element of [chartData]: [{ date: string, painLevel: number }]. *)
Record ChartPoint : Type := { cp_date : string; cp_painLevel : Q }.

(** [dailyData] is a plain object used as a map from 'yyyy-MM-dd' strings;
    [Object.values] lists it in insertion order (no key is an array
    index), so it is kept as an association list in that order. *)
Definition DailyData : Type := list (string * Daily).

Fixpoint lookup (k : string) (acc : DailyData) : option Daily :=
  match acc with
  | [] => None
  | (k', v) :: acc' => if String.eqb k k' then Some v else lookup k acc'
  end.

(** [acc[k] = v] for a new key, and the in-place update of an old one. *)
Fixpoint assign (k : string) (v : Daily) (acc : DailyData) : DailyData :=
  match acc with
  | [] => [(k, v)]
  | (k', v') :: acc' =>
      if String.eqb k k' then (k, v) :: acc' else (k', v') :: assign k v acc'
  end.

Definition inRange (dateRange : DateRange) (entry : PainEntry) : bool :=
  JsDate.ge (date entry) (from dateRange) && JsDate.le (date entry) (to dateRange).

(** [entries.filter(entry => entry.date >= dateRange.from && entry.date <= dateRange.to)] *)
Definition filteredEntries (entries : list PainEntry) (dateRange : DateRange)
  : list PainEntry :=
  filter (inRange dateRange) entries.

(** The callback of [filteredEntries.reduce]. *)
Definition reducer `{TimeZone} (acc : DailyData) (entry : PainEntry) : Throws DailyData :=
  (dateStr <- format (date entry) "yyyy-MM-dd" ;;
   match lookup dateStr acc with
   | None =>
       ret (assign dateStr
              {| d_date := date entry; totalPain := painLevel entry; count := 1 |} acc)
   | Some d =>
       ret (assign dateStr
              {| d_date := d_date d;
                 totalPain := JsNumber.add (totalPain d) (painLevel entry);
                 count := JsNumber.add (count d) 1 |} acc)
   end)%throws.

Definition dailyData `{TimeZone} (entries : list PainEntry) (dateRange : DateRange)
  : Throws DailyData :=
  foldM reducer [] (filteredEntries entries dateRange).

(** The callback of [Object.values(dailyData).map]. *)
Definition toPoint `{TimeZone} (kv : string * Daily) : Throws ChartPoint :=
  let d := snd kv in
  (lbl <- format (d_date d) "MMM d" ;;
   ret {| cp_date := lbl;
          cp_painLevel :=
            JsNumber.Number (JsNumber.toFixed1 (JsNumber.div (totalPain d) (count d))) |})%throws.

(** [(a, b) => new Date(a.date).getTime() - new Date(b.date).getTime()];
    a NaN result counts as 0, as the sort treats it. *)
Definition compareFn `{TimeZone} (a b : ChartPoint) : Z :=
  match getTime (parse (cp_date a)), getTime (parse (cp_date b)) with
  | Some x, Some y => x - y
  | _, _ => 0
  end.

Definition chartData `{TimeZone} (entries : list PainEntry) (dateRange : DateRange)
  : Throws (list ChartPoint) :=
  (daily <- dailyData entries dateRange ;;
   points <- mapM toPoint daily ;;
   ret (JsArray.sort compareFn points))%throws.

End PainChart.

(** ** Browser and backend values shared by the forms *)

(** A DOM File: name, size in bytes and declared content type. *)
Record File : Type := { name : string; size : N; type : string }.

(** [auth.currentUser]. *)
Record User : Type := { uid : string; email : option string }.

(** A toast shown to the user. *)
Record Toast : Type := { title : string; description : string; destructive : bool }.

(** The documents the forms write with [addDoc]. *)
Inductive Doc : Type :=
| FeedbackDoc (userId : string) (userEmail : option string) (feedback : string)
    (attachments : list string) (createdAt : Z)
| PainEntryDoc (userId : string) (painLevel : JsNumber.number) (date : Date)
    (notes : string) (createdAt : Z).

(** The Firebase SDK calls the forms make, each against the state of the
    backend and the clock ([W]); a rejected promise is a throw. *)
Class Backend (W : Type) : Type := {
  dateNow : W -> Z * W;
  uploadBytes : string -> File -> W -> Throws string * W;
  getDownloadURL : string -> W -> Throws string * W;
  addDoc : string -> Doc -> W -> Throws unit * W
}.

(** ** zod schemas and react-hook-form

    A field of a form holds a JavaScript value; a schema parses it into the
    typed value or fails ([None]). *)

Module Zod.

Inductive Value : Type :=
| Undefined
| Str (s : string)
| Num (n : JsNumber.number)
| DateObj (d : Date)
| FileList (files : list File).

Definition Schema (T : Type) : Type := Value -> option T.

(** [z.string()] *)
Definition string_ : Schema string :=
  fun v => match v with Str s => Some s | _ => None end.

(** [.min(n)] and [.max(n)] on a string schema: bounds on [length]. *)
Definition min (n : nat) (sch : Schema string) : Schema string :=
  fun v => match sch v with
           | Some s => if (n <=? String.length s)%nat then Some s else None
           | None => None
           end.

Definition max (n : nat) (sch : Schema string) : Schema string :=
  fun v => match sch v with
           | Some s => if (String.length s <=? n)%nat then Some s else None
           | None => None
           end.

(** [.email()]: zod's pattern for addresses is not part of the sources and
    is taken as a parameter. *)
Class EmailPattern : Type := { isEmail : string -> bool }.

Definition email_ `{EmailPattern} (sch : Schema string) : Schema string :=
  fun v => match sch v with
           | Some s => if isEmail s then Some s else None
           | None => None
           end.

(** [z.number()]: a number that is not NaN. *)
Definition number_ : Schema JsNumber.number :=
  fun v => match v with
           | Num JsNumber.NaN => None
           | Num n => Some n
           | _ => None
           end.

(** [.min(lo)] and [.max(hi)] on a number schema: inclusive bounds. *)
Definition nmin (lo : Q) (sch : Schema JsNumber.number) : Schema JsNumber.number :=
  fun v => match sch v with
           | Some n => if JsNumber.geq n lo then Some n else None
           | None => None
           end.

Definition nmax (hi : Q) (sch : Schema JsNumber.number) : Schema JsNumber.number :=
  fun v => match sch v with
           | Some n => if JsNumber.leq n hi then Some n else None
           | None => None
           end.

(** [z.date()]: a Date that is not invalid. *)
Definition date_ : Schema Z :=
  fun v => match v with DateObj (TimeValue t) => Some t | _ => None end.

(** [z.instanceof(FileList)] *)
Definition instanceofFileList : Schema (list File) :=
  fun v => match v with FileList fs => Some fs | _ => None end.

(** [.optional()] *)
Definition optional {T} (sch : Schema T) : Schema (option T) :=
  fun v => match v with
           | Undefined => Some None
           | _ => match sch v with Some x => Some (Some x) | None => None end
           end.

(** [handleSubmit(onValid)] with [zodResolver(schema)]: the handler runs on
    the parsed values, and only when the schema accepts the form. *)
Definition handleSubmit {Raw Data S : Type} (schema : Raw -> option Data)
  (onValid : Data -> S -> S) (values : Raw) (st : S) : S :=
  match schema values with
  | Some data => onValid data st
  | None => st
  end.

End Zod.

(** ** The feedback page ([Feedback], src/unnamed/part_002) *)

Module Feedback.

Definition MAX_FILE_SIZE : N := 5 * 1024 * 1024.

Definition ACCEPTED_IMAGE_TYPES : list string :=
  ["image/jpeg"; "image/jpg"; "image/png"; "image/webp"].

(** [ACCEPTED_IMAGE_TYPES.includes(t)] *)
Definition includes (l : list string) (t : string) : bool :=
  existsb (String.eqb t) l.

(** [feedbackSchema] *)
Definition feedbackSchema (feedback : Zod.Value) : option string :=
  Zod.min 10 Zod.string_ feedback.

(** The component's state, the toasts it has shown so far (oldest first),
    and the number of object URLs the page has created. *)
Record State : Type := {
  isSubmitting : bool;
  showSuccess : bool;
  selectedFiles : list File;
  previewUrls : list string;
  toasts : list Toast;
  objectUrls : nat
}.

Definition initial : State :=
  {| isSubmitting := false; showSuccess := false; selectedFiles := [];
     previewUrls := []; toasts := []; objectUrls := 0 |}.

(** [URL.createObjectURL(file)]: a URL the page has not handed out before. *)
Definition createObjectURL (n : nat) : string :=
  ("blob:" ++ decimal (Z.of_nat n))%string.

(** [validateFile]: the verdict and the toast it shows, if any. *)
Definition validateFile (file : File) : bool * list Toast :=
  if (MAX_FILE_SIZE <? size file)%N then
    (false, [{| title := "File too large";
                description := (name file ++ " is larger than 5MB")%string;
                destructive := true |}])
  else if negb (includes ACCEPTED_IMAGE_TYPES (type file)) then
    (false, [{| title := "Invalid file type";
                description := (name file ++ " is not a supported image type")%string;
                destructive := true |}])
  else (true, []).

(** What the [forEach] callback of [handleFileChange] updates: the local
    arrays [newFiles] and [newUrls], the toasts and the URL counter. *)
Record Batch : Type := {
  newFiles : list File;
  newUrls : list string;
  shown : list Toast;
  created : nat
}.

(** The [forEach] callback; [queued] is [selectedFiles.length] as the
    render that installed the handler saw it. *)
Definition addFile (queued : nat) (b : Batch) (file : File) : Batch :=
  let (ok, ts) := validateFile file in
  if ok then
    if (3 <=? queued + List.length (newFiles b))%nat then
      {| newFiles := newFiles b; newUrls := newUrls b;
         shown := shown b ++ ts ++
                  [{| title := "Too many files";
                      description := "Maximum of 3 files allowed";
                      destructive := true |}];
         created := created b |}
    else
      {| newFiles := newFiles b ++ [file];
         newUrls := newUrls b ++ [createObjectURL (created b)];
         shown := shown b ++ ts;
         created := S (created b) |}
  else
    {| newFiles := newFiles b; newUrls := newUrls b;
       shown := shown b ++ ts; created := created b |}.

(** [handleFileChange]; [files] is [event.target.files], which may be null. *)
Definition handleFileChange (st : State) (files : option (list File)) : State :=
  match files with
  | None => st
  | Some fs =>
      let b := fold_left (addFile (List.length (selectedFiles st))) fs
                 {| newFiles := []; newUrls := []; shown := toasts st;
                    created := objectUrls st |} in
      {| isSubmitting := isSubmitting st;
         showSuccess := showSuccess st;
         selectedFiles := selectedFiles st ++ newFiles b;
         previewUrls := previewUrls st ++ newUrls b;
         toasts := shown b;
         objectUrls := created b |}
  end.

(** [prev.filter((_, i) => i !== index)] *)
Fixpoint removeAt {A} (index : nat) (l : list A) : list A :=
  match l, index with
  | [], _ => []
  | _ :: l', O => l'
  | x :: l', S i => x :: removeAt i l'
  end.

Definition removeFile (st : State) (index : nat) : State :=
  {| isSubmitting := isSubmitting st;
     showSuccess := showSuccess st;
     selectedFiles := removeAt index (selectedFiles st);
     previewUrls := removeAt index (previewUrls st);
     toasts := toasts st;
     objectUrls := objectUrls st |}.

(** A call [onSubmit] makes to the backend, in the order made. *)
Inductive Call : Type :=
| CallUploadBytes (path : string) (file : File)
| CallGetDownloadURL (ref : string)
| CallAddDoc (coll : string) (doc : Doc).

(** The loop variables of the upload loop: [attachmentUrls], the toasts
    shown, the calls made and the backend. *)
Record Uploading (W : Type) : Type := {
  attachmentUrls : list string;
  upToasts : list Toast;
  calls : list Call;
  world : W
}.
Arguments attachmentUrls {W} _.
Arguments upToasts {W} _.
Arguments calls {W} _.
Arguments world {W} _.

Definition uploadFailed (file : File) : Toast :=
  {| title := "Upload Failed";
     description := ("Failed to upload " ++ name file)%string;
     destructive := true |}.

(** [`feedback-attachments/${user.uid}/${Date.now()}-${file.name}`] *)
Definition storagePath (user : User) (now : Z) (file : File) : string :=
  ("feedback-attachments/" ++ uid user ++ "/" ++ decimal now ++ "-" ++ name file)%string.

(** The body of [for (const file of selectedFiles)]: its own try/catch
    turns a failed upload into a toast and the loop goes on. *)
Definition uploadOne {W} `{Backend W} (user : User) (u : Uploading W) (file : File)
  : Uploading W :=
  let (now, w1) := dateNow (world u) in
  let path := storagePath user now file in
  let (snapshot, w2) := uploadBytes path file w1 in
  match snapshot with
  | inl _ =>
      {| attachmentUrls := attachmentUrls u;
         upToasts := upToasts u ++ [uploadFailed file];
         calls := calls u ++ [CallUploadBytes path file];
         world := w2 |}
  | inr ref =>
      let (url, w3) := getDownloadURL ref w2 in
      match url with
      | inl _ =>
          {| attachmentUrls := attachmentUrls u;
             upToasts := upToasts u ++ [uploadFailed file];
             calls := calls u ++ [CallUploadBytes path file; CallGetDownloadURL ref];
             world := w3 |}
      | inr url =>
          {| attachmentUrls := attachmentUrls u ++ [url];
             upToasts := upToasts u;
             calls := calls u ++ [CallUploadBytes path file; CallGetDownloadURL ref];
             world := w3 |}
      end
  end.

(** [onSubmit]: the new state of the component, the backend after it, and
    the calls it made. *)
Definition onSubmit {W} `{Backend W} (currentUser : option User) (feedback : string)
  (st : State) (w : W) : State * W * list Call :=
  match currentUser with
  | None => (st, w, [])
  | Some user =>
      let u := fold_left (uploadOne user) (selectedFiles st)
                 {| attachmentUrls := []; upToasts := toasts st; calls := []; world := w |} in
      let (now, w1) := dateNow (world u) in
      let doc := FeedbackDoc (uid user) (email user) feedback (attachmentUrls u) now in
      let (saved, w2) := addDoc "feedback" doc w1 in
      let calls' := calls u ++ [CallAddDoc "feedback" doc] in
      match saved with
      | inr _ =>
          ({| isSubmitting := false; showSuccess := true; selectedFiles := [];
              previewUrls := [];
              toasts := upToasts u ++
                        [{| title := "Feedback Submitted";
                            description := "Thank you for helping us improve the app!";
                            destructive := false |}];
              objectUrls := objectUrls st |}, w2, calls')
      | inl _ =>
          ({| isSubmitting := false; showSuccess := showSuccess st;
              selectedFiles := selectedFiles st; previewUrls := previewUrls st;
              toasts := upToasts u ++
                        [{| title := "Error";
                            description := "Failed to submit feedback. Please try again.";
                            destructive := true |}];
              objectUrls := objectUrls st |}, w2, calls')
      end
  end.

End Feedback.

(** ** The settings page ([Settings], src/unnamed/part_002) *)

Module Settings.

Record FormValues : Type := { displayName : Zod.Value; profilePicture : Zod.Value }.

Record FormData : Type := { data_displayName : string; data_profilePicture : option (list File) }.

(** [settingsSchema] *)
Definition settingsSchema (v : FormValues) : option FormData :=
  match Zod.max 50 (Zod.min 2 Zod.string_) (displayName v),
        Zod.optional Zod.instanceofFileList (profilePicture v) with
  | Some n, Some p => Some {| data_displayName := n; data_profilePicture := p |}
  | _, _ => None
  end.

End Settings.

(** ** src/components/auth/AuthForm.tsx *)

Module AuthForm.

Record FormValues : Type := {
  email : Zod.Value;
  password : Zod.Value;
  displayName : Zod.Value;
  profilePicture : Zod.Value
}.

Record AuthData : Type := { data_email : string; data_password : string }.

Record RegisterData : Type := {
  auth : AuthData;
  data_displayName : string;
  data_profilePicture : option (list File)
}.

(** [authSchema] *)
Definition authSchema `{Zod.EmailPattern} (v : FormValues) : option AuthData :=
  match Zod.email_ Zod.string_ (email v), Zod.min 6 Zod.string_ (password v) with
  | Some e, Some p => Some {| data_email := e; data_password := p |}
  | _, _ => None
  end.

(** [registerSchema = authSchema.extend({ displayName, profilePicture })] *)
Definition registerSchema `{Zod.EmailPattern} (v : FormValues) : option RegisterData :=
  match authSchema v,
        Zod.min 2 Zod.string_ (displayName v),
        Zod.optional Zod.instanceofFileList (profilePicture v) with
  | Some a, Some n, Some p =>
      Some {| auth := a; data_displayName := n; data_profilePicture := p |}
  | _, _, _ => None
  end.

End AuthForm.

(** ** src/components/pain/NewEntryForm.tsx *)

Module NewEntryForm.

Record FormValues : Type := { painLevel : Zod.Value; date : Zod.Value; notes : Zod.Value }.

Record FormData : Type := {
  data_painLevel : JsNumber.number;
  data_date : Z;
  data_notes : string
}.

(** [entrySchema] *)
Definition entrySchema (v : FormValues) : option FormData :=
  match Zod.nmax 10 (Zod.nmin 0 Zod.number_) (painLevel v),
        Zod.date_ (date v),
        Zod.string_ (notes v) with
  | Some p, Some d, Some n =>
      Some {| data_painLevel := p; data_date := d; data_notes := n |}
  | _, _, _ => None
  end.

(** The props of the [Slider]: [min={0} max={10} step={1}]. *)
Definition sliderMin : Q := 0.
Definition sliderMax : Q := 10.
Definition sliderStep : Q := 1.

(** The value the slider reports at its [k]-th stop. *)
Definition sliderStop (k : nat) : Q := sliderMin + inject_Z (Z.of_nat k) * sliderStep.

(** What the form has done: the documents written and the toasts shown. *)
Record State (W : Type) : Type := {
  written : list Doc;
  toasts : list Toast;
  world : W
}.
Arguments written {W} _.
Arguments toasts {W} _.
Arguments world {W} _.

(** [onSubmit] *)
Definition onSubmit {W} `{Backend W} (currentUser : option User) (data : FormData)
  (st : State W) : State W :=
  match currentUser with
  | None => st
  | Some user =>
      let (now, w1) := dateNow (world st) in
      let doc := PainEntryDoc (uid user) (data_painLevel data)
                   (TimeValue (data_date data)) (data_notes data) now in
      let (saved, w2) := addDoc "painEntries" doc w1 in
      match saved with
      | inr _ =>
          {| written := written st ++ [doc];
             toasts := toasts st ++
                       [{| title := "Entry Added";
                           description := "Your pain entry has been successfully recorded.";
                           destructive := false |}];
             world := w2 |}
      | inl _ =>
          {| written := written st;
             toasts := toasts st ++
                       [{| title := "Error";
                           description := "Failed to add your pain entry. Please try again.";
                           destructive := true |}];
             world := w2 |}
      end
  end.

(** [<form onSubmit={handleSubmit(onSubmit)}>] *)
Definition submit {W} `{Backend W} (currentUser : option User) (values : FormValues)
  (st : State W) : State W :=
  Zod.handleSubmit entrySchema (onSubmit currentUser) values st.

End NewEntryForm.

(** ** The storage rules (src/unnamed/part_000) *)

Module StorageRules.

(** [request]: the signed-in uid, if any, and the uploaded resource. *)
Record Request : Type := {
  auth_uid : option string;
  resource_size : N;
  resource_contentType : string
}.

Definition newline : ascii := ascii_of_nat 10.

Fixpoint no_newline (s : string) : bool :=
  match s with
  | EmptyString => true
  | String c s' => negb (Ascii.eqb c newline) && no_newline s'
  end.

(** [contentType.matches('image/.*')]: the whole string matches, and [.]
    matches any character but a newline. *)
Definition matches_image (s : string) : bool :=
  match s with
  | String "i" (String "m" (String "a" (String "g" (String "e" (String "/" rest))))) =>
      no_newline rest
  | _ => false
  end.

Definition signedInAs (request : Request) (userId : string) : bool :=
  match auth_uid request with
  | Some u => String.eqb u userId
  | None => false
  end.

(** [match /feedback-attachments/{userId}/{allPaths=**}]: [allow create]. *)
Definition feedbackAttachments_create (userId : string) (request : Request) : bool :=
  signedInAs request userId
  && (resource_size request <? 5 * 1024 * 1024)%N
  && matches_image (resource_contentType request).

(** [match /profile-pictures/{userId}/{allPaths=**}]: [allow write]. *)
Definition profilePictures_write (userId : string) (request : Request) : bool :=
  signedInAs request userId
  && (resource_size request <? 5 * 1024 * 1024)%N
  && matches_image (resource_contentType request).

End StorageRules.

(** ** Date fields and date-fns arithmetic

    [setDate], [setMonth] and [setFullYear] work on the local fields of a
    Date and keep its time of day; [addDays] and [addMonths] are date-fns'
    functions on top of them ([subDays] and [subMonths] negate the
    amount).  Months are numbered from 1 here. *)

Module DateArith.

(** [getFullYear()], [getMonth() + 1] and [getDate()]. *)
Definition getFullYear `{TimeZone} (t : Z) : Z := fst (fst (localFields t)).
Definition getMonth `{TimeZone} (t : Z) : Z := snd (fst (localFields t)).
Definition getDate `{TimeZone} (t : Z) : Z := snd (localFields t).

(** Milliseconds since local midnight. *)
Definition timeInDay `{TimeZone} (t : Z) : Z := (t + utcOffsetMs) mod msPerDay.

(** MakeDay: the day number of a year, a month that may lie outside 1..12
    and a day that may lie outside the month. *)
Definition makeDay (y m d : Z) : Z :=
  days_from_civil (y + (m - 1) / 12) ((m - 1) mod 12 + 1) d.

(** The time value of a local day and a time in that day. *)
Definition ofLocal `{TimeZone} (day ms : Z) : Z := day * msPerDay + ms - utcOffsetMs.

(** [d.setDate(n)], [d.setMonth(m - 1, n)] and [d.setFullYear(y, m - 1, n)]. *)
Definition setDate `{TimeZone} (t n : Z) : Z :=
  ofLocal (makeDay (getFullYear t) (getMonth t) n) (timeInDay t).

Definition setMonth `{TimeZone} (t m n : Z) : Z :=
  ofLocal (makeDay (getFullYear t) m n) (timeInDay t).

Definition setFullYear `{TimeZone} (t y m n : Z) : Z :=
  ofLocal (makeDay y m n) (timeInDay t).

(** date-fns [addDays]: [_date.setDate(_date.getDate() + amount)]. *)
Definition addDays `{TimeZone} (date : Date) (amount : Z) : Date :=
  match date with
  | InvalidDate => InvalidDate
  | TimeValue t =>
      if amount =? 0 then TimeValue t
      else TimeValue (setDate t (getDate t + amount))
  end.

Definition subDays `{TimeZone} (date : Date) (amount : Z) : Date :=
  addDays date (- amount).

(** date-fns [addMonths]: the same day of the month [amount] months on, or
    the last day of that month when it has no such day. *)
Definition addMonths `{TimeZone} (date : Date) (amount : Z) : Date :=
  match date with
  | InvalidDate => InvalidDate
  | TimeValue t =>
      if amount =? 0 then TimeValue t
      else
        let dayOfMonth := getDate t in
        let endOfDesiredMonth := setMonth t (getMonth t + amount + 1) 0 in
        let daysInMonth := getDate endOfDesiredMonth in
        if daysInMonth <=? dayOfMonth then TimeValue endOfDesiredMonth
        else TimeValue (setFullYear t (getFullYear endOfDesiredMonth)
                          (getMonth endOfDesiredMonth) dayOfMonth)
  end.

Definition subMonths `{TimeZone} (date : Date) (amount : Z) : Date :=
  addMonths date (- amount).

End DateArith.

(** ** src/components/pain/PainChart.tsx: the time range selector *)

Module PainChartControls.

(** [type TimeRange = '7d' | '30d' | '90d' | 'custom'] *)
Inductive TimeRange : Type := Last7d | Last30d | Last90d | Custom.

(** [timeRangeOptions[value].days] and [.label] *)
Definition days (value : TimeRange) : Z :=
  match value with
  | Last7d => 7
  | Last30d => 30
  | Last90d => 90
  | Custom => 0
  end.

Definition label (value : TimeRange) : string :=
  match value with
  | Last7d => "Last 7 days"
  | Last30d => "Last 30 days"
  | Last90d => "Last 3 months"
  | Custom => "Custom Range"
  end.

(** The chart's own [timeRange] and the [dateRange] its parent holds for it
    ([onDateRangeChange] is the parent's [setDateRange]). *)
Record State : Type := { timeRange : TimeRange; dateRange : PainChart.DateRange }.

(** [handleTimeRangeChange(value)]; [now] is what [new Date()] reads. *)
Definition handleTimeRangeChange `{TimeZone} (value : TimeRange) (now : Z) (st : State)
  : State :=
  match value with
  | Custom => {| timeRange := value; dateRange := dateRange st |}
  | _ =>
      let to := TimeValue now in
      let from := match value with
                  | Last90d => DateArith.subMonths to 3
                  | _ => DateArith.subDays to (days value)
                  end in
      {| timeRange := value;
         dateRange := {| PainChart.from := from; PainChart.to := to |} |}
  end.

End PainChartControls.

(** ** [PainEntriesTable] (in src/components/pain/PainChart.tsx) *)

Module PainEntriesTable.

(** [defaultDateRange], computed once when the module is loaded:
    [new Date(new Date().setDate(new Date().getDate() - 30))] and
    [new Date()].  The three readings of the clock are [now1] (the Date
    that [setDate] changes), [now2] (the Date [getDate] is asked of) and
    [now3]. *)
Definition defaultDateRange `{TimeZone} (now1 now2 now3 : Z) : PainChart.DateRange :=
  {| PainChart.from := TimeValue (DateArith.setDate now1 (DateArith.getDate now2 - 30));
     PainChart.to := TimeValue now3 |}.

(** A date range as the guard of [filteredEntries] takes it: either bound
    may be missing. *)
Record MaybeRange : Type := { from : option Date; to : option Date }.

(** [(a, b) => b.date.getTime() - a.date.getTime()] *)
Definition newestFirst (a b : PainEntry) : Z :=
  match getTime (date b), getTime (date a) with
  | Some x, Some y => x - y
  | _, _ => 0
  end.

(** [filteredEntries]: [entries] and [dateRange] may be undefined. *)
Definition filteredEntries (entries : option (list PainEntry))
  (dateRange : option MaybeRange) : list PainEntry :=
  match entries, dateRange with
  | Some es, Some {| from := Some f; to := Some t |} =>
      JsArray.sort newestFirst
        (filter (PainChart.inRange {| PainChart.from := f; PainChart.to := t |}) es)
  | _, _ => []
  end.

End PainEntriesTable.

(** ** The feedback form ([Feedback], src/unnamed/part_002) *)

Module FeedbackPage.

(** What a submission leaves behind: the component's state, the backend,
    and the calls made so far. *)
Definition Page (W : Type) : Type := (Feedback.State * W * list Feedback.Call)%type.

(** [<form onSubmit={handleSubmit(onSubmit)}>] with
    [zodResolver(feedbackSchema)]; [feedback] is the value of the
    textarea. *)
Definition submit {W} `{Backend W} (currentUser : option User) (feedback : Zod.Value)
  (page : Page W) : Page W :=
  Zod.handleSubmit Feedback.feedbackSchema
    (fun data page =>
       let '(st, w, cs) := page in
       let '(st', w', cs') := Feedback.onSubmit currentUser data st w in
       (st', w', cs ++ cs'))
    feedback page.

End FeedbackPage.

(** ** The Firestore rules (src/unnamed/part_001) *)

Module FirestoreRules.

(** The operations the rules name; [read] stands for [get] and [list],
    and [write] for [create], [update] and [delete]. *)
Inductive Method : Type := Read | Create | Update | Delete.

(** A request: [request.auth.uid] if somebody is signed in, the [userId]
    field of the document to be written ([request.resource.data.userId])
    and the one of the document as it is stored ([resource.data.userId]),
    where there is such a document and a field of that name holding a
    string. *)
Record Request : Type := {
  auth_uid : option string;
  method : Method;
  incoming_userId : option string;
  existing_userId : option string
}.

(** [request.auth != null && request.auth.uid == field]; the comparison
    with a missing field is an error, which denies. *)
Definition signedInAs (request : Request) (field : option string) : bool :=
  match auth_uid request, field with
  | Some u, Some v => String.eqb u v
  | _, _ => false
  end.

(** [match /painEntries/{entry}] *)
Definition painEntries (request : Request) : bool :=
  match method request with
  | Read => signedInAs request (existing_userId request)
  | Create => signedInAs request (incoming_userId request)
  | Update | Delete => signedInAs request (existing_userId request)
  end.

(** [match /users/{userId}]: [allow read, write]. *)
Definition users (userId : string) (request : Request) : bool :=
  signedInAs request (Some userId).

(** [match /feedback/{feedbackId}]: [allow create], and [allow read: if
    false]; an operation without a rule is denied. *)
Definition feedback (request : Request) : bool :=
  match method request with
  | Create => signedInAs request (incoming_userId request)
  | Read => false
  | Update | Delete => false
  end.

(** The rules of [match /databases/{database}/documents] for the document
    [docId] of the collection [collection]; a path no [match] covers is
    denied. *)
Definition allow (collection docId : string) (request : Request) : bool :=
  if String.eqb collection "painEntries" then painEntries request
  else if String.eqb collection "users" then users docId request
  else if String.eqb collection "feedback" then feedback request
  else false.

End FirestoreRules.

(** ** Async handlers that stop at the first rejected call

    The body of a [try] block that awaits one SDK call after the other: it
    runs against the backend, keeps a log of the calls it made, each with
    whether it was fulfilled, and returns or throws. *)

Module Task.

Section Task.
Context {W C : Type}.

Definition t (A : Type) : Type :=
  W -> list (C * bool) -> Throws A * W * list (C * bool).

Definition ret {A} (a : A) : t A := fun w log => (inr a, w, log).

Definition bind {A B} (m : t A) (k : A -> t B) : t B :=
  fun w log =>
    match m w log with
    | (inl e, w', log') => (inl e, w', log')
    | (inr a, w', log') => k a w' log'
    end.

(** [await op(...)], logged as the call [c]. *)
Definition await {A} (c : C) (op : W -> Throws A * W) : t A :=
  fun w log =>
    let (r, w') := op w in
    (r, w', log ++ [(c, match r with inr _ => true | inl _ => false end)]).

(** A reading that cannot fail, such as [new Date()]. *)
Definition read {A} (op : W -> A * W) : t A :=
  fun w log => let (a, w') := op w in (inr a, w', log).

End Task.

End Task.

Declare Scope task_scope.
Delimit Scope task_scope with task.
Notation "x <- c ;; k" := (Task.bind c (fun x => k))
  (at level 61, c at next level, right associativity) : task_scope.

(** ** Firebase Auth and the user documents *)

Module Profile.

(** [auth.currentUser] with the profile fields the pages read. *)
Record Account : Type := {
  user : User;
  displayName : option string;
  photoURL : option string
}.

(** The document of a user in the collection users: written with
    [createdAt] at registration, merged with [updatedAt] by the settings. *)
Inductive Stamp : Type := CreatedAt (t : Z) | UpdatedAt (t : Z).

Record UserDoc : Type := {
  doc_email : option string;
  doc_displayName : string;
  doc_photoURL : option string;
  doc_stamp : Stamp
}.

(** The calls of the sign-up form and of the settings page. *)
Inductive Call : Type :=
| CreateUser (email password : string)
| UploadBytes (path : string) (file : File)
| GetDownloadURL (ref : string)
| UpdateProfile (uid : string) (displayName : string) (photoURL : option string)
| SetDoc (collection docId : string) (doc : UserDoc) (merge : bool).

Class AuthBackend (W : Type) : Type := {
  createUserWithEmailAndPassword : string -> string -> W -> Throws User * W;
  updateProfile : string -> string -> option string -> W -> Throws unit * W;
  setDoc : string -> string -> UserDoc -> bool -> W -> Throws unit * W
}.

(** [err.message] *)
Definition message (e : Exn) : string :=
  match e with
  | RangeError msg => msg
  | Rejected msg => msg
  end.

(** [`profile-pictures/${user.uid}/${file.name}`] *)
Definition storagePath (u : User) (file : File) : string :=
  ("profile-pictures/" ++ uid u ++ "/" ++ name file)%string.

(** [const snapshot = await uploadBytes(storageRef, file);
     photoURL = await getDownloadURL(snapshot.ref);] *)
Definition uploadPicture {W} `{Backend W} (u : User) (file : File)
  : Task.t (W := W) (C := Call) string :=
  (let path := storagePath u file in
   snapshot <- Task.await (UploadBytes path file) (uploadBytes path file) ;;
   Task.await (GetDownloadURL snapshot) (getDownloadURL snapshot))%task.

End Profile.

(** ** The settings page: handlers ([Settings], src/unnamed/part_002) *)

Module SettingsPage.
Import Profile.

Definition MAX_FILE_SIZE : N := 5 * 1024 * 1024.

Definition ACCEPTED_IMAGE_TYPES : list string :=
  ["image/jpeg"; "image/jpg"; "image/png"; "image/webp"].

(** The component's state, the toasts shown so far and the number of
    object URLs the page has created. *)
Record State : Type := {
  loading : bool;
  previewUrl : option string;
  toasts : list Toast;
  objectUrls : nat
}.

(** [handleProfilePictureChange]; [files] is [e.target.files]. *)
Definition handleProfilePictureChange (files : list File) (st : State) : State :=
  match files with
  | [] => st
  | file :: _ =>
      if (MAX_FILE_SIZE <? size file)%N then
        {| loading := loading st; previewUrl := previewUrl st;
           toasts := toasts st ++
                     [{| title := "File too large";
                         description := "Profile picture must be less than 5MB";
                         destructive := true |}];
           objectUrls := objectUrls st |}
      else if negb (Feedback.includes ACCEPTED_IMAGE_TYPES (type file)) then
        {| loading := loading st; previewUrl := previewUrl st;
           toasts := toasts st ++
                     [{| title := "Invalid file type";
                         description := "Please upload a valid image file (JPEG, PNG, WebP)";
                         destructive := true |}];
           objectUrls := objectUrls st |}
      else
        {| loading := loading st;
           previewUrl := Some (Feedback.createObjectURL (objectUrls st));
           toasts := toasts st;
           objectUrls := S (objectUrls st) |}
  end.

(** The body of the [try] block of [onSubmit]. *)
Definition save {W} `{Backend W} `{AuthBackend W} (account : Account)
  (data : Settings.FormData) : Task.t (W := W) (C := Call) unit :=
  (let u := user account in
   photo <- match Settings.data_profilePicture data with
            | Some (file :: _) =>
                url <- uploadPicture u file ;; Task.ret (Some url)
            | _ => Task.ret (photoURL account)
            end ;;
   _ <- Task.await (UpdateProfile (uid u) (Settings.data_displayName data) photo)
          (updateProfile (uid u) (Settings.data_displayName data) photo) ;;
   now <- Task.read dateNow ;;
   let doc := {| doc_email := email u;
                 doc_displayName := Settings.data_displayName data;
                 doc_photoURL := photo;
                 doc_stamp := UpdatedAt now |} in
   Task.await (SetDoc "users" (uid u) doc true) (setDoc "users" (uid u) doc true))%task.

(** [onSubmit]: the new state, the backend after it and the log of its
    calls. *)
Definition onSubmit {W} `{Backend W} `{AuthBackend W} (currentUser : option Account)
  (data : Settings.FormData) (st : State) (w : W) : State * W * list (Call * bool) :=
  match currentUser with
  | None => (st, w, [])
  | Some account =>
      let '(result, w', log) := save account data w [] in
      let shown :=
        match result with
        | inr _ =>
            {| title := "Settings Updated";
               description := "Your profile has been successfully updated.";
               destructive := false |}
        | inl _ =>
            {| title := "Error";
               description := "Failed to update your profile. Please try again.";
               destructive := true |}
        end in
      ({| loading := false; previewUrl := previewUrl st;
          toasts := toasts st ++ [shown]; objectUrls := objectUrls st |}, w', log)
  end.

(** The page with the value its form holds for the file input, registered
    as [register('profilePicture', { onChange: handleProfilePictureChange })]:
    a change of the input stores its files in the form and then runs the
    handler. *)
Record Page : Type := { state : State; profilePicture : Zod.Value }.

Definition change (files : list File) (page : Page) : Page :=
  {| state := handleProfilePictureChange files (state page);
     profilePicture := Zod.FileList files |}.

(** [<form onSubmit={handleSubmit(onSubmit)}>] with the value of the name
    input. *)
Definition submit {W} `{Backend W} `{AuthBackend W} (currentUser : option Account)
  (displayName : Zod.Value) (page : Page) (w : W) : State * W * list (Call * bool) :=
  match Settings.settingsSchema {| Settings.displayName := displayName;
                                   Settings.profilePicture := profilePicture page |} with
  | Some data => onSubmit currentUser data (state page) w
  | None => (state page, w, [])
  end.

End SettingsPage.

(** ** The sign-up form: handlers (src/components/auth/AuthForm.tsx) *)

Module SignUp.
Import Profile.

(** The part of the component's state that [onRegister] touches. *)
Record State : Type := {
  error : string;
  isRegistering : bool;
  toasts : list Toast
}.

(** The body of the [try] block of [onRegister]. *)
Definition register {W} `{Backend W} `{AuthBackend W} (data : AuthForm.RegisterData)
  : Task.t (W := W) (C := Call) unit :=
  (let address := AuthForm.data_email (AuthForm.auth data) in
   let password := AuthForm.data_password (AuthForm.auth data) in
   u <- Task.await (CreateUser address password)
          (createUserWithEmailAndPassword address password) ;;
   photoURL <- match AuthForm.data_profilePicture data with
               | Some (file :: _) => uploadPicture u file
               | _ => Task.ret ""
               end ;;
   let photo := if String.eqb photoURL "" then None else Some photoURL in
   _ <- Task.await (UpdateProfile (uid u) (AuthForm.data_displayName data) photo)
          (updateProfile (uid u) (AuthForm.data_displayName data) photo) ;;
   now <- Task.read dateNow ;;
   let doc := {| doc_email := email u;
                 doc_displayName := AuthForm.data_displayName data;
                 doc_photoURL := photo;
                 doc_stamp := CreatedAt now |} in
   Task.await (SetDoc "users" (uid u) doc false) (setDoc "users" (uid u) doc false))%task.

(** [onRegister] *)
Definition onRegister {W} `{Backend W} `{AuthBackend W} (currentUser : option Account)
  (data : AuthForm.RegisterData) (st : State) (w : W)
  : State * W * list (Call * bool) :=
  let noUser := match currentUser with None => true | Some _ => false end in
  if noUser && String.eqb (AuthForm.data_email (AuthForm.auth data)) ""
     && String.eqb (AuthForm.data_password (AuthForm.auth data)) ""
  then (st, w, [])
  else
    let '(result, w', log) := register data w [] in
    match result with
    | inr _ => ({| error := ""; isRegistering := false; toasts := toasts st |}, w', log)
    | inl err =>
        ({| error := message err; isRegistering := false;
            toasts := toasts st ++
                      [{| title := "Registration Failed";
                          description := message err;
                          destructive := true |}] |}, w', log)
    end.

(** [<form onSubmit={handleSignUpSubmit(onRegister)}>] *)
Definition submit {W} `{Backend W} `{AuthBackend W} `{Zod.EmailPattern}
  (currentUser : option Account) (values : AuthForm.FormValues) (st : State) (w : W)
  : State * W * list (Call * bool) :=
  match AuthForm.registerSchema values with
  | Some data => onRegister currentUser data st w
  | None => (st, w, [])
  end.

End SignUp.

(** * The vocabulary of the statements *)

(** The key [reducer] files an entry under. *)
Definition dateStr `{TimeZone} (e : PainEntry) : string :=
  match format (date e) "yyyy-MM-dd" with
  | inr s => s
  | inl _ => ""
  end.

(** What [reducer] stores under the key of [e], given what was there. *)
Definition absorb (o : option PainChart.Daily) (e : PainEntry) : PainChart.Daily :=
  match o with
  | None =>
      {| PainChart.d_date := date e; PainChart.totalPain := painLevel e;
         PainChart.count := 1 |}
  | Some d =>
      {| PainChart.d_date := PainChart.d_date d;
         PainChart.totalPain := JsNumber.add (PainChart.totalPain d) (painLevel e);
         PainChart.count := JsNumber.add (PainChart.count d) 1 |}
  end.

(** A Date that is not an Invalid Date. *)
Definition validDate (d : Date) : Prop := exists t, d = TimeValue t.

(** Every bucket keeps the date of a valid entry. *)
Definition validDaily (acc : PainChart.DailyData) : Prop :=
  forall kv, In kv acc -> validDate (PainChart.d_date (snd kv)).

(** An entry observed at [t] with a whole pain level, for the scenarios. *)
Definition entryAt (t : Z) (level : Z) : PainEntry :=
  {| id := "e"; userId := "u"; painLevel := inject_Z level;
     date := TimeValue t; notes := ""; createdAt := TimeValue t |}.

(** Midnight UTC of 2024-01-01, 2024-01-02, 2024-02-01 and 2023-12-31. *)
Definition jan1_2024 : Z := 1704067200000.
Definition jan2_2024 : Z := 1704153600000.
Definition feb1_2024 : Z := 1706745600000.
Definition dec31_2023 : Z := 1703980800000.

(** The bucket of day [k] after the entries [l], starting from [o]. *)
Definition bucketOf `{TimeZone} (k : string) (l : list PainEntry)
  (o : option PainChart.Daily) : option PainChart.Daily :=
  fold_left (fun o e => if String.eqb k (dateStr e) then Some (absorb o e) else o) l o.

(** The arithmetic mean, in exact arithmetic. *)
Definition mean (xs : list Q) : Q :=
  (fold_right Qplus 0 xs / inject_Z (Z.of_nat (List.length xs)))%Q.

(** [v] is [x] rounded to one decimal place: a multiple of one tenth at
    most half a tenth away from [x]. *)
Definition roundedToOneDecimal (v x : Q) : Prop :=
  (exists n : Z, v == n # 10)%Q /\ (Qabs (v - x) <= 1 # 20)%Q.

(** A pain level as the entry form stores it: an integer from 0 to 10. *)
Definition wholeLevel (e : PainEntry) : Prop :=
  exists k : Z, painLevel e = inject_Z k /\ 0 <= k <= 10.

(** The entries of [l] that [reducer] files under [k]. *)
Definition onDay `{TimeZone} (k : string) (l : list PainEntry) : list PainEntry :=
  filter (fun e => String.eqb k (dateStr e)) l.

(** The sum of the pain levels of entries with whole levels. *)
Definition sumLevels (l : list PainEntry) : Z :=
  fold_right (fun e a => Qnum (painLevel e) + a) 0 l.

(** A candidate file of a given size and declared type. *)
Definition screenshot (bytes : N) (contentType : string) : File :=
  {| name := "shot.png"; size := bytes; type := contentType |}.

(** The states the feedback page can be in: it starts empty, and each event
    (a file selection, a removal, a submission against any backend) leads
    from a state to the next. *)
Inductive reachable : Feedback.State -> Prop :=
| reach_initial : reachable Feedback.initial
| reach_change st files :
    reachable st -> reachable (Feedback.handleFileChange st files)
| reach_remove st index :
    reachable st -> reachable (Feedback.removeFile st index)
| reach_submit (W : Type) (B : Backend W) currentUser feedback st (w : W) :
    reachable st ->
    reachable (fst (fst (Feedback.onSubmit currentUser feedback st w))).

(** The toast of the cap in [handleFileChange]. *)
Definition tooManyFiles : Toast :=
  {| title := "Too many files"; description := "Maximum of 3 files allowed";
     destructive := true |}.

(** The toasts one candidate file draws when the queue is full. *)
Definition refusal (file : File) : list Toast :=
  snd (Feedback.validateFile file)
  ++ (if fst (Feedback.validateFile file) then [tooManyFiles] else []).

(** The page after three valid files were selected at once. *)
Definition threeQueued : Feedback.State :=
  Feedback.handleFileChange Feedback.initial
    (Some [screenshot 100 "image/png"; screenshot 200 "image/jpeg";
           screenshot 300 "image/webp"]).

(** How the backend answers the upload of one file, started in [w]: the
    retrieval URL when both [uploadBytes] and [getDownloadURL] succeed. *)
Definition attempt {W} `{Backend W} (user : User) (file : File) (w : W)
  : option string * W :=
  let (now, w1) := dateNow w in
  let (snapshot, w2) := uploadBytes (Feedback.storagePath user now file) file w1 in
  match snapshot with
  | inl _ => (None, w2)
  | inr ref =>
      let (url, w3) := getDownloadURL ref w2 in
      (match url with inr u => Some u | inl _ => None end, w3)
  end.

(** The answers to the uploads of [files], one after the other. *)
Fixpoint outcomes {W} `{Backend W} (user : User) (files : list File) (w : W)
  : list (option string) * W :=
  match files with
  | [] => ([], w)
  | file :: files' =>
      let (r, w1) := attempt user file w in
      let (rs, w2) := outcomes user files' w1 in
      (r :: rs, w2)
  end.

(** The URLs among the answers, in order. *)
Fixpoint successes (rs : list (option string)) : list string :=
  match rs with
  | [] => []
  | Some u :: rs' => u :: successes rs'
  | None :: rs' => successes rs'
  end.

(** The files whose upload the calls start, in order. *)
Definition uploadsStarted (cs : list Feedback.Call) : list File :=
  flat_map (fun c => match c with
                     | Feedback.CallUploadBytes _ file => [file]
                     | _ => []
                     end) cs.

(** The documents the calls write, in order. *)
Definition docsAdded (cs : list Feedback.Call) : list Doc :=
  flat_map (fun c => match c with
                     | Feedback.CallAddDoc _ doc => [doc]
                     | _ => []
                     end) cs.

(** A backend for examples: the clock ticks once per reading, and an upload
    fails exactly for files of more than 250 bytes. *)
#[local] Instance flakyBackend : Backend Z := {|
  dateNow := fun w => (w, w + 1);
  uploadBytes := fun path file w =>
    (if (250 <? size file)%N then inl (Rejected "storage/unknown") else inr path, w);
  getDownloadURL := fun ref w => (inr ("https://storage/" ++ ref)%string, w);
  addDoc := fun coll doc w => (inr tt, w)
|}.

(** A signed-in user. *)
Definition someUser : User := {| uid := "u1"; email := Some "a@b.co" |}.

(** A display name of 51 characters. *)
Definition name51 : string := string_of_list_ascii (repeat "a"%char 51).

(** A number that is an integer. *)
Definition isInteger (n : JsNumber.number) : bool :=
  match n with
  | JsNumber.Finite q => (Qden (Qred q) =? 1)%positive
  | _ => false
  end.

(** [getFullYear()] of a valid date. *)
Definition localYear `{TimeZone} (t : Z) : Z := fst (fst (localFields t)).





(** Padded to [width] digits, the numbers from 1 to [n] are spelt with
    exactly [width] characters and read back as themselves. *)
Definition paddedUpTo (n : nat) (width : nat) : bool :=
  forallb (fun k : nat =>
             let s := addLeadingZeros (Z.of_nat k) width in
             (String.length s =? width)%nat && (digits_value s 0 =? Z.of_nat k))
          (seq 1 n).

(** Leap years and the lengths of the months of the Gregorian calendar. *)
Definition isLeap (y : Z) : bool :=
  (y mod 4 =? 0) && (negb (y mod 100 =? 0) || (y mod 400 =? 0)).

Definition daysInMonth (y m : Z) : Z :=
  if m =? 2 then (if isLeap y then 29 else 28)
  else if (m =? 4) || (m =? 6) || (m =? 9) || (m =? 11) then 30 else 31.

(** The window of the [k] days up to [now]. *)
Definition lastDays (now k : Z) : PainChart.DateRange :=
  {| PainChart.from := TimeValue (now - k * msPerDay); PainChart.to := TimeValue now |}.

(** The month three months before month [m] of year [y]. *)
Definition threeMonthsBefore (y m : Z) : Z * Z :=
  if m <=? 3 then (y - 1, m + 9) else (y, m - 3).

(** Midnight UTC of 2023-05-01 and of 2023-10-01. *)
Definition may1_2023 : Z := 1682899200000.
Definition oct1_2023 : Z := 1696118400000.

(** [a] was observed at the time of [b] or later. *)
Definition notOlder (a b : PainEntry) : Prop :=
  exists x y, date a = TimeValue x /\ date b = TimeValue y /\ y <= x.

(** A date range with both of its bounds, as the table's state holds it. *)
Definition bothBounds (r : PainChart.DateRange) : option PainEntriesTable.MaybeRange :=
  Some {| PainEntriesTable.from := Some (PainChart.from r);
          PainEntriesTable.to := Some (PainChart.to r) |}.

(** The queued files whose upload the backend fails, in queue order. *)
Fixpoint failedUploads {W} `{Backend W} (user : User) (files : list File) (w : W)
  : list File :=
  match files with
  | [] => []
  | file :: files' =>
      let (r, w1) := attempt user file w in
      match r with
      | None => file :: failedUploads user files' w1
      | Some _ => failedUploads user files' w1
      end
  end.

(** The toasts that close a submission of feedback. *)
Definition feedbackSubmitted : Toast :=
  {| title := "Feedback Submitted";
     description := "Thank you for helping us improve the app!";
     destructive := false |}.

Definition feedbackNotSubmitted : Toast :=
  {| title := "Error";
     description := "Failed to submit feedback. Please try again.";
     destructive := true |}.

(** A backend that stores every upload and refuses every document. *)
Definition firestoreDown : Backend Z := {|
  dateNow := fun w => (w, w + 1);
  uploadBytes := fun path file w => (inr path, w);
  getDownloadURL := fun ref w => (inr ("https://storage/" ++ ref)%string, w);
  addDoc := fun coll doc w => (inl (Rejected "unavailable"), w)
|}.

(** The [userId] field of a document a form writes. *)
Definition docUserId (doc : Doc) : option string :=
  match doc with
  | FeedbackDoc userId _ _ _ _ => Some userId
  | PainEntryDoc userId _ _ _ _ => Some userId
  end.

(** The request that creates [doc] on behalf of [who]. *)
Definition createRequest (who : option string) (doc : Doc) : FirestoreRules.Request :=
  {| FirestoreRules.auth_uid := who;
     FirestoreRules.method := FirestoreRules.Create;
     FirestoreRules.incoming_userId := docUserId doc;
     FirestoreRules.existing_userId := None |}.

(** The documents the calls write, each with its collection. *)
Definition docsAddedTo (cs : list Feedback.Call) : list (string * Doc) :=
  flat_map (fun c => match c with
                     | Feedback.CallAddDoc coll doc => [(coll, doc)]
                     | _ => []
                     end) cs.

(** The upload of [file] as the storage rules see it. *)
Definition uploadRequest (who : option string) (file : File) : StorageRules.Request :=
  {| StorageRules.auth_uid := who;
     StorageRules.resource_size := size file;
     StorageRules.resource_contentType := type file |}.

(** Every call of the log was fulfilled. *)
Definition succeeded {C} (log : list (C * bool)) : bool := forallb snd log.

(** Every call of the log but the last was fulfilled. *)
Fixpoint onlyLastMayFail {C} (log : list (C * bool)) : bool :=
  match log with
  | [] => true
  | [_] => true
  | (_, ok) :: rest => ok && onlyLastMayFail rest
  end.

(** The toasts that close a submission of the settings. *)
Definition settingsUpdated : Toast :=
  {| title := "Settings Updated";
     description := "Your profile has been successfully updated.";
     destructive := false |}.

Definition settingsNotUpdated : Toast :=
  {| title := "Error";
     description := "Failed to update your profile. Please try again.";
     destructive := true |}.

(** An upload of a profile picture, or the request for its URL. *)
Definition isPictureCall (c : Profile.Call) : bool :=
  match c with
  | Profile.UploadBytes _ _ | Profile.GetDownloadURL _ => true
  | _ => false
  end.

(** A backend for examples that fulfils every call about accounts. *)
Definition accounts : Profile.AuthBackend Z := {|
  Profile.createUserWithEmailAndPassword := fun address password w =>
    (inr {| uid := "u2"; email := Some address |}, w);
  Profile.updateProfile := fun uid displayName photoURL w => (inr tt, w);
  Profile.setDoc := fun collection docId doc merge w => (inr tt, w)
|}.

(** A signed-in account without a picture. *)
Definition someAccount : Profile.Account :=
  {| Profile.user := someUser; Profile.displayName := Some "Ann";
     Profile.photoURL := None |}.

(** A pattern for examples: an address holds an at sign. *)
Definition hasAtSign : Zod.EmailPattern :=
  {| Zod.isEmail := fun s => existsb (Ascii.eqb "@"%char) (list_ascii_of_string s) |}.

(** * Theorems *)

(** ** Helpers: the exception monad and lists *)

Lemma bind_inr {A B} (c : Throws A) (k : A -> Throws B) (b : B) :
  bind c k = inr b -> exists a, c = inr a /\ k a = inr b.
Proof.
  destruct c as [e | a]; simpl; intros Hb; [discriminate | eauto].
Qed.

Lemma mapM_total {A B} (f : A -> Throws B) (xs : list A) :
  (forall x, In x xs -> exists y, f x = inr y) ->
  exists ys, mapM f xs = inr ys /\ List.length ys = List.length xs.
Proof.
  induction xs as [| x xs IH]; intros Hf; simpl.
  - exists []. split; reflexivity.
  - destruct (Hf x (or_introl eq_refl)) as [y Hy].
    destruct IH as [ys [Hys Hlen]]; [intros z Hz; apply Hf; right; exact Hz |].
    exists (y :: ys). rewrite Hy, Hys. simpl. split; [reflexivity | now rewrite Hlen].
Qed.

Lemma mapM_In {A B} (f : A -> Throws B) (xs : list A) (ys : list B) :
  mapM f xs = inr ys ->
  forall x y, In x xs -> f x = inr y -> In y ys.
Proof.
  revert ys. induction xs as [| x0 xs IH]; intros ys Hm x y Hin Hy; [contradiction |].
  simpl in Hm. apply bind_inr in Hm. destruct Hm as [y0 [Hy0 Hm]].
  apply bind_inr in Hm. destruct Hm as [ys0 [Hys0 Hm]].
  injection Hm as <-. destruct Hin as [-> | Hin].
  - left. congruence.
  - right. eapply IH; eauto.
Qed.

(** ** Helpers: the stable sort *)

Section SortFacts.
Context {A : Type} (compareFn : A -> A -> Z).

Lemma insert_perm (x : A) (l : list A) :
  Permutation (x :: l) (JsArray.insert compareFn x l).
Proof.
  induction l as [| y l IH]; simpl; [apply Permutation_refl |].
  destruct (compareFn x y <=? 0); [apply Permutation_refl |].
  eapply Permutation_trans; [apply perm_swap | apply perm_skip, IH].
Qed.

Lemma sort_perm (l : list A) : Permutation l (JsArray.sort compareFn l).
Proof.
  induction l as [| x l IH]; simpl; [constructor |].
  eapply Permutation_trans; [apply perm_skip, IH | apply insert_perm].
Qed.

End SortFacts.

(** ** The chart: filtering *)

Section ChartFacts.
Context `{tz : TimeZone}.
Import PainChart.

Lemma format_key_total (t : Z) : exists s, format (TimeValue t) "yyyy-MM-dd" = inr s.
Proof.
  unfold format. destruct (localFields t) as [[y m] d].
  eexists. cbn. reflexivity.
Qed.

Lemma format_label_total (t : Z) : exists s, format (TimeValue t) "MMM d" = inr s.
Proof.
  unfold format. destruct (localFields t) as [[y m] d].
  eexists. cbn. reflexivity.
Qed.

Lemma inRange_spec (r : DateRange) (e : PainEntry) :
  inRange r e = true <->
  exists t f u, date e = TimeValue t /\ from r = TimeValue f /\ to r = TimeValue u
                /\ f <= t <= u.
Proof.
  unfold inRange, JsDate.ge, JsDate.le.
  destruct (date e) as [t |], (from r) as [f |], (to r) as [u |]; simpl;
    try (split; [intros H; try discriminate; destruct (_ <=? _); discriminate
                | intros (t' & f' & u' & H1 & H2 & H3 & _); discriminate]).
  rewrite andb_true_iff, !Z.leb_le. split.
  - intros [H1 H2]. exists t, f, u. repeat split; assumption.
  - intros (t' & f' & u' & H1 & H2 & H3 & H4 & H5).
    injection H1 as <-. injection H2 as <-. injection H3 as <-. split; assumption.
Qed.

Lemma inRange_valid (r : DateRange) (e : PainEntry) :
  inRange r e = true -> exists t, date e = TimeValue t.
Proof.
  intros H. apply inRange_spec in H. destruct H as (t & _ & _ & H & _). eauto.
Qed.

End ChartFacts.

(** ** The chart: the [reduce] over the retained entries *)

Section ReduceFacts.
Context `{tz : TimeZone}.
Import PainChart.

Lemma reducer_valid (acc : DailyData) (e : PainEntry) :
  validDate (date e) ->
  reducer acc e = inr (assign (dateStr e) (absorb (lookup (dateStr e) acc) e) acc).
Proof.
  intros [t Ht]. destruct (format_key_total t) as [s Hs]. rewrite <- Ht in Hs.
  unfold reducer, dateStr. rewrite Hs. simpl.
  destruct (lookup s acc); reflexivity.
Qed.

Lemma lookup_assign (k k' : string) (v : Daily) (acc : DailyData) :
  lookup k' (assign k v acc) = if String.eqb k' k then Some v else lookup k' acc.
Proof.
  induction acc as [| [k0 v0] acc IH]; simpl.
  - reflexivity.
  - destruct (String.eqb_spec k k0) as [-> | Hk]; simpl.
    + destruct (String.eqb_spec k' k0); reflexivity.
    + rewrite IH. destruct (String.eqb_spec k' k0) as [-> | Hk'];
        [| reflexivity].
      destruct (String.eqb_spec k0 k); [congruence | reflexivity].
Qed.

Lemma lookup_In (k : string) (acc : DailyData) (d : Daily) :
  lookup k acc = Some d -> In (k, d) acc.
Proof.
  induction acc as [| [k0 v0] acc IH]; simpl; [discriminate |].
  destruct (String.eqb_spec k k0) as [-> | Hk].
  - intros [= ->]. now left.
  - intros H. right. exact (IH H).
Qed.

Lemma In_assign (k : string) (v : Daily) (acc : DailyData) (kv : string * Daily) :
  In kv (assign k v acc) -> kv = (k, v) \/ In kv acc.
Proof.
  induction acc as [| [k0 v0] acc IH]; simpl.
  - intros [H | []]. now left.
  - destruct (String.eqb k k0); simpl.
    + intros [H | H]; [now left | right; now right].
    + intros [H | H]; [right; now left |].
      destruct (IH H); [now left | right; now right].
Qed.

Lemma length_assign (k : string) (v : Daily) (acc : DailyData) :
  List.length (assign k v acc)
  = match lookup k acc with
    | Some _ => List.length acc
    | None => S (List.length acc)
    end.
Proof.
  induction acc as [| [k0 v0] acc IH]; simpl; [reflexivity |].
  destruct (String.eqb k k0); simpl; [reflexivity |].
  rewrite IH. destruct (lookup k acc); reflexivity.
Qed.

Lemma absorb_valid (acc : DailyData) (e : PainEntry) (k : string) :
  validDaily acc -> validDate (date e) ->
  validDate (d_date (absorb (lookup k acc) e)).
Proof.
  intros Hacc He. destruct (lookup k acc) as [d |] eqn:Hl; simpl; [| exact He].
  exact (Hacc _ (lookup_In _ _ _ Hl)).
Qed.

Lemma foldM_reducer_total (l : list PainEntry) (acc : DailyData) :
  (forall e, In e l -> validDate (date e)) -> validDaily acc ->
  exists acc', foldM reducer acc l = inr acc' /\ validDaily acc'.
Proof.
  revert acc. induction l as [| e l IH]; intros acc Hl Hacc; simpl.
  - eauto.
  - rewrite (reducer_valid acc e) by (apply Hl; now left). simpl.
    apply IH; [intros x Hx; apply Hl; now right |].
    intros kv Hkv. apply In_assign in Hkv. destruct Hkv as [-> | Hkv].
    + simpl. apply absorb_valid; [exact Hacc | apply Hl; now left].
    + now apply Hacc.
Qed.

Lemma filteredEntries_valid (entries : list PainEntry) (r : DateRange) (e : PainEntry) :
  In e (filteredEntries entries r) -> validDate (date e).
Proof.
  unfold filteredEntries. rewrite filter_In. intros [_ H].
  exact (inRange_valid r e H).
Qed.

Lemma toPoint_total (kv : string * Daily) :
  validDate (d_date (snd kv)) -> exists p, toPoint kv = inr p.
Proof.
  intros [t Ht]. unfold toPoint. rewrite Ht.
  destruct (format_label_total t) as [s Hs]. rewrite Hs. simpl. eauto.
Qed.

(** [chartData] never throws: it returns the sorted points of the buckets. *)
Lemma chartData_total (entries : list PainEntry) (r : DateRange) :
  exists daily points,
    dailyData entries r = inr daily
    /\ validDaily daily
    /\ mapM toPoint daily = inr points
    /\ List.length points = List.length daily
    /\ chartData entries r = inr (JsArray.sort compareFn points).
Proof.
  destruct (foldM_reducer_total (filteredEntries entries r) [])
    as [daily [Hd Hv]].
  - intros e. apply filteredEntries_valid.
  - intros kv [].
  - destruct (mapM_total toPoint daily) as [points [Hp Hlen]].
    + intros kv Hkv. apply toPoint_total. now apply Hv.
    + exists daily, points. unfold chartData, dailyData in *.
      rewrite Hd. simpl. rewrite Hp. simpl. repeat split; assumption.
Qed.

Lemma inverted_range_retains_nothing (entries : list PainEntry) (f t : Z) :
  t < f ->
  filteredEntries entries {| from := TimeValue f; to := TimeValue t |} = [].
Proof.
  intros Hft. unfold filteredEntries. induction entries as [| e l IH]; simpl;
    [reflexivity |].
  rewrite IH. unfold inRange, JsDate.ge, JsDate.le. simpl.
  destruct (date e) as [x |]; simpl; [| reflexivity].
  destruct (Z.leb_spec f x), (Z.leb_spec x t); simpl; try reflexivity. lia.
Qed.

End ReduceFacts.

(** C7. A window with [from] after [to] yields the empty series and no
    exception, whatever the entries; so does an empty entry collection,
    whatever the window (invalid bounds included). *)
Theorem chartData_inverted_or_empty :
  forall (tz : TimeZone),
    (forall (entries : list PainEntry) (f t : Z),
        t < f ->
        PainChart.chartData entries
          {| PainChart.from := TimeValue f; PainChart.to := TimeValue t |} = inr [])
    /\ (forall (dateRange : PainChart.DateRange),
           PainChart.chartData [] dateRange = inr []).
Proof.
  intros tz. split.
  - intros entries f t Hft. unfold PainChart.chartData, PainChart.dailyData.
    rewrite inverted_range_retains_nothing by exact Hft. reflexivity.
  - intros dateRange. reflexivity.
Qed.

Lemma chartData_inverted_witness :
  PainChart.chartData
    [entryAt jan1_2024 4; entryAt jan1_2024 6; entryAt jan2_2024 8]
    {| PainChart.from := TimeValue feb1_2024; PainChart.to := TimeValue jan1_2024 |}
  = inr [].
Proof.
  apply (proj1 (chartData_inverted_or_empty UTC)). unfold feb1_2024, jan1_2024. lia.
Defined.

(** C1. Two buckets on either side of a year boundary: the chart data puts
    1 January 2024 before 31 December 2023, whatever the order of the
    entries, because [compareFn] reads the 'MMM d' labels back as dates of
    one and the same year. *)
Theorem chartData_year_boundary_out_of_order :
  PainChart.chartData
    [entryAt jan1_2024 5; entryAt dec31_2023 3]
    {| PainChart.from := TimeValue dec31_2023; PainChart.to := TimeValue jan1_2024 |}
  = inr [ {| PainChart.cp_date := "Jan 1"; PainChart.cp_painLevel := 5 |};
          {| PainChart.cp_date := "Dec 31"; PainChart.cp_painLevel := 3 |} ]
  /\ PainChart.chartData
       [entryAt dec31_2023 3; entryAt jan1_2024 5]
       {| PainChart.from := TimeValue dec31_2023; PainChart.to := TimeValue jan1_2024 |}
     = inr [ {| PainChart.cp_date := "Jan 1"; PainChart.cp_painLevel := 5 |};
             {| PainChart.cp_date := "Dec 31"; PainChart.cp_painLevel := 3 |} ].
Proof.
  split; vm_compute; reflexivity.
Qed.

(** ** The chart: one bucket per day of a retained entry *)

Section BucketFacts.
Context `{tz : TimeZone}.
Import PainChart.

Lemma foldM_reducer_lookup (l : list PainEntry) (acc acc' : DailyData) :
  (forall e, In e l -> validDate (date e)) ->
  foldM reducer acc l = inr acc' ->
  forall k, lookup k acc' = bucketOf k l (lookup k acc).
Proof.
  revert acc. induction l as [| e l IH]; intros acc Hl Hf k; simpl in *.
  - injection Hf as <-. reflexivity.
  - rewrite (reducer_valid acc e) in Hf by (apply Hl; now left). simpl in Hf.
    rewrite (IH _ (fun x Hx => Hl x (or_intror Hx)) Hf k).
    unfold bucketOf. f_equal. rewrite lookup_assign.
    destruct (String.eqb_spec k (dateStr e)) as [-> | Hk]; reflexivity.
Qed.

Lemma bucketOf_Some (k : string) (l : list PainEntry) (d : Daily) :
  exists d', bucketOf k l (Some d) = Some d'.
Proof.
  revert d. induction l as [| e l IH]; intros d; simpl; [eauto |].
  destruct (String.eqb k (dateStr e)); apply IH.
Qed.

Lemma bucketOf_member (l : list PainEntry) (e : PainEntry) (o : option Daily) :
  In e l -> exists d, bucketOf (dateStr e) l o = Some d.
Proof.
  revert o. induction l as [| x l IH]; intros o Hin; [contradiction |].
  simpl. destruct Hin as [-> | Hin].
  - rewrite String.eqb_refl. apply bucketOf_Some.
  - now apply IH.
Qed.

Lemma bucketOf_None_inv (k : string) (l : list PainEntry) (d : Daily) :
  bucketOf k l None = Some d -> exists e, In e l /\ dateStr e = k.
Proof.
  induction l as [| x l IH]; simpl; [discriminate |].
  destruct (String.eqb_spec k (dateStr x)) as [-> | Hk].
  - intros _. exists x. split; [now left | reflexivity].
  - intros H. destruct (IH H) as [e [He1 He2]]. exists e. split; [now right | exact He2].
Qed.

Lemma In_lookup (k : string) (d : Daily) (acc : DailyData) :
  In (k, d) acc -> exists d', lookup k acc = Some d'.
Proof.
  induction acc as [| [k0 v0] acc IH]; simpl; [contradiction |].
  intros [H | H]; destruct (String.eqb_spec k k0) as [-> | Hk]; eauto.
  injection H as <- _. contradiction.
Qed.

Lemma filteredEntries_app (l1 l2 : list PainEntry) (r : DateRange) :
  filteredEntries (l1 ++ l2) r = filteredEntries l1 r ++ filteredEntries l2 r.
Proof. unfold filteredEntries. apply filter_app. Qed.

End BucketFacts.

(** C3 (as the code has it). The retained entries are exactly the entries
    whose time value lies between the time values of [from] and [to],
    bounds included; every retained entry is filed in the bucket of its
    day; every bucket is the day of a retained entry; and an entry outside
    the window can be dropped from the input without changing the chart. *)
Theorem chartData_window_by_instant :
  forall (tz : TimeZone) (entries : list PainEntry) (dateRange : PainChart.DateRange),
    (forall e,
        In e (PainChart.filteredEntries entries dateRange) <->
        In e entries /\
        exists t f u,
          date e = TimeValue t /\ PainChart.from dateRange = TimeValue f
          /\ PainChart.to dateRange = TimeValue u /\ f <= t <= u)
    /\ (exists daily,
           PainChart.dailyData entries dateRange = inr daily
           /\ (forall e, In e (PainChart.filteredEntries entries dateRange) ->
                         exists d, PainChart.lookup (dateStr e) daily = Some d)
           /\ (forall k d, In (k, d) daily ->
                           exists e, In e (PainChart.filteredEntries entries dateRange)
                                     /\ dateStr e = k))
    /\ (forall l1 e l2,
           entries = l1 ++ e :: l2 -> PainChart.inRange dateRange e = false ->
           PainChart.chartData entries dateRange
           = PainChart.chartData (l1 ++ l2) dateRange).
Proof.
  intros tz entries r. split; [| split].
  - intros e. unfold PainChart.filteredEntries. rewrite filter_In, inRange_spec.
    reflexivity.
  - destruct (chartData_total entries r) as (daily & points & Hd & _).
    exists daily. split; [exact Hd |].
    pose proof (foldM_reducer_lookup _ _ _
                  (fun e => filteredEntries_valid entries r e) Hd) as Hl.
    split.
    + intros e He. rewrite Hl. now apply bucketOf_member.
    + intros k d Hkd. destruct (In_lookup _ _ _ Hkd) as [d' Hd'].
      rewrite Hl in Hd'. simpl in Hd'. exact (bucketOf_None_inv _ _ _ Hd').
  - intros l1 e l2 -> He. unfold PainChart.chartData, PainChart.dailyData.
    rewrite !filteredEntries_app. unfold PainChart.filteredEntries at 2.
    simpl. rewrite He. reflexivity.
Qed.

Lemma chartData_window_by_instant_witness :
  PainChart.chartData
    ([entryAt jan1_2024 4] ++ entryAt feb1_2024 9 :: [entryAt jan2_2024 8])
    {| PainChart.from := TimeValue jan1_2024; PainChart.to := TimeValue jan2_2024 |}
  = PainChart.chartData
      ([entryAt jan1_2024 4] ++ [entryAt jan2_2024 8])
      {| PainChart.from := TimeValue jan1_2024; PainChart.to := TimeValue jan2_2024 |}.
Proof.
  apply (proj2 (proj2 (chartData_window_by_instant UTC _ _)) _ _ _ eq_refl).
  reflexivity.
Defined.

(** C3, the counterexample: the window runs from 1 January 2024 to
    2 January 2024 (both at midnight UTC) and the entry was observed on
    2 January at 15:00; its day lies within the days of the bounds, and it
    is left out. *)
Lemma entry_later_on_the_last_day_is_left_out :
  localDay jan1_2024 <= localDay (jan2_2024 + 54000000) <= localDay jan2_2024
  /\ PainChart.chartData
       [entryAt (jan2_2024 + 54000000) 7]
       {| PainChart.from := TimeValue jan1_2024; PainChart.to := TimeValue jan2_2024 |}
     = inr [].
Proof.
  split; [vm_compute; split; discriminate | vm_compute; reflexivity].
Qed.

(** ** Numbers: rounding to binary64 and [toFixed(1)] *)

Section NumberFacts.
Import JsNumber.

Lemma round_half_even_near (a b : Z) :
  0 < b -> - b <= 2 * (round_half_even a b * b - a) <= b.
Proof.
  intros Hb. unfold round_half_even.
  pose proof (Z.div_mod a b ltac:(lia)) as Hdm.
  pose proof (Z.mod_pos_bound a b Hb) as Hr.
  destruct (Z.ltb_spec (2 * (a mod b)) b); [nia |].
  destruct (Z.ltb_spec b (2 * (a mod b))); [nia |].
  destruct (Z.even (a / b)); nia.
Qed.

Lemma round_half_even_exact (a : Z) : round_half_even a 1 = a.
Proof.
  unfold round_half_even. rewrite Z.div_1_r, Z.mod_1_r. reflexivity.
Qed.

Lemma Qred_whole (z : Z) : Qred (z # 1) = z # 1.
Proof.
  apply Qcanon.Qred_identity. simpl. apply Z.gcd_1_r.
Qed.

(** An integer below 2^53 is a binary64 value. *)
Lemma round64_whole (z : Z) : 0 <= z < 2 ^ 53 -> round64 (z # 1) = z # 1.
Proof.
  intros Hz. unfold round64. cbn [Qnum Qden].
  destruct (Z.eqb_spec z 0) as [-> | Hnz]; [reflexivity |].
  assert (Hpos : 0 < z) by lia.
  rewrite (Z.abs_eq z) by lia. change (Z.log2 1) with 0. rewrite Z.sub_0_r.
  pose proof (Z.log2_spec z Hpos) as [Hlo Hhi].
  pose proof (Z.log2_nonneg z) as Hl0.
  assert (Hl52 : Z.log2 z <= 52).
  { assert (Z.log2 z < 53); [| lia]. apply Z.log2_lt_pow2; lia. }
  rewrite (Z.max_r (- Z.log2 z) 0) by lia.
  rewrite (Z.max_l (Z.log2 z) 0) by lia.
  change (2 ^ 0) with 1. rewrite Z.mul_1_r, Z.mul_1_l.
  destruct (Z.ltb_spec z (2 ^ Z.log2 z)); [lia |].
  rewrite (Z.max_l (Z.log2 z - 52) (-1074)) by lia.
  rewrite (Z.max_l (- (Z.log2 z - 52)) 0) by lia.
  rewrite (Z.max_r (Z.log2 z - 52) 0) by lia.
  change (2 ^ 0) with 1. rewrite !Z.mul_1_r, round_half_even_exact.
  rewrite (Z.sgn_pos z) by lia. rewrite Z.mul_1_l.
  set (K := 2 ^ (- (Z.log2 z - 52))).
  assert (HK : 0 < K) by (apply Z.pow_pos_nonneg; lia).
  rewrite <- (Qred_whole z). apply Qred_complete.
  unfold Qeq. cbn [Qnum Qden]. rewrite Z2Pos.id by exact HK. lia.
Qed.

(** Adding two integers whose sum stays below 2^53 is exact. *)
Lemma add_whole (a b : Z) :
  0 <= a + b < 2 ^ 53 -> add (inject_Z a) (inject_Z b) = inject_Z (a + b).
Proof.
  intros H. unfold add, inject_Z, Qplus. cbn [Qnum Qden].
  change (Z.pos (1 * 1)) with 1. change (1 * 1)%positive with 1%positive.
  rewrite !Z.mul_1_r. now apply round64_whole.
Qed.

(** [toFixed(1)] reads the value of its argument, not its representation. *)
Lemma toFixed1_tenths_Qeq (x y : Q) :
  x == y -> tenths (toFixed1 x) = tenths (toFixed1 y).
Proof.
  unfold Qeq, toFixed1. cbn [tenths]. intros Hxy.
  set (dx := Z.pos (Qden x)) in *. set (dy := Z.pos (Qden y)) in *.
  assert (Hdx : 0 < dx) by (subst dx; lia).
  assert (Hdy : 0 < dy) by (subst dy; lia).
  assert (Habs : Z.abs (Qnum x) * dy = Z.abs (Qnum y) * dx).
  { rewrite <- (Z.abs_eq dy), <- (Z.abs_eq dx) by lia.
    rewrite <- !Z.abs_mul. now rewrite Hxy. }
  rewrite <- (Z.div_mul_cancel_r (20 * Z.abs (Qnum x) + dx) (2 * dx) dy) by lia.
  rewrite <- (Z.div_mul_cancel_r (20 * Z.abs (Qnum y) + dy) (2 * dy) dx) by lia.
  f_equal; nia.
Qed.

End NumberFacts.

Section DivisionFacts.
Import JsNumber.

(** The binary64 quotient of a positive integer by a positive integer, both
    below 2^53: a significand [m] over [2 ^ k] that is the nearest to the
    quotient and carries at least 53 bits of it. *)
Lemma round64_ratio (s : Z) (p : positive) :
  0 < s < 2 ^ 53 -> Z.pos p < 2 ^ 53 ->
  exists m k,
    0 <= k /\ 0 <= m
    /\ round64 (s # p) = Qred (m # Z.to_pos (2 ^ k))
    /\ - Z.pos p <= 2 * (m * Z.pos p - s * 2 ^ k) <= Z.pos p
    /\ 2 ^ 52 * Z.pos p <= s * 2 ^ k.
Proof.
  intros Hs Hp. unfold round64. cbn [Qnum Qden].
  destruct (Z.eqb_spec s 0) as [-> | _]; [lia |].
  rewrite (Z.abs_eq s), (Z.sgn_pos s) by lia.
  set (c := Z.pos p) in *. assert (Hc : 0 < c) by (subst c; lia).
  pose proof (Z.log2_spec s ltac:(lia)) as [Hxlo Hxhi].
  pose proof (Z.log2_spec c Hc) as [Hylo Hyhi].
  pose proof (Z.log2_nonneg s) as Hx0. pose proof (Z.log2_nonneg c) as Hy0.
  assert (Hx52 : Z.log2 s <= 52).
  { assert (Z.log2 s < 53); [apply Z.log2_lt_pow2; lia | lia]. }
  assert (Hy52 : Z.log2 c <= 52).
  { assert (Z.log2 c < 53); [apply Z.log2_lt_pow2; lia | lia]. }
  set (x := Z.log2 s) in *. set (y := Z.log2 c) in *.
  assert (Hnear : forall k, 0 <= k ->
            - c <= 2 * (round_half_even (s * 2 ^ k) c * c - s * 2 ^ k) <= c).
  { intros k _. apply round_half_even_near. exact Hc. }
  assert (Hm0 : forall k, 0 <= k -> 0 <= round_half_even (s * 2 ^ k) c).
  { intros k Hk. pose proof (Hnear k Hk) as Hn.
    assert (0 < 2 ^ k) by (apply Z.pow_pos_nonneg; lia). nia. }
  destruct (Z.ltb_spec (s * 2 ^ Z.max (- (x - y)) 0) (c * 2 ^ Z.max (x - y) 0))
    as [Hlt | Hge].
  - (* the quotient lies below 2 ^ (x - y) *)
    rewrite (Z.max_l (x - y - 1 - 52) (-1074)) by lia.
    rewrite (Z.max_l (- (x - y - 1 - 52)) 0) by lia.
    rewrite (Z.max_r (x - y - 1 - 52) 0) by lia.
    change (2 ^ 0) with 1. rewrite !Z.mul_1_r, Z.mul_1_l.
    exists (round_half_even (s * 2 ^ (- (x - y - 1 - 52))) c), (- (x - y - 1 - 52)).
    split; [lia |]. split; [apply Hm0; lia |]. split; [reflexivity |].
    split; [apply Hnear; lia |].
    replace (- (x - y - 1 - 52)) with ((53 + y) - x) by lia.
    assert (Hpow : 2 ^ x * 2 ^ (53 + y - x) = 2 ^ 52 * 2 ^ (y + 1)).
    { rewrite <- !Z.pow_add_r by lia. f_equal; lia. }
    assert (0 < 2 ^ (53 + y - x)) by (apply Z.pow_pos_nonneg; lia).
    nia.
  - (* the quotient is at least 2 ^ (x - y) *)
    rewrite (Z.max_l (x - y - 52) (-1074)) by lia.
    rewrite (Z.max_l (- (x - y - 52)) 0) by lia.
    rewrite (Z.max_r (x - y - 52) 0) by lia.
    change (2 ^ 0) with 1. rewrite !Z.mul_1_r, Z.mul_1_l.
    exists (round_half_even (s * 2 ^ (- (x - y - 52))) c), (- (x - y - 52)).
    split; [lia |]. split; [apply Hm0; lia |]. split; [reflexivity |].
    split; [apply Hnear; lia |].
    replace (- (x - y - 52)) with (52 - (x - y)) by lia.
    destruct (Z.le_gt_cases 0 (x - y)) as [Hl | Hl].
    + rewrite (Z.max_r (- (x - y)) 0) in Hge by lia.
      rewrite (Z.max_l (x - y) 0) in Hge by lia.
      change (2 ^ 0) with 1 in Hge. rewrite Z.mul_1_r in Hge.
      assert (Hpow : 2 ^ 52 = 2 ^ (x - y) * 2 ^ (52 - (x - y))).
      { rewrite <- Z.pow_add_r by lia. f_equal; lia. }
      assert (0 < 2 ^ (52 - (x - y))) by (apply Z.pow_pos_nonneg; lia).
      rewrite Hpow. nia.
    + rewrite (Z.max_l (- (x - y)) 0) in Hge by lia.
      rewrite (Z.max_r (x - y) 0) in Hge by lia.
      change (2 ^ 0) with 1 in Hge. rewrite Z.mul_1_r in Hge.
      assert (Hpow : 2 ^ (52 - (x - y)) = 2 ^ 52 * 2 ^ (- (x - y))).
      { rewrite <- Z.pow_add_r by lia. f_equal; lia. }
      rewrite Hpow. nia.
Qed.

(** From the nearest significand to the nearest tenth: rounding the
    quotient to binary64 first moves no mean of pain levels across a
    rounding boundary of [toFixed(1)]. *)
Lemma nearest_tenth_arith (s c m K n : Z) :
  0 < s -> 0 < c -> 0 < K -> 10 * s < 2 ^ 52 ->
  - c <= 2 * (m * c - s * K) <= c ->
  2 ^ 52 * c <= s * K ->
  n = (20 * m + K) / (2 * K) ->
  - c <= 2 * n * c - 20 * s <= c.
Proof.
  intros Hs Hc HK Hsmall Hm Hnorm ->.
  set (n := (20 * m + K) / (2 * K)).
  pose proof (Z.div_mod (20 * m + K) (2 * K) ltac:(lia)) as Hdm.
  pose proof (Z.mod_pos_bound (20 * m + K) (2 * K) ltac:(lia)) as Hr.
  fold n in Hdm.
  assert (H10 : 10 * c < K) by nia.
  split.
  - assert (K * (20 * s - c - 2 * n * c) < K * 1) by nia.
    assert (20 * s - c - 2 * n * c < 1) by (apply Z.mul_lt_mono_pos_l with K; lia).
    lia.
  - assert (K * (2 * n * c - 20 * s - c) < K * 1) by nia.
    assert (2 * n * c - 20 * s - c < 1) by (apply Z.mul_lt_mono_pos_l with K; lia).
    lia.
Qed.

End DivisionFacts.

(** ** The chart: the value of a bucket *)

Section ValueFacts.
Context `{tz : TimeZone}.
Import PainChart JsNumber.

Lemma sumLevels_bounds (l : list PainEntry) :
  (forall e, In e l -> wholeLevel e) ->
  0 <= sumLevels l <= 10 * Z.of_nat (List.length l).
Proof.
  induction l as [| e l IH]; intros Hl; [simpl; lia |].
  destruct (Hl e (or_introl eq_refl)) as [k [Hk Hb]].
  specialize (IH (fun x Hx => Hl x (or_intror Hx))).
  cbn [sumLevels fold_right List.length]. fold (sumLevels l).
  rewrite Hk. cbn [Qnum inject_Z]. lia.
Qed.

Lemma onDay_length (k : string) (l : list PainEntry) :
  (List.length (onDay k l) <= List.length l)%nat.
Proof. apply filter_length_le. Qed.

Lemma bucketOf_cons (k : string) (e : PainEntry) (l : list PainEntry)
  (o : option Daily) :
  bucketOf k (e :: l) o
  = bucketOf k l (if String.eqb k (dateStr e) then Some (absorb o e) else o).
Proof. reflexivity. Qed.

Lemma onDay_cons (k : string) (e : PainEntry) (l : list PainEntry) :
  onDay k (e :: l) = if String.eqb k (dateStr e) then e :: onDay k l else onDay k l.
Proof. reflexivity. Qed.

Lemma sumLevels_cons (e : PainEntry) (l : list PainEntry) :
  sumLevels (e :: l) = Qnum (painLevel e) + sumLevels l.
Proof. reflexivity. Qed.

Lemma bucketOf_whole (k : string) (l : list PainEntry) (dt : Date) (s c : Z) :
  (forall e, In e l -> wholeLevel e) ->
  0 <= s -> 0 < c ->
  s + 10 * Z.of_nat (List.length l) < 2 ^ 53 ->
  c + Z.of_nat (List.length l) < 2 ^ 53 ->
  bucketOf k l (Some {| d_date := dt; totalPain := inject_Z s; count := inject_Z c |})
  = Some {| d_date := dt;
            totalPain := inject_Z (s + sumLevels (onDay k l));
            count := inject_Z (c + Z.of_nat (List.length (onDay k l))) |}.
Proof.
  revert s c. induction l as [| e l IH]; intros s c Hl Hs Hc Hbs Hbc.
  - simpl. now rewrite !Z.add_0_r.
  - rewrite bucketOf_cons, onDay_cons.
    cbn [List.length] in Hbs, Hbc. rewrite Nat2Z.inj_succ in Hbs, Hbc.
    pose proof (fun x Hx => Hl x (or_intror Hx)) as Hl'.
    destruct (String.eqb k (dateStr e)).
    + destruct (Hl e (or_introl eq_refl)) as [lv [Hlv Hb]].
      cbn [absorb d_date totalPain count]. rewrite Hlv.
      change 1%Q with (inject_Z 1). rewrite !add_whole by lia.
      rewrite IH by (try assumption; lia).
      rewrite sumLevels_cons, Hlv. cbn [Qnum inject_Z List.length].
      rewrite Nat2Z.inj_succ. do 2 f_equal; f_equal; lia.
    + apply IH; (assumption || lia).
Qed.

Lemma bucketOf_None_whole (k : string) (l : list PainEntry) :
  (forall e, In e l -> wholeLevel e) ->
  10 + 10 * Z.of_nat (List.length l) < 2 ^ 53 ->
  bucketOf k l None
  = match onDay k l with
    | [] => None
    | e0 :: _ =>
        Some {| d_date := date e0;
                totalPain := inject_Z (sumLevels (onDay k l));
                count := inject_Z (Z.of_nat (List.length (onDay k l))) |}
    end.
Proof.
  induction l as [| e l IH]; intros Hl Hb; [reflexivity |].
  rewrite bucketOf_cons, onDay_cons.
  cbn [List.length] in Hb. rewrite Nat2Z.inj_succ in Hb.
  pose proof (fun x Hx => Hl x (or_intror Hx)) as Hl'.
  destruct (String.eqb k (dateStr e)).
  - destruct (Hl e (or_introl eq_refl)) as [lv [Hlv Hlvb]].
    cbn [absorb]. rewrite Hlv. change 1%Q with (inject_Z 1).
    rewrite bucketOf_whole by (try assumption; lia).
    rewrite sumLevels_cons, Hlv. cbn [Qnum inject_Z List.length].
    rewrite Nat2Z.inj_succ. do 2 f_equal; f_equal; lia.
  - apply IH; [assumption | lia].
Qed.

Lemma Qred_num_nonneg (q : Q) : 0 <= Qnum q -> 0 <= Qnum (Qred q).
Proof.
  intros Hq. pose proof (Qred_correct q) as H. unfold Qeq in H.
  assert (0 <= Qnum (Qred q) * Z.pos (Qden q)) by (rewrite H; nia). nia.
Qed.

(** The number a bucket of [c] whole levels summing to [s] is charted at. *)
Lemma point_value (s c : Z) :
  0 <= s -> 0 < c < 2 ^ 53 -> 10 * s < 2 ^ 52 ->
  exists n,
    Number (toFixed1 (div (inject_Z s) (inject_Z c))) = Qred (n # 10)
    /\ - c <= 2 * n * c - 20 * s <= c.
Proof.
  intros Hs Hc Hsmall. destruct c as [| p |]; try lia.
  unfold div, Qdiv, Qmult, Qinv, inject_Z. cbn [Qnum Qden].
  change (1 * p)%positive with p. rewrite Z.mul_1_r.
  destruct (Z.eq_dec s 0) as [-> | Hnz].
  - exists 0. split; [| lia]. unfold round64. cbn [Qnum Z.eqb].
    unfold Number, toFixed1. cbn [Qnum Qden negative tenths Z.ltb Z.compare Z.abs].
    rewrite Z.mul_0_r, Z.add_0_l.
    replace (1 / (2 * 1)) with 0 by reflexivity. reflexivity.
  - destruct (round64_ratio s p ltac:(lia) ltac:(lia))
      as (m & k & Hk & Hm & Hr & Hnear & Hnorm).
    rewrite Hr.
    assert (HK : 0 < 2 ^ k) by (apply Z.pow_pos_nonneg; lia).
    exists ((20 * m + 2 ^ k) / (2 * 2 ^ k)).
    assert (Hten : tenths (toFixed1 (Qred (m # Z.to_pos (2 ^ k))))
                   = (20 * m + 2 ^ k) / (2 * 2 ^ k)).
    { rewrite (toFixed1_tenths_Qeq _ _ (Qred_correct _)).
      unfold toFixed1. cbn [tenths Qnum Qden].
      rewrite Z2Pos.id by exact HK. rewrite Z.abs_eq by exact Hm. reflexivity. }
    split.
    + unfold Number. rewrite Hten.
      assert (Hneg : negative (toFixed1 (Qred (m # Z.to_pos (2 ^ k)))) = false).
      { unfold toFixed1. cbn [negative]. apply Z.ltb_ge.
        apply Qred_num_nonneg. exact Hm. }
      rewrite Hneg. reflexivity.
    + apply (nearest_tenth_arith s (Z.pos p) m (2 ^ k)); try assumption; lia.
Qed.

End ValueFacts.

Section MeanFacts.
Context `{tz : TimeZone}.
Import PainChart JsNumber.

Lemma sum_whole (l : list PainEntry) :
  (forall e, In e l -> wholeLevel e) ->
  fold_right Qplus 0%Q (map painLevel l) = inject_Z (sumLevels l).
Proof.
  induction l as [| e l IH]; intros Hl; [reflexivity |].
  destruct (Hl e (or_introl eq_refl)) as [k [Hk _]].
  cbn [map fold_right]. rewrite IH by (intros x Hx; apply Hl; now right).
  rewrite sumLevels_cons, inject_Z_plus, Hk. reflexivity.
Qed.

Lemma tenth_near (n s c : Z) :
  0 < c -> - c <= 2 * n * c - 20 * s <= c ->
  (Qabs (Qred (n # 10) - inject_Z s / inject_Z c) <= 1 # 20)%Q.
Proof.
  intros Hc Hn. rewrite Qred_correct. apply Qabs_Qle_condition.
  destruct c as [| p |]; try lia.
  unfold Qle, Qminus, Qplus, Qopp, Qdiv, Qmult, Qinv, inject_Z.
  cbn [Qnum Qden]. change (1 * p)%positive with p.
  rewrite !Pos2Z.inj_mul. split; nia.
Qed.

Lemma assign_keys (k : string) (v : Daily) (acc : DailyData) :
  map fst (assign k v acc)
  = match lookup k acc with
    | Some _ => map fst acc
    | None => map fst acc ++ [k]
    end.
Proof.
  induction acc as [| [k0 v0] acc IH]; simpl; [reflexivity |].
  destruct (String.eqb_spec k k0) as [-> | Hk]; simpl; [reflexivity |].
  rewrite IH. destruct (lookup k acc); reflexivity.
Qed.

Lemma lookup_None_keys (k : string) (acc : DailyData) :
  lookup k acc = None -> ~ In k (map fst acc).
Proof.
  induction acc as [| [k0 v0] acc IH]; simpl; [tauto |].
  destruct (String.eqb_spec k k0) as [-> | Hk]; [discriminate |].
  intros H [H0 | H0]; [congruence | exact (IH H H0)].
Qed.

Lemma NoDup_snoc {A} (l : list A) (x : A) : NoDup l -> ~ In x l -> NoDup (l ++ [x]).
Proof.
  intros Hl Hx. apply NoDup_rev in Hl. rewrite <- (rev_involutive (l ++ [x])).
  apply NoDup_rev. rewrite rev_app_distr. simpl. constructor; [| exact Hl].
  now rewrite <- in_rev.
Qed.

(** The buckets of [dailyData] have distinct keys. *)
Lemma foldM_reducer_NoDup (l : list PainEntry) (acc acc' : DailyData) :
  (forall e, In e l -> validDate (date e)) ->
  NoDup (map fst acc) ->
  foldM reducer acc l = inr acc' -> NoDup (map fst acc').
Proof.
  revert acc. induction l as [| e l IH]; intros acc Hl Hacc Hf; simpl in Hf.
  - now injection Hf as <-.
  - rewrite (reducer_valid acc e) in Hf by (apply Hl; now left). simpl in Hf.
    apply (IH _ (fun x Hx => Hl x (or_intror Hx))) in Hf; [exact Hf |].
    rewrite assign_keys. destruct (lookup (dateStr e) acc) eqn:Hlk; [exact Hacc |].
    apply NoDup_snoc; [exact Hacc | now apply lookup_None_keys].
Qed.

End MeanFacts.

(** C2. For entries with whole pain levels from 0 to 10 (fewer than 2^32
    of them, as a JavaScript array holds), [chartData] returns one point
    per day of a retained entry, and the point of each such day carries the
    'MMM d' label of that day and the arithmetic mean of the pain levels
    of the day's retained entries rounded to one decimal place: a number of
    tenths at most 0.05 away from the exact mean.  On the entries
    (2024-01-01, 4), (2024-01-01, 6), (2024-01-02, 8) and a window over both
    days the chart data is ("Jan 1", 5), ("Jan 2", 8). *)
Theorem chartData_daily_mean :
  (forall (tz : TimeZone) (entries : list PainEntry) (dateRange : PainChart.DateRange),
      (forall e, In e entries -> wholeLevel e) ->
      Z.of_nat (List.length entries) < 2 ^ 32 ->
      exists daily out,
        PainChart.dailyData entries dateRange = inr daily
        /\ PainChart.chartData entries dateRange = inr out
        /\ NoDup (map fst daily)
        /\ List.length out = List.length daily
        /\ forall e,
            In e (PainChart.filteredEntries entries dateRange) ->
            let today := onDay (dateStr e) (PainChart.filteredEntries entries dateRange) in
            exists p e0,
              In p out
              /\ In e0 today
              /\ format (date e0) "MMM d" = inr (PainChart.cp_date p)
              /\ roundedToOneDecimal (PainChart.cp_painLevel p)
                   (mean (map painLevel today)))
  /\ PainChart.chartData
       [entryAt jan1_2024 4; entryAt jan1_2024 6; entryAt jan2_2024 8]
       {| PainChart.from := TimeValue jan1_2024; PainChart.to := TimeValue jan2_2024 |}
     = inr [ {| PainChart.cp_date := "Jan 1"; PainChart.cp_painLevel := 5 |};
             {| PainChart.cp_date := "Jan 2"; PainChart.cp_painLevel := 8 |} ].
Proof.
  split; [| vm_compute; reflexivity].
  intros tz entries r Hwhole Hlen.
  destruct (chartData_total entries r) as (daily & points & Hd & Hv & Hp & Hpl & Hc).
  exists daily, (JsArray.sort PainChart.compareFn points).
  pose proof (fun e => filteredEntries_valid entries r e) as Hvalid.
  assert (Hsub : forall e, In e (PainChart.filteredEntries entries r) -> In e entries).
  { intros e He. unfold PainChart.filteredEntries in He.
    apply filter_In in He. tauto. }
  assert (Hfl : (List.length (PainChart.filteredEntries entries r)
                 <= List.length entries)%nat) by apply filter_length_le.
  split; [exact Hd |]. split; [exact Hc |]. split.
  { apply (foldM_reducer_NoDup _ [] daily Hvalid); [constructor | exact Hd]. }
  split.
  { rewrite <- Hpl. symmetry. apply Permutation_length, sort_perm. }
  intros e He. cbv zeta.
  pose proof (foldM_reducer_lookup _ _ _ Hvalid Hd (dateStr e)) as Hl.
  simpl in Hl.
  rewrite bucketOf_None_whole in Hl
    by (try (intros x Hx; apply Hwhole, Hsub, Hx); change (2 ^ 53) with 9007199254740992;
        change (2 ^ 32) with 4294967296 in Hlen; lia).
  assert (Hin : In e (onDay (dateStr e) (PainChart.filteredEntries entries r))).
  { unfold onDay. apply filter_In. split; [exact He | apply String.eqb_refl]. }
  destruct (onDay (dateStr e) (PainChart.filteredEntries entries r))
    as [| e0 rest] eqn:Htoday; [contradiction |].
  assert (He0 : In e0 (PainChart.filteredEntries entries r)).
  { assert (H0 : In e0 (onDay (dateStr e) (PainChart.filteredEntries entries r)))
      by (rewrite Htoday; now left).
    unfold onDay in H0. apply filter_In in H0. tauto. }
  destruct (Hvalid e0 He0) as [t0 Ht0].
  destruct (format_label_total t0) as [lbl Hlbl]. rewrite <- Ht0 in Hlbl.
  set (s := sumLevels (e0 :: rest)) in *.
  set (c := Z.of_nat (List.length (e0 :: rest))) in *.
  assert (Hwt : forall x, In x (e0 :: rest) -> wholeLevel x).
  { intros x Hx. apply Hwhole, Hsub.
    assert (H0 : In x (onDay (dateStr e) (PainChart.filteredEntries entries r)))
      by (rewrite Htoday; exact Hx).
    unfold onDay in H0. apply filter_In in H0. tauto. }
  assert (Hcle : c <= Z.of_nat (List.length entries)).
  { subst c. rewrite <- Htoday.
    pose proof (onDay_length (dateStr e) (PainChart.filteredEntries entries r)). lia. }
  assert (Hc0 : 0 < c) by (subst c; cbn [List.length]; lia).
  pose proof (sumLevels_bounds _ Hwt) as Hsb. fold s in Hsb. fold c in Hsb.
  change (2 ^ 32) with 4294967296 in Hlen.
  destruct (point_value s c) as (n & Hn & Hnear);
    [lia | change (2 ^ 53) with 9007199254740992; lia
     | change (2 ^ 52) with 4503599627370496; lia |].
  exists {| PainChart.cp_date := lbl;
            PainChart.cp_painLevel :=
              JsNumber.Number (JsNumber.toFixed1 (JsNumber.div (inject_Z s) (inject_Z c))) |},
         e0.
  split.
  { eapply Permutation_in; [apply sort_perm |].
    eapply (mapM_In _ _ _ Hp); [exact (lookup_In _ _ _ Hl) |].
    unfold PainChart.toPoint. cbn [snd PainChart.d_date PainChart.totalPain PainChart.count].
    rewrite Hlbl. reflexivity. }
  split; [now left |]. split; [exact Hlbl |].
  cbn [PainChart.cp_painLevel]. rewrite Hn. split.
  - exists n. apply Qred_correct.
  - unfold mean. rewrite (sum_whole _ Hwt). rewrite length_map.
    fold s. fold c. now apply tenth_near.
Qed.

Lemma chartData_daily_mean_witness :
  exists daily out,
    PainChart.dailyData
      [entryAt jan1_2024 4; entryAt jan1_2024 6; entryAt jan2_2024 8]
      {| PainChart.from := TimeValue jan1_2024; PainChart.to := TimeValue jan2_2024 |}
    = inr daily
    /\ PainChart.chartData
         [entryAt jan1_2024 4; entryAt jan1_2024 6; entryAt jan2_2024 8]
         {| PainChart.from := TimeValue jan1_2024; PainChart.to := TimeValue jan2_2024 |}
       = inr out
    /\ NoDup (map fst daily)
    /\ List.length out = List.length daily
    /\ forall e,
        In e (PainChart.filteredEntries
                [entryAt jan1_2024 4; entryAt jan1_2024 6; entryAt jan2_2024 8]
                {| PainChart.from := TimeValue jan1_2024;
                   PainChart.to := TimeValue jan2_2024 |}) ->
        let today :=
          onDay (dateStr e)
            (PainChart.filteredEntries
               [entryAt jan1_2024 4; entryAt jan1_2024 6; entryAt jan2_2024 8]
               {| PainChart.from := TimeValue jan1_2024;
                  PainChart.to := TimeValue jan2_2024 |}) in
        exists p e0,
          In p out
          /\ In e0 today
          /\ format (date e0) "MMM d" = inr (PainChart.cp_date p)
          /\ roundedToOneDecimal (PainChart.cp_painLevel p)
               (mean (map painLevel today)).
Proof.
  apply (proj1 chartData_daily_mean UTC).
  - intros e [<- | [<- | [<- | []]]]; eexists; (split; [reflexivity | lia]).
  - reflexivity.
Defined.

(** ** The attachment guard *)

Section GuardFacts.
Import Feedback.

Lemma includes_In (l : list string) (t : string) : includes l t = true <-> In t l.
Proof.
  unfold includes. rewrite existsb_exists. split.
  - intros [x [Hx Heq]]. apply String.eqb_eq in Heq. now subst.
  - intros H. exists t. split; [exact H | apply String.eqb_refl].
Qed.

Lemma validateFile_cases (file : File) :
  (validateFile file = (true, [])
   /\ (size file <= MAX_FILE_SIZE)%N /\ In (type file) ACCEPTED_IMAGE_TYPES)
  \/ (exists t, validateFile file = (false, [t]) /\ title t = "File too large"
                /\ destructive t = true /\ (MAX_FILE_SIZE < size file)%N)
  \/ (exists t, validateFile file = (false, [t]) /\ title t = "Invalid file type"
                /\ destructive t = true /\ (size file <= MAX_FILE_SIZE)%N
                /\ ~ In (type file) ACCEPTED_IMAGE_TYPES).
Proof.
  unfold validateFile.
  destruct (N.ltb_spec MAX_FILE_SIZE (size file)) as [Hbig | Hsmall].
  - right. left. eexists. repeat split. exact Hbig.
  - destruct (includes ACCEPTED_IMAGE_TYPES (type file)) eqn:Hinc; cbn [negb].
    + left. repeat split; [exact Hsmall | now apply includes_In].
    + right. right. eexists. repeat split; [exact Hsmall |].
      rewrite <- includes_In, Hinc. discriminate.
Qed.

(** The files a batch adds all passed [validateFile]. *)
Lemma addFile_only_valid (queued : nat) (fs : list File) (b : Batch) (f : File) :
  In f (newFiles (fold_left (addFile queued) fs b)) ->
  In f (newFiles b) \/ (In f fs /\ fst (validateFile f) = true).
Proof.
  revert b. induction fs as [| x fs IH]; intros b Hin; simpl in Hin; [now left |].
  apply IH in Hin. destruct Hin as [Hin | [Hin Hok]]; [| right; split; [now right | exact Hok]].
  unfold addFile in Hin. destruct (validateFile x) as [ok ts] eqn:Hv.
  destruct ok; [| now left].
  destruct (3 <=? queued + List.length (newFiles b))%nat; [now left |].
  cbn [newFiles] in Hin. apply in_app_or in Hin. destruct Hin as [Hin | [<- | []]].
  - now left.
  - right. split; [now left | now rewrite Hv].
Qed.

End GuardFacts.

(** C4. [validateFile] accepts a file of exactly 5,242,880 bytes whose type
    is on the allow-list and shows nothing; it rejects every file of
    5,242,881 bytes or more with the toast "File too large"; it rejects
    every file whose type is off the list, whatever its size; a rejection
    shows exactly one toast, titled "File too large" when the size is over
    the limit and "Invalid file type" otherwise; and [handleFileChange]
    queues no file that [validateFile] rejects. *)
Theorem validateFile_guard :
  (forall file,
      size file = 5242880%N -> In (type file) Feedback.ACCEPTED_IMAGE_TYPES ->
      Feedback.validateFile file = (true, []))
  /\ (forall file,
         (5242881 <= size file)%N ->
         exists t, Feedback.validateFile file = (false, [t])
                   /\ title t = "File too large")
  /\ (forall file,
         ~ In (type file) Feedback.ACCEPTED_IMAGE_TYPES ->
         fst (Feedback.validateFile file) = false)
  /\ (forall file,
         fst (Feedback.validateFile file) = false ->
         exists t,
           snd (Feedback.validateFile file) = [t]
           /\ destructive t = true
           /\ ((title t = "File too large" /\ (5242880 < size file)%N)
               \/ (title t = "Invalid file type" /\ (size file <= 5242880)%N
                   /\ ~ In (type file) Feedback.ACCEPTED_IMAGE_TYPES)))
  /\ (forall st files f,
         In f (Feedback.selectedFiles (Feedback.handleFileChange st files)) ->
         In f (Feedback.selectedFiles st)
         \/ (exists fs, files = Some fs /\ In f fs
                        /\ fst (Feedback.validateFile f) = true)).
Proof.
  change 5242880%N with Feedback.MAX_FILE_SIZE.
  repeat split.
  - intros file Hsize Htype.
    destruct (validateFile_cases file)
      as [[H _] | [(t & _ & _ & _ & H) | (t & _ & _ & _ & _ & H)]].
    + exact H.
    + rewrite Hsize in H. exfalso. now apply (N.lt_irrefl Feedback.MAX_FILE_SIZE).
    + contradiction.
  - intros file Hsize.
    destruct (validateFile_cases file)
      as [[_ [H _]] | [(t & Hv & Ht & _) | (t & _ & _ & _ & H & _)]].
    + exfalso. unfold Feedback.MAX_FILE_SIZE in H. lia.
    + exists t. split; assumption.
    + exfalso. unfold Feedback.MAX_FILE_SIZE in H. lia.
  - intros file Htype.
    destruct (validateFile_cases file)
      as [[_ [_ H]] | [(t & Hv & _) | (t & Hv & _)]];
      [contradiction | now rewrite Hv | now rewrite Hv].
  - intros file Hrej.
    destruct (validateFile_cases file)
      as [[Hv _] | [(t & Hv & Ht & Hd & Hs) | (t & Hv & Ht & Hd & Hs & Hty)]];
      rewrite Hv in *; [discriminate | |]; exists t; (split; [reflexivity |]);
      (split; [exact Hd |]); [left | right]; repeat split; assumption.
  - intros st [fs |] f Hin; simpl in Hin; [| now left].
    apply in_app_or in Hin. destruct Hin as [Hin | Hin]; [now left |].
    apply addFile_only_valid in Hin. destruct Hin as [[] | [Hin Hok]].
    right. exists fs. repeat split; assumption.
Qed.

Lemma validateFile_guard_witness :
  Feedback.validateFile (screenshot 5242880 "image/png") = (true, [])
  /\ fst (Feedback.validateFile (screenshot 5242881 "image/png")) = false
  /\ fst (Feedback.validateFile (screenshot 10 "application/pdf")) = false.
Proof.
  destruct validateFile_guard as (Hok & Hbig & Htype & _).
  split; [| split].
  - apply Hok; [reflexivity | simpl; tauto].
  - destruct (Hbig (screenshot 5242881 "image/png")) as [t [Hv _]].
    + simpl. lia.
    + now rewrite Hv.
  - apply Htype. simpl. intros [H | [H | [H | [H | []]]]]; discriminate.
Defined.

(** ** The queue of attachments *)

Section QueueFacts.
Import Feedback.

Lemma addFile_cap (queued : nat) (fs : list File) (b : Batch) :
  (queued + List.length (newFiles b) <= 3)%nat ->
  (queued + List.length (newFiles (fold_left (addFile queued) fs b)) <= 3)%nat.
Proof.
  revert b. induction fs as [| x fs IH]; intros b Hb; simpl; [exact Hb |].
  apply IH. unfold addFile. destruct (validateFile x) as [[|] ts]; [| exact Hb].
  destruct (Nat.leb_spec 3 (queued + List.length (newFiles b))); [exact Hb |].
  cbn [newFiles]. rewrite length_app. simpl. lia.
Qed.

Lemma addFile_full_one (b : Batch) (x : File) :
  addFile 3 b x
  = {| newFiles := newFiles b; newUrls := newUrls b;
       shown := shown b ++ refusal x; created := created b |}.
Proof.
  unfold addFile, refusal. destruct (validateFile x) as [[|] ts]; cbn [fst snd].
  - replace (3 <=? 3 + List.length (newFiles b))%nat with true
      by (symmetry; apply Nat.leb_le; lia).
    reflexivity.
  - now rewrite app_nil_r.
Qed.

Lemma addFile_full (fs : list File) (b : Batch) :
  fold_left (addFile 3) fs b
  = {| newFiles := newFiles b; newUrls := newUrls b;
       shown := shown b ++ flat_map refusal fs; created := created b |}.
Proof.
  revert b. induction fs as [| x fs IH]; intros b; simpl.
  - rewrite app_nil_r. now destruct b.
  - rewrite IH, addFile_full_one. cbn [newFiles newUrls shown created].
    now rewrite <- app_assoc.
Qed.

Lemma removeAt_length {A} (index : nat) (l : list A) :
  (List.length (removeAt index l) <= List.length l)%nat.
Proof.
  revert index. induction l as [| x l IH]; intros [| i]; simpl; try lia.
  specialize (IH i). lia.
Qed.

Lemma handleFileChange_cap (st : State) (files : option (list File)) :
  (List.length (selectedFiles st) <= 3)%nat ->
  (List.length (selectedFiles (handleFileChange st files)) <= 3)%nat.
Proof.
  intros Hst. destruct files as [fs |]; simpl; [| exact Hst].
  rewrite length_app. apply addFile_cap. simpl. lia.
Qed.

Lemma onSubmit_queue {W} `{Backend W} (currentUser : option User) (feedback : string)
  (st : State) (w : W) :
  selectedFiles (fst (fst (onSubmit currentUser feedback st w))) = []
  \/ selectedFiles (fst (fst (onSubmit currentUser feedback st w))) = selectedFiles st.
Proof.
  unfold onSubmit. destruct currentUser as [user |]; [| now right].
  destruct (dateNow _) as [now w1]. destruct (addDoc _ _ _) as [[e | u] w2]; simpl;
    [now right | now left].
Qed.

(** At most three files are ever queued. *)
Lemma reachable_cap (st : State) :
  reachable st -> (List.length (selectedFiles st) <= 3)%nat.
Proof.
  induction 1 as [| st files _ IH | st index _ IH | W B u fb st w _ IH].
  - simpl. lia.
  - now apply handleFileChange_cap.
  - simpl. pose proof (removeAt_length index (selectedFiles st)). lia.
  - destruct (onSubmit_queue u fb st w) as [-> | ->]; [simpl; lia | exact IH].
Qed.

End QueueFacts.

(** C5. In every state the feedback page can reach, and for every batch of
    candidate files, [handleFileChange] leaves at most 3 files queued; when
    3 are queued already it keeps those 3 files and their preview URLs as
    they are and creates no object URL, and each candidate that passes
    [validateFile] draws the toast "Too many files". *)
Theorem handleFileChange_at_most_three :
  forall (st : Feedback.State) (files : option (list File)),
    reachable st ->
    (List.length (Feedback.selectedFiles (Feedback.handleFileChange st files)) <= 3)%nat
    /\ (List.length (Feedback.selectedFiles st) = 3%nat ->
        Feedback.selectedFiles (Feedback.handleFileChange st files)
        = Feedback.selectedFiles st
        /\ Feedback.previewUrls (Feedback.handleFileChange st files)
           = Feedback.previewUrls st
        /\ Feedback.objectUrls (Feedback.handleFileChange st files)
           = Feedback.objectUrls st
        /\ Feedback.toasts (Feedback.handleFileChange st files)
           = Feedback.toasts st
             ++ match files with
                | Some fs => flat_map refusal fs
                | None => []
                end).
Proof.
  intros st files Hreach. split.
  - apply handleFileChange_cap, reachable_cap, Hreach.
  - intros Hfull. destruct files as [fs |]; simpl.
    + rewrite Hfull, addFile_full. simpl. rewrite !app_nil_r. repeat split.
    + rewrite app_nil_r. repeat split.
Qed.

Lemma handleFileChange_at_most_three_witness :
  List.length (Feedback.selectedFiles threeQueued) = 3%nat
  /\ Feedback.selectedFiles
       (Feedback.handleFileChange threeQueued (Some [screenshot 400 "image/png"]))
     = Feedback.selectedFiles threeQueued
  /\ Feedback.toasts
       (Feedback.handleFileChange threeQueued (Some [screenshot 400 "image/png"]))
     = [tooManyFiles].
Proof.
  assert (Hreach : reachable threeQueued) by (apply reach_change, reach_initial).
  destruct (handleFileChange_at_most_three threeQueued
              (Some [screenshot 400 "image/png"]) Hreach) as [_ Hfull].
  destruct (Hfull eq_refl) as (Hfiles & _ & _ & Htoasts).
  split; [reflexivity |]. split; [exact Hfiles | exact Htoasts].
Defined.

(** ** Submitting feedback *)

Section SubmitFacts.
Context {W : Type} `{B : Backend W}.
Import Feedback.

Lemma successes_length (rs : list (option string)) :
  (List.length (successes rs) <= List.length rs)%nat.
Proof.
  induction rs as [| [u |] rs IH]; simpl; lia.
Qed.

Lemma outcomes_length (user : User) (files : list File) (w : W) :
  List.length (fst (outcomes user files w)) = List.length files.
Proof.
  revert w. induction files as [| f fs IH]; intros w; simpl; [reflexivity |].
  destruct (attempt user f w) as [r w1]. specialize (IH w1).
  destruct (outcomes user fs w1) as [rs w2]. simpl in *. now rewrite IH.
Qed.

Lemma uploadOne_spec (user : User) (u : Uploading W) (file : File) :
  let u' := uploadOne user u file in
  attachmentUrls u'
  = attachmentUrls u ++ successes [fst (attempt user file (world u))]
  /\ world u' = snd (attempt user file (world u))
  /\ uploadsStarted (calls u') = uploadsStarted (calls u) ++ [file]
  /\ docsAdded (calls u') = docsAdded (calls u).
Proof.
  unfold uploadOne, attempt, uploadsStarted, docsAdded.
  destruct (dateNow (world u)) as [now w1].
  destruct (uploadBytes _ file w1) as [[e | ref] w2]; cbn zeta.
  - cbn [attachmentUrls world calls fst snd successes].
    rewrite ?flat_map_app. simpl. rewrite ?app_nil_r. repeat split.
  - destruct (getDownloadURL ref w2) as [[e | url] w3];
      cbn [attachmentUrls world calls fst snd successes];
      rewrite ?flat_map_app; simpl; rewrite ?app_nil_r; repeat split.
Qed.

Lemma upload_loop_spec (user : User) (files : list File) (u : Uploading W) :
  let u' := fold_left (uploadOne user) files u in
  attachmentUrls u'
  = attachmentUrls u ++ successes (fst (outcomes user files (world u)))
  /\ world u' = snd (outcomes user files (world u))
  /\ uploadsStarted (calls u') = uploadsStarted (calls u) ++ files
  /\ docsAdded (calls u') = docsAdded (calls u).
Proof.
  revert u. induction files as [| f fs IH]; intros u; cbn zeta.
  - simpl. rewrite !app_nil_r. repeat split.
  - cbn [fold_left outcomes].
    destruct (uploadOne_spec user u f) as (Ha & Hw & Hu & Hd). cbn zeta in *.
    destruct (IH (uploadOne user u f)) as (Ha' & Hw' & Hu' & Hd'). cbn zeta in *.
    rewrite Ha', Hw', Hu', Hd', Ha, Hw, Hu, Hd.
    destruct (attempt user f (world u)) as [r w1]. cbn [fst snd].
    destruct (outcomes user fs w1) as [rs w2]. cbn [fst snd].
    rewrite <- !app_assoc. repeat split.
    destruct r; reflexivity.
Qed.

End SubmitFacts.

(** C6. One submission by a signed-in user, from a state the page can
    reach and against any backend: the uploads are started one after the
    other in the order of the queue, every queued file exactly once whether
    or not earlier uploads failed; after them exactly one feedback document
    is written, and its attachments are the URLs of the uploads that
    succeeded, in queue order, at most 3 of them. *)
Theorem onSubmit_partial_success :
  forall (W : Type) (B : Backend W) (user : User) (feedback : string)
         (st : Feedback.State) (w : W),
    reachable st ->
    let calls := snd (Feedback.onSubmit (Some user) feedback st w) in
    let answers := fst (outcomes user (Feedback.selectedFiles st) w) in
    uploadsStarted calls = Feedback.selectedFiles st
    /\ List.length answers = List.length (Feedback.selectedFiles st)
    /\ (exists earlier now,
           calls = earlier
                   ++ [Feedback.CallAddDoc "feedback"
                         (FeedbackDoc (uid user) (email user) feedback
                            (successes answers) now)]
           /\ docsAdded earlier = [])
    /\ (List.length (successes answers) <= 3)%nat.
Proof.
  intros W B user feedback st w Hreach calls answers.
  pose proof (reachable_cap st Hreach) as Hcap.
  pose proof (outcomes_length user (Feedback.selectedFiles st) w) as Hlen.
  fold answers in Hlen.
  pose proof (upload_loop_spec user (Feedback.selectedFiles st)
                {| Feedback.attachmentUrls := []; Feedback.upToasts := Feedback.toasts st;
                   Feedback.calls := []; Feedback.world := w |})
    as (Ha & _ & Hu & Hd).
  cbn zeta in Ha, Hu, Hd. cbn [Feedback.attachmentUrls Feedback.calls Feedback.world] in Ha, Hu, Hd.
  simpl app in Ha, Hu. simpl docsAdded in Hd. fold answers in Ha.
  subst calls. unfold Feedback.onSubmit.
  set (u := fold_left (Feedback.uploadOne user) (Feedback.selectedFiles st) _) in *.
  destruct (dateNow (Feedback.world u)) as [now w1].
  rewrite Ha.
  destruct (addDoc "feedback" _ w1) as [[e | tt] w2]; cbn [snd];
    (split; [unfold uploadsStarted in *; rewrite flat_map_app, Hu; simpl;
             now rewrite app_nil_r |]);
    (split; [exact Hlen |]);
    (split; [exists (Feedback.calls u), now; split; [reflexivity | exact Hd] |]);
    pose proof (successes_length answers); lia.
Qed.

Lemma onSubmit_partial_success_witness :
  uploadsStarted (snd (Feedback.onSubmit (Some someUser) "It works well" threeQueued 0))
  = Feedback.selectedFiles threeQueued
  /\ docsAdded (snd (Feedback.onSubmit (Some someUser) "It works well" threeQueued 0))
     = [FeedbackDoc "u1" (Some "a@b.co") "It works well"
          ["https://storage/feedback-attachments/u1/0-shot.png";
           "https://storage/feedback-attachments/u1/1-shot.png"] 3].
Proof.
  assert (Hreach : reachable threeQueued) by (apply reach_change, reach_initial).
  destruct (onSubmit_partial_success Z flakyBackend someUser "It works well"
              threeQueued 0 Hreach) as (Hstarted & _).
  split; [exact Hstarted | vm_compute; reflexivity].
Defined.

(** ** Display names *)

Section DisplayNameFacts.

Lemma string_min_max (lo hi : nat) (v : Zod.Value) (s : string) :
  Zod.max hi (Zod.min lo Zod.string_) v = Some s
  <-> v = Zod.Str s /\ (lo <= String.length s <= hi)%nat.
Proof.
  unfold Zod.max, Zod.min, Zod.string_. destruct v as [| s0 | | |];
    try (split; [discriminate | intros [H _]; discriminate]).
  destruct (Nat.leb_spec lo (String.length s0)).
  - destruct (Nat.leb_spec (String.length s0) hi).
    + split; [intros [= ->]; split; [reflexivity | lia] | intros [[= ->] _]; reflexivity].
    + split; [discriminate | intros [[= ->] ?]; lia].
  - split; [discriminate | intros [[= ->] ?]; lia].
Qed.

(** The settings form accepts a display name exactly when it is a string of
    2 to 50 characters. *)
Lemma settingsSchema_displayName (v pic : Zod.Value) :
  (exists files, Zod.optional Zod.instanceofFileList pic = Some files) ->
  (exists data, Settings.settingsSchema
                  {| Settings.displayName := v; Settings.profilePicture := pic |}
                = Some data)
  <-> exists s, v = Zod.Str s /\ (2 <= String.length s <= 50)%nat.
Proof.
  intros [files Hpic]. unfold Settings.settingsSchema.
  cbn [Settings.displayName Settings.profilePicture]. rewrite Hpic.
  destruct (Zod.max 50 (Zod.min 2 Zod.string_) v) as [s |] eqn:Hv.
  - apply string_min_max in Hv. split; [intros _; exists s; exact Hv | eauto].
  - split; [intros [data Hd]; discriminate |].
    intros [s Hs]. apply string_min_max in Hs. congruence.
Qed.

End DisplayNameFacts.

(** C8. A display name of 51 characters: [registerSchema] lets it through
    (the registration form is accepted whenever the email and the password
    are), while [settingsSchema] refuses it. *)
Theorem registerSchema_accepts_51_characters :
  forall (P : Zod.EmailPattern) (e p : Zod.Value),
    String.length name51 = 51%nat
    /\ AuthForm.registerSchema
         {| AuthForm.email := e; AuthForm.password := p;
            AuthForm.displayName := Zod.Str name51;
            AuthForm.profilePicture := Zod.Undefined |}
       = match AuthForm.authSchema
                 {| AuthForm.email := e; AuthForm.password := p;
                    AuthForm.displayName := Zod.Str name51;
                    AuthForm.profilePicture := Zod.Undefined |} with
         | Some a =>
             Some {| AuthForm.auth := a; AuthForm.data_displayName := name51;
                     AuthForm.data_profilePicture := None |}
         | None => None
         end
    /\ Settings.settingsSchema
         {| Settings.displayName := Zod.Str name51;
            Settings.profilePicture := Zod.Undefined |} = None.
Proof.
  intros P e p. split; [reflexivity |]. split; [| reflexivity].
  unfold AuthForm.registerSchema.
  destruct (AuthForm.authSchema _); reflexivity.
Qed.

(** ** Pain levels *)

Section PainLevelFacts.

Lemma number_min_max (lo hi : Q) (v : Zod.Value) (n : JsNumber.number) :
  Zod.nmax hi (Zod.nmin lo Zod.number_) v = Some n
  <-> exists q, v = Zod.Num (JsNumber.Finite q) /\ n = JsNumber.Finite q
                /\ (lo <= q <= hi)%Q.
Proof.
  unfold Zod.nmax, Zod.nmin, Zod.number_.
  destruct v as [| | [q | | |] | |]; cbn [JsNumber.geq JsNumber.leq];
    try (split; [discriminate | intros (q' & H & _); discriminate]).
  - destruct (Qle_bool lo q) eqn:Hlo; cbn [JsNumber.leq].
    + destruct (Qle_bool q hi) eqn:Hhi.
      * apply Qle_bool_iff in Hlo, Hhi. split.
        -- intros [= <-]. exists q. repeat split; assumption.
        -- intros (q' & [= <-] & -> & _). reflexivity.
      * split; [discriminate |]. intros (q' & [= <-] & _ & _ & H).
        apply Qle_bool_iff in H. congruence.
    + split; [discriminate |]. intros (q' & [= <-] & _ & H & _).
      apply Qle_bool_iff in H. congruence.
Qed.

Lemma entrySchema_Some (v : NewEntryForm.FormValues) (data : NewEntryForm.FormData) :
  NewEntryForm.entrySchema v = Some data ->
  exists q, NewEntryForm.painLevel v = Zod.Num (JsNumber.Finite q)
            /\ NewEntryForm.data_painLevel data = JsNumber.Finite q
            /\ (0 <= q <= 10)%Q.
Proof.
  unfold NewEntryForm.entrySchema.
  destruct (Zod.nmax 10 (Zod.nmin 0 Zod.number_) (NewEntryForm.painLevel v))
    as [n |] eqn:Hn; [| discriminate].
  destruct (Zod.date_ _); [| discriminate]. destruct (Zod.string_ _); [| discriminate].
  intros [= <-]. apply number_min_max in Hn. exact Hn.
Qed.

End PainLevelFacts.

(** C9, the counterexample: the schema accepts the pain level 2.5, which is
    no integer. *)
Lemma entrySchema_accepts_two_and_a_half :
  NewEntryForm.entrySchema
    {| NewEntryForm.painLevel := Zod.Num (JsNumber.Finite (5 # 2));
       NewEntryForm.date := Zod.DateObj (TimeValue jan1_2024);
       NewEntryForm.notes := Zod.Str "" |}
  = Some {| NewEntryForm.data_painLevel := JsNumber.Finite (5 # 2);
            NewEntryForm.data_date := jan1_2024;
            NewEntryForm.data_notes := "" |}
  /\ isInteger (JsNumber.Finite (5 # 2)) = false.
Proof.
  split; reflexivity.
Qed.

(** C9 (as the code has it). With a valid date and notes, [entrySchema]
    accepts a pain level exactly when it is a number from 0 to 10, bounds
    included, integer or not; a document the form writes carries the pain
    level of the form, which lies in that range; and every stop of the
    slider up to its maximum is an integer that the schema accepts. *)
Theorem entrySchema_pain_level_range :
  (forall (v : Zod.Value) (d : Z) (n : string),
      (exists data,
          NewEntryForm.entrySchema
            {| NewEntryForm.painLevel := v;
               NewEntryForm.date := Zod.DateObj (TimeValue d);
               NewEntryForm.notes := Zod.Str n |} = Some data)
      <-> exists q, v = Zod.Num (JsNumber.Finite q) /\ (0 <= q <= 10)%Q)
  /\ (forall (W : Type) (B : Backend W) (currentUser : option User)
             (values : NewEntryForm.FormValues) (st : NewEntryForm.State W) (doc : Doc),
         In doc (NewEntryForm.written (NewEntryForm.submit currentUser values st)) ->
         In doc (NewEntryForm.written st)
         \/ exists user q d n c,
             currentUser = Some user
             /\ doc = PainEntryDoc (uid user) (JsNumber.Finite q) d n c
             /\ NewEntryForm.painLevel values = Zod.Num (JsNumber.Finite q)
             /\ (0 <= q <= 10)%Q)
  /\ (forall k : nat,
         (NewEntryForm.sliderStop k <= NewEntryForm.sliderMax)%Q ->
         isInteger (JsNumber.Finite (NewEntryForm.sliderStop k)) = true
         /\ exists data,
             NewEntryForm.entrySchema
               {| NewEntryForm.painLevel := Zod.Num (JsNumber.Finite (NewEntryForm.sliderStop k));
                  NewEntryForm.date := Zod.DateObj (TimeValue 0);
                  NewEntryForm.notes := Zod.Str "" |} = Some data).
Proof.
  split; [| split].
  - intros v d n. unfold NewEntryForm.entrySchema.
    cbn [NewEntryForm.painLevel NewEntryForm.date NewEntryForm.notes Zod.date_ Zod.string_].
    destruct (Zod.nmax 10 (Zod.nmin 0 Zod.number_) v) as [x |] eqn:Hx.
    + apply number_min_max in Hx. destruct Hx as (q & -> & -> & Hq).
      split; [intros _; exists q; split; [reflexivity | exact Hq] | eauto].
    + split; [intros [data H]; discriminate |].
      intros (q & -> & Hq).
      assert (Hs : Zod.nmax 10 (Zod.nmin 0 Zod.number_) (Zod.Num (JsNumber.Finite q))
                   = Some (JsNumber.Finite q))
        by (apply number_min_max; exists q; repeat split; apply Hq).
      congruence.
  - intros W B currentUser values st doc.
    unfold NewEntryForm.submit, Zod.handleSubmit.
    destruct (NewEntryForm.entrySchema values) as [data |] eqn:Hdata; [| now left].
    apply entrySchema_Some in Hdata. destruct Hdata as (q & Hv & Hd & Hq).
    unfold NewEntryForm.onSubmit. destruct currentUser as [user |]; [| now left].
    destruct (dateNow _) as [now w1]. destruct (addDoc _ _ _) as [[e | u] w2];
      cbn [NewEntryForm.written]; [now left |].
    intros Hin. apply in_app_or in Hin. destruct Hin as [Hin | [<- | []]]; [now left |].
    right. exists user, q, (TimeValue (NewEntryForm.data_date data)),
      (NewEntryForm.data_notes data), now.
    rewrite Hd. repeat split; try assumption; apply Hq.
  - intros k Hk.
    assert (Hk10 : (k <= 10)%nat).
    { unfold NewEntryForm.sliderStop, NewEntryForm.sliderMax, NewEntryForm.sliderMin,
        NewEntryForm.sliderStep, Qle, Qplus, Qmult, inject_Z in Hk.
      cbn [Qnum Qden] in Hk. lia. }
    do 11 (destruct k as [| k]; [split; [reflexivity | eexists; reflexivity] |]).
    lia.
Qed.

Lemma entrySchema_pain_level_range_witness :
  exists q, Zod.Num (JsNumber.Finite (7 # 2)) = Zod.Num (JsNumber.Finite q)
            /\ (0 <= q <= 10)%Q.
Proof.
  apply (proj1 (proj1 entrySchema_pain_level_range
                  (Zod.Num (JsNumber.Finite (7 # 2))) jan1_2024 "flare")).
  eexists. reflexivity.
Defined.

(** ** Client guard against storage rule *)

(** C10. A PNG of exactly 5,242,880 bytes passes [validateFile], and the
    storage rule for feedback attachments refuses to create it for every
    user, signed in or not, although its content type matches the rule:
    the client compares with [size > 5MB], the rule with [size < 5MB], and
    the two size tests differ at 5,242,880 bytes and nowhere else. *)
Theorem boundary_file_passes_client_fails_storage :
  Feedback.validateFile (screenshot 5242880 "image/png") = (true, [])
  /\ (forall (userId : string) (who : option string),
         StorageRules.feedbackAttachments_create userId
           {| StorageRules.auth_uid := who;
              StorageRules.resource_size := size (screenshot 5242880 "image/png");
              StorageRules.resource_contentType := type (screenshot 5242880 "image/png") |}
         = false)
  /\ StorageRules.matches_image (type (screenshot 5242880 "image/png")) = true
  /\ (forall s : N,
         negb (Feedback.MAX_FILE_SIZE <? s)%N = (s <? 5 * 1024 * 1024)%N
         <-> s <> 5242880%N).
Proof.
  split; [reflexivity |]. split; [| split; [reflexivity |]].
  - intros userId who. unfold StorageRules.feedbackAttachments_create.
    cbn [StorageRules.resource_size size screenshot].
    replace (5242880 <? 5 * 1024 * 1024)%N with false by reflexivity.
    now rewrite andb_false_r.
  - intros s. unfold Feedback.MAX_FILE_SIZE.
    change (5 * 1024 * 1024)%N with 5242880%N.
    destruct (N.ltb_spec 5242880 s), (N.ltb_spec s 5242880); simpl;
      split; intros; try congruence; try lia.
Qed.

(** ** The calendar: keys and days *)

Section CalendarFacts.

Lemma day_of_era_range (doe : Z) :
  0 <= doe <= 146096 ->
  let yoe := (doe - doe / 1460 + doe / 36524 - doe / 146096) / 365 in
  let doy := doe - (365 * yoe + yoe / 4 - yoe / 100) in
  0 <= yoe <= 399 /\ 0 <= doy <= 365.
Proof.
  intros H. cbv zeta. Z.div_mod_to_equations. lia.
Qed.

(** A day number gives a month from 1 to 12 and a day from 1 to 31. *)
Lemma civil_from_days_range (z : Z) :
  let '(y, m, d) := civil_from_days z in 1 <= m <= 12 /\ 1 <= d <= 31.
Proof.
  unfold civil_from_days. cbv zeta.
  set (z1 := z + 719468). set (era := z1 / 146097).
  set (doe := z1 - era * 146097).
  assert (Hdoe : 0 <= doe <= 146096).
  { subst doe era. pose proof (Z.div_mod z1 146097 ltac:(lia)).
    pose proof (Z.mod_pos_bound z1 146097 ltac:(lia)). lia. }
  pose proof (day_of_era_range doe Hdoe) as [Hyoe Hdoy]. cbv zeta in Hyoe, Hdoy.
  set (yoe := (doe - doe / 1460 + doe / 36524 - doe / 146096) / 365) in *.
  set (doy := doe - (365 * yoe + yoe / 4 - yoe / 100)) in *.
  clearbody doy.
  destruct (Z.ltb_spec ((5 * doy + 2) / 153) 10);
    (split; Z.div_mod_to_equations; lia).
Qed.

(** The day number is recovered from its year, month and day. *)
Lemma days_from_civil_from_days (z : Z) :
  let '(y, m, d) := civil_from_days z in days_from_civil y m d = z.
Proof.
  unfold civil_from_days. cbv zeta.
  set (z1 := z + 719468). set (era := z1 / 146097).
  set (doe := z1 - era * 146097).
  assert (Hdoe : 0 <= doe <= 146096).
  { subst doe era. pose proof (Z.div_mod z1 146097 ltac:(lia)).
    pose proof (Z.mod_pos_bound z1 146097 ltac:(lia)). lia. }
  pose proof (day_of_era_range doe Hdoe) as [Hyoe Hdoy]. cbv zeta in Hyoe, Hdoy.
  set (yoe := (doe - doe / 1460 + doe / 36524 - doe / 146096) / 365) in *.
  set (doy := doe - (365 * yoe + yoe / 4 - yoe / 100)) in *.
  assert (Hz : z = era * 146097 + doe - 719468) by (subst doe z1; lia).
  assert (Hdoe' : doe = 365 * yoe + yoe / 4 - yoe / 100 + doy) by (subst doy; lia).
  clearbody doy yoe doe era. clearbody z1.
  set (mp := (5 * doy + 2) / 153).
  assert (Hmp : 0 <= mp <= 11) by (subst mp; Z.div_mod_to_equations; lia).
  assert (Hd : (153 * mp + 2) / 5 <= doy) by (subst mp; Z.div_mod_to_equations; lia).
  clearbody mp. unfold days_from_civil.
  destruct (Z.ltb_spec mp 10).
  - destruct (Z.leb_spec (mp + 3) 2); [lia |].
    destruct (Z.ltb_spec 2 (mp + 3)); [| lia]. cbv zeta.
    replace (mp + 3 - 3) with mp by lia.
    replace ((yoe + era * 400) / 400) with era by (Z.div_mod_to_equations; lia).
    replace (yoe + era * 400 - era * 400) with yoe by lia. lia.
  - destruct (Z.leb_spec (mp - 9) 2); [| lia].
    destruct (Z.ltb_spec 2 (mp - 9)); [lia |]. cbv zeta.
    replace (mp - 9 + 9) with mp by lia.
    replace (yoe + era * 400 + 1 - 1) with (yoe + era * 400) by lia.
    replace ((yoe + era * 400) / 400) with era by (Z.div_mod_to_equations; lia).
    replace (yoe + era * 400 - era * 400) with yoe by lia. lia.
Qed.

Lemma civil_from_days_inj (z1 z2 : Z) :
  civil_from_days z1 = civil_from_days z2 -> z1 = z2.
Proof.
  intros H. pose proof (days_from_civil_from_days z1) as H1.
  pose proof (days_from_civil_from_days z2) as H2. rewrite H in H1.
  destruct (civil_from_days z2) as [[y m] d]. congruence.
Qed.

Lemma append_inj (a a' b b' : string) :
  String.length a = String.length a' ->
  (a ++ b)%string = (a' ++ b')%string -> a = a' /\ b = b'.
Proof.
  revert a'. induction a as [| c a IH]; intros [| c' a'] Hlen H; simpl in *;
    try discriminate.
  - now split.
  - injection H as -> H. injection Hlen as Hlen.
    destruct (IH a' Hlen H) as [-> ->]. now split.
Qed.

Lemma paddedUpTo_spec (n width : nat) (k : Z) :
  paddedUpTo n width = true -> 1 <= k <= Z.of_nat n ->
  String.length (addLeadingZeros k width) = width
  /\ digits_value (addLeadingZeros k width) 0 = k.
Proof.
  unfold paddedUpTo. rewrite forallb_forall. intros Hall Hk.
  specialize (Hall (Z.to_nat k)). rewrite Z2Nat.id in Hall by lia.
  assert (Hin : In (Z.to_nat k) (seq 1 n)) by (apply in_seq; lia).
  apply Hall in Hin. apply andb_true_iff in Hin. destruct Hin as [H1 H2].
  split; [now apply Nat.eqb_eq | now apply Z.eqb_eq].
Qed.

Lemma padded_years : paddedUpTo (Z.to_nat 9999) 4 = true.
Proof. vm_compute. reflexivity. Qed.

Lemma padded_days : paddedUpTo (Z.to_nat 31) 2 = true.
Proof. vm_compute. reflexivity. Qed.

Lemma padded_inj (n width : nat) (j k : Z) :
  paddedUpTo n width = true -> 1 <= j <= Z.of_nat n -> 1 <= k <= Z.of_nat n ->
  addLeadingZeros j width = addLeadingZeros k width -> j = k.
Proof.
  intros Hp Hj Hk H.
  destruct (paddedUpTo_spec n width j Hp Hj) as [_ <-].
  destruct (paddedUpTo_spec n width k Hp Hk) as [_ <-]. now rewrite H.
Qed.

Context `{tz : TimeZone}.

Lemma format_key_shape (t : Z) :
  format (TimeValue t) "yyyy-MM-dd"
  = let '(y, m, d) := localFields t in
    let era_year := if 0 <? y then y else 1 - y in
    inr (addLeadingZeros era_year 4
         ++ "-" ++ addLeadingZeros m 2 ++ "-" ++ addLeadingZeros d 2)%string.
Proof.
  unfold format. destruct (localFields t) as [[y m] d]. reflexivity.
Qed.

End CalendarFacts.

(** Between the years 1 and 9999 the 'yyyy-MM-dd' key of an entry names its
    local calendar day: two entries get the same key exactly when their
    dates fall on the same day. *)
Theorem dateStr_names_the_local_day :
  forall (tz : TimeZone) (e1 e2 : PainEntry) (t1 t2 : Z),
    date e1 = TimeValue t1 -> date e2 = TimeValue t2 ->
    1 <= localYear t1 <= 9999 -> 1 <= localYear t2 <= 9999 ->
    (dateStr e1 = dateStr e2 <-> localDay t1 = localDay t2).
Proof.
  intros tz e1 e2 t1 t2 H1 H2 Hy1 Hy2. unfold dateStr. rewrite H1, H2.
  rewrite !format_key_shape. unfold localYear, localFields in *.
  split; [| intros ->; reflexivity].
  pose proof (civil_from_days_range (localDay t1)) as R1.
  pose proof (civil_from_days_range (localDay t2)) as R2.
  intros Hkey. apply civil_from_days_inj.
  destruct (civil_from_days (localDay t1)) as [[y1 m1] d1].
  destruct (civil_from_days (localDay t2)) as [[y2 m2] d2].
  cbn [fst] in Hy1, Hy2.
  destruct (Z.ltb_spec 0 y1); [| lia]. destruct (Z.ltb_spec 0 y2); [| lia].
  destruct (paddedUpTo_spec (Z.to_nat 9999) 4 y1 padded_years ltac:(lia)) as [L1 _].
  destruct (paddedUpTo_spec (Z.to_nat 9999) 4 y2 padded_years ltac:(lia)) as [L2 _].
  apply append_inj in Hkey; [| congruence]. destruct Hkey as [Hy Hkey].
  injection Hkey as Hkey.
  destruct (paddedUpTo_spec (Z.to_nat 31) 2 m1 padded_days ltac:(lia)) as [M1 _].
  destruct (paddedUpTo_spec (Z.to_nat 31) 2 m2 padded_days ltac:(lia)) as [M2 _].
  apply append_inj in Hkey; [| congruence]. destruct Hkey as [Hm Hkey].
  injection Hkey as Hd.
  apply (padded_inj (Z.to_nat 9999) 4) in Hy; [| exact padded_years | lia | lia].
  apply (padded_inj (Z.to_nat 31) 2) in Hm; [| exact padded_days | lia | lia].
  apply (padded_inj (Z.to_nat 31) 2) in Hd; [| exact padded_days | lia | lia].
  congruence.
Qed.

(** ** The chart: the order of the points *)

Section OrderFacts.
Context {A : Type} (compareFn : A -> A -> Z) (key : A -> option Z).

Let keyed (a : A) : Prop := exists x, key a = Some x.
Let before (a b : A) : Prop := exists x y, key a = Some x /\ key b = Some y /\ x <= y.

Hypothesis compare_key :
  forall a b x y, key a = Some x -> key b = Some y ->
                  ((compareFn a b <=? 0) = true <-> x <= y).

Lemma insert_keyed (x : A) (l : list A) :
  keyed x -> Forall keyed l -> Forall keyed (JsArray.insert compareFn x l).
Proof.
  intros Hx Hl. induction Hl as [| y l Hy Hl IH]; simpl.
  - constructor; [exact Hx | constructor].
  - destruct (compareFn x y <=? 0).
    + constructor; [exact Hx |]. constructor; assumption.
    + constructor; assumption.
Qed.

Lemma insert_sorted (x : A) (l : list A) :
  keyed x -> Forall keyed l -> StronglySorted before l ->
  StronglySorted before (JsArray.insert compareFn x l).
Proof.
  intros [kx Hx] Hl Hs. induction Hs as [| y l Hs IH Hy]; simpl.
  - constructor; constructor.
  - inversion Hl as [| ? ? [ky Hky] Hl']; subst.
    destruct (compareFn x y <=? 0) eqn:Hc.
    + apply (compare_key x y kx ky Hx Hky) in Hc.
      constructor; [constructor; assumption |].
      constructor; [exists kx, ky; repeat split; assumption |].
      rewrite Forall_forall in Hy |- *. intros z Hz.
      destruct (Hy z Hz) as (ky' & kz & Hky' & Hkz & Hle).
      exists kx, kz. repeat split; try assumption.
      rewrite Hky in Hky'. injection Hky' as <-. lia.
    + assert (Hgt : ky <= kx).
      { destruct (Z.le_gt_cases kx ky) as [Hle | Hgt]; [| lia].
        apply (compare_key x y kx ky Hx Hky) in Hle. congruence. }
      constructor; [apply IH; assumption |].
      eapply Permutation_Forall; [apply insert_perm |].
      constructor; [exists ky, kx; repeat split; assumption | exact Hy].
Qed.

Lemma sort_sorted (l : list A) :
  Forall keyed l ->
  Forall keyed (JsArray.sort compareFn l)
  /\ StronglySorted before (JsArray.sort compareFn l).
Proof.
  induction 1 as [| x l Hx Hl [IHk IHs]]; simpl.
  - split; constructor.
  - split; [now apply insert_keyed | now apply insert_sorted].
Qed.

End OrderFacts.

Section LabelFacts.
Context `{tz : TimeZone}.







End LabelFacts.


Lemma dateStr_names_the_local_day_witness :
  dateStr (entryAt jan1_2024 4) = dateStr (entryAt (jan1_2024 + 54000000) 6)
  <-> localDay jan1_2024 = localDay (jan1_2024 + 54000000).
Proof.
  apply (dateStr_names_the_local_day UTC
           (entryAt jan1_2024 4) (entryAt (jan1_2024 + 54000000) 6)
           jan1_2024 (jan1_2024 + 54000000) eq_refl eq_refl);
    vm_compute; split; discriminate.
Defined.

(** ** Exact ties *)

(** Twenty entries on one day with a mean of exactly 0.15 are charted at
    0.1, and twenty with a mean of exactly 0.25 at 0.3: an exact tie goes
    the way the binary64 quotient lies (0.15 is stored just below, 0.25 is
    stored exactly and [toFixed] then takes the larger candidate). *)
Theorem chartData_exact_ties :
  PainChart.chartData
    (repeat (entryAt jan1_2024 1) 3 ++ repeat (entryAt jan1_2024 0) 17)
    {| PainChart.from := TimeValue jan1_2024; PainChart.to := TimeValue jan2_2024 |}
  = inr [ {| PainChart.cp_date := "Jan 1"; PainChart.cp_painLevel := 1 # 10 |} ]
  /\ PainChart.chartData
       (repeat (entryAt jan1_2024 1) 5 ++ repeat (entryAt jan1_2024 0) 15)
       {| PainChart.from := TimeValue jan1_2024; PainChart.to := TimeValue jan2_2024 |}
     = inr [ {| PainChart.cp_date := "Jan 1"; PainChart.cp_painLevel := 3 # 10 |} ].
Proof.
  split; vm_compute; reflexivity.
Qed.

(** The settings form, with no new picture chosen, accepts a display name
    exactly when it is a string of 2 to 50 characters. *)
Theorem settingsSchema_two_to_fifty :
  forall v : Zod.Value,
    (exists data,
        Settings.settingsSchema
          {| Settings.displayName := v; Settings.profilePicture := Zod.Undefined |}
        = Some data)
    <-> exists s, v = Zod.Str s /\ (2 <= String.length s <= 50)%nat.
Proof.
  intros v. apply settingsSchema_displayName. exists None. reflexivity.
Qed.

(** In every state the feedback page can reach, at most three files are
    queued. *)
Theorem reachable_at_most_three :
  forall st : Feedback.State,
    reachable st -> (List.length (Feedback.selectedFiles st) <= 3)%nat.
Proof.
  exact reachable_cap.
Qed.

Lemma reachable_at_most_three_witness :
  (List.length
     (Feedback.selectedFiles
        (Feedback.handleFileChange threeQueued (Some [screenshot 400 "image/png"])))
   <= 3)%nat.
Proof.
  apply reachable_at_most_three. apply reach_change, reach_change, reach_initial.
Defined.

(** ** The calendar: valid dates *)

Section ValidDates.

Lemma isLeap_spec (y : Z) :
  (isLeap y = true /\ y mod 4 = 0 /\ (y mod 100 <> 0 \/ y mod 400 = 0))
  \/ (isLeap y = false /\ (y mod 4 <> 0 \/ (y mod 100 = 0 /\ y mod 400 <> 0))).
Proof.
  unfold isLeap.
  destruct (Z.eqb_spec (y mod 4) 0), (Z.eqb_spec (y mod 100) 0),
    (Z.eqb_spec (y mod 400) 0); simpl; intuition lia.
Qed.

Lemma month_cases (m : Z) :
  1 <= m <= 12 ->
  m = 1 \/ m = 2 \/ m = 3 \/ m = 4 \/ m = 5 \/ m = 6 \/ m = 7
  \/ m = 8 \/ m = 9 \/ m = 10 \/ m = 11 \/ m = 12.
Proof. lia. Qed.

Lemma year_of_era_back (yoe doy : Z) :
  0 <= yoe <= 399 -> 0 <= doy <= 365 ->
  (doy = 365 -> (yoe + 1) mod 4 = 0 /\ ((yoe + 1) mod 100 <> 0 \/ yoe = 399)) ->
  let doe := 365 * yoe + yoe / 4 - yoe / 100 + doy in
  0 <= doe <= 146096 /\
  (doe - doe / 1460 + doe / 36524 - doe / 146096) / 365 = yoe.
Proof.
  intros Hy Hd Hl. cbv zeta. Z.div_mod_to_equations. lia.
Qed.

Lemma day_of_era_leap (doe : Z) :
  0 <= doe <= 146096 ->
  let yoe := (doe - doe / 1460 + doe / 36524 - doe / 146096) / 365 in
  let doy := doe - (365 * yoe + yoe / 4 - yoe / 100) in
  0 <= yoe <= 399 /\ 0 <= doy <= 365 /\
  (doy = 365 -> (yoe + 1) mod 4 = 0 /\ ((yoe + 1) mod 100 <> 0 \/ yoe = 399)).
Proof.
  intros H. cbv zeta. Z.div_mod_to_equations. lia.
Qed.

(** A valid year, month and day is recovered from its day number. *)
Lemma civil_from_days_from_civil (y m d : Z) :
  1 <= m <= 12 -> 1 <= d <= daysInMonth y m ->
  civil_from_days (days_from_civil y m d) = (y, m, d).
Proof.
  intros Hm Hd. unfold days_from_civil.
  set (y1 := if m <=? 2 then y - 1 else y).
  set (era := y1 / 400). set (yoe := y1 - era * 400).
  set (mp := if 2 <? m then m - 3 else m + 9).
  set (doy := (153 * mp + 2) / 5 + d - 1).
  assert (Hyoe : 0 <= yoe <= 399) by (subst yoe era; Z.div_mod_to_equations; lia).
  assert (Hy1 : y1 = yoe + era * 400) by (subst yoe; lia).
  assert (Hmp : 0 <= mp <= 11 /\ m = (if mp <? 10 then mp + 3 else mp - 9)
                /\ y = (if (if mp <? 10 then mp + 3 else mp - 9) <=? 2
                        then y1 + 1 else y1)).
  { subst mp y1. destruct (Z.ltb_spec 2 m), (Z.leb_spec m 2); try lia.
    - destruct (Z.ltb_spec (m - 3) 10); [| lia].
      destruct (Z.leb_spec (m - 3 + 3) 2); lia.
    - destruct (Z.ltb_spec (m + 9) 10); [lia |].
      destruct (Z.leb_spec (m + 9 - 9) 2); lia. }
  assert (Hdoy : 0 <= doy <= 365 /\ (5 * doy + 2) / 153 = mp
                 /\ doy - (153 * mp + 2) / 5 + 1 = d
                 /\ (doy = 365 ->
                     (yoe + 1) mod 4 = 0 /\ ((yoe + 1) mod 100 <> 0 \/ yoe = 399))).
  { pose proof (month_cases m Hm) as Hcase.
    unfold daysInMonth in Hd. subst doy mp yoe era y1.
    destruct (isLeap_spec y) as [[E Hl] | [E Hl]]; rewrite E in Hd;
      repeat (destruct Hcase as [Hcase | Hcase]); subst m;
      cbn [Z.eqb Pos.eqb orb Z.ltb Z.leb Z.compare Pos.compare Pos.compare_cont] in Hd |- *;
      (repeat split; try (intros; Z.div_mod_to_equations; lia)). }
  destruct Hdoy as (Hdoy & Hmpb & Hdb & Hleap).
  destruct (year_of_era_back yoe doy Hyoe Hdoy Hleap) as [Hdoe Hyb].
  cbv zeta in Hdoe, Hyb. destruct Hmp as (Hmpr & Hmm & Hyy).
  clearbody doy mp yoe era y1.
  unfold civil_from_days. cbv zeta.
  replace (era * 146097 + (yoe * 365 + yoe / 4 - yoe / 100 + doy) - 719468 + 719468)
    with (era * 146097 + (365 * yoe + yoe / 4 - yoe / 100 + doy)) by lia.
  set (doe := 365 * yoe + yoe / 4 - yoe / 100 + doy) in *.
  replace ((era * 146097 + doe) / 146097) with era
    by (clearbody doe; Z.div_mod_to_equations; lia).
  replace (era * 146097 + doe - era * 146097) with doe by lia.
  rewrite Hyb.
  replace (doe - (365 * yoe + yoe / 4 - yoe / 100)) with doy by (subst doe; lia).
  rewrite Hmpb, Hdb, <- Hy1, <- Hyy, <- Hmm. reflexivity.
Qed.

(** The year, month and day of a day number form a valid date. *)
Lemma civil_from_days_valid (z : Z) :
  let '(y, m, d) := civil_from_days z in
  1 <= m <= 12 /\ 1 <= d <= daysInMonth y m.
Proof.
  unfold civil_from_days. cbv zeta.
  set (z1 := z + 719468). set (era := z1 / 146097).
  set (doe := z1 - era * 146097).
  assert (Hdoe : 0 <= doe <= 146096).
  { subst doe era. pose proof (Z.div_mod z1 146097 ltac:(lia)).
    pose proof (Z.mod_pos_bound z1 146097 ltac:(lia)). lia. }
  pose proof (day_of_era_leap doe Hdoe) as (Hyoe & Hdoy & Hleap).
  cbv zeta in Hyoe, Hdoy, Hleap.
  set (yoe := (doe - doe / 1460 + doe / 36524 - doe / 146096) / 365) in *.
  set (doy := doe - (365 * yoe + yoe / 4 - yoe / 100)) in *.
  clearbody doy yoe. clearbody era.
  set (mp := (5 * doy + 2) / 153).
  assert (Hmp : 0 <= mp <= 11) by (subst mp; Z.div_mod_to_equations; lia).
  set (d := doy - (153 * mp + 2) / 5 + 1).
  assert (Hcase : mp = 0 \/ mp = 1 \/ mp = 2 \/ mp = 3 \/ mp = 4 \/ mp = 5 \/ mp = 6
                  \/ mp = 7 \/ mp = 8 \/ mp = 9 \/ mp = 10 \/ mp = 11) by lia.
  assert (Hd : 1 <= d /\ (mp = 11 -> d <= 29 /\ (d = 29 -> doy = 365))
               /\ (mp = 1 \/ mp = 3 \/ mp = 6 \/ mp = 8 -> d <= 30) /\ d <= 31).
  { subst d mp. Z.div_mod_to_equations. lia. }
  clearbody d. unfold daysInMonth.
  destruct (isLeap_spec (if (if mp <? 10 then mp + 3 else mp - 9) <=? 2
                         then yoe + era * 400 + 1 else yoe + era * 400))
    as [[E Hl] | [E Hl]];
    rewrite E; clear E;
    repeat (destruct Hcase as [Hcase | Hcase]); rewrite Hcase in *;
    cbn in Hl |- *; (split; [lia |]); try lia.
  all: destruct Hd as (? & H29 & _ & _); destruct (H29 eq_refl) as [? H365];
    (split; [lia |]).
  all: assert (d = 29 -> False); [| lia].
  all: intros Hd29; specialize (H365 Hd29); specialize (Hleap H365).
  all: clear - Hleap Hl Hyoe; Z.div_mod_to_equations; lia.
Qed.

End ValidDates.

(** ** Date arithmetic *)

Section DateArithFacts.
Context `{tz : TimeZone}.
Import DateArith.

Lemma timeInDay_range (t : Z) : 0 <= timeInDay t < msPerDay.
Proof. unfold timeInDay, msPerDay. apply Z.mod_pos_bound. lia. Qed.

Lemma ofLocal_fields (t : Z) : ofLocal (localDay t) (timeInDay t) = t.
Proof.
  unfold ofLocal, localDay, timeInDay, msPerDay.
  pose proof (Z.div_mod (t + utcOffsetMs) 86400000 ltac:(lia)). lia.
Qed.

Lemma localDay_ofLocal (day ms : Z) :
  0 <= ms < msPerDay -> localDay (ofLocal day ms) = day.
Proof.
  unfold ofLocal, localDay, msPerDay. intros H.
  replace (day * 86400000 + ms - utcOffsetMs + utcOffsetMs) with (ms + day * 86400000) by lia.
  rewrite Z.div_add by lia. rewrite Z.div_small by lia. lia.
Qed.

Lemma timeInDay_ofLocal (day ms : Z) :
  0 <= ms < msPerDay -> timeInDay (ofLocal day ms) = ms.
Proof.
  unfold ofLocal, timeInDay, msPerDay. intros H.
  replace (day * 86400000 + ms - utcOffsetMs + utcOffsetMs) with (ms + day * 86400000) by lia.
  rewrite Z.mod_add by lia. apply Z.mod_small. lia.
Qed.

Lemma days_from_civil_shift (y m d k : Z) :
  days_from_civil y m (d + k) = days_from_civil y m d + k.
Proof. unfold days_from_civil. lia. Qed.

Lemma makeDay_month (y m d : Z) :
  1 <= m <= 12 -> makeDay y m d = days_from_civil y m d.
Proof.
  intros Hm. unfold makeDay.
  replace ((m - 1) / 12) with 0 by (Z.div_mod_to_equations; lia).
  replace ((m - 1) mod 12 + 1) with m by (Z.div_mod_to_equations; lia).
  now rewrite Z.add_0_r.
Qed.

(** The day number of a time value, from its local fields. *)
Lemma makeDay_fields (t : Z) :
  makeDay (getFullYear t) (getMonth t) (getDate t) = localDay t.
Proof.
  unfold getFullYear, getMonth, getDate, localFields.
  pose proof (civil_from_days_range (localDay t)) as Hr.
  pose proof (days_from_civil_from_days (localDay t)) as Hb.
  destruct (civil_from_days (localDay t)) as [[y m] d]. cbn [fst snd].
  rewrite makeDay_month by tauto. exact Hb.
Qed.

(** In a zone with a fixed offset, [setDate] to [k] days after the current
    day of the month moves the time value by [k] whole days. *)
Lemma setDate_shift (t k : Z) :
  setDate t (getDate t + k) = t + k * msPerDay.
Proof.
  unfold setDate.
  assert (H : makeDay (getFullYear t) (getMonth t) (getDate t + k) = localDay t + k).
  { rewrite <- makeDay_fields. unfold makeDay. apply days_from_civil_shift. }
  rewrite H. rewrite <- (ofLocal_fields t) at 3. unfold ofLocal. lia.
Qed.

Lemma subDays_spec (t n : Z) :
  subDays (TimeValue t) n = TimeValue (t - n * msPerDay).
Proof.
  unfold subDays, addDays. destruct (Z.eqb_spec (- n) 0) as [H0 | H0].
  - f_equal. lia.
  - rewrite setDate_shift. f_equal. lia.
Qed.

End DateArithFacts.

Section MonthFacts.
Import DateArith.

Lemma makeDay_year (y m d : Z) : makeDay y m d = makeDay (y - 1) (m + 12) d.
Proof.
  unfold makeDay.
  replace (m + 12 - 1) with (m - 1 + 1 * 12) by lia.
  rewrite Z.div_add, Z.mod_add by lia. f_equal. lia.
Qed.

Lemma makeDay_january (y d : Z) : makeDay y 13 d = days_from_civil (y + 1) 1 d.
Proof. reflexivity. Qed.

(** The first of the next month comes [daysInMonth] days after the first
    of a month. *)
Lemma makeDay_next_month (y m : Z) :
  1 <= m <= 12 ->
  makeDay y (m + 1) 1 = days_from_civil y m 1 + daysInMonth y m.
Proof.
  intros Hm. destruct (Z.eq_dec m 12) as [-> | Hne].
  - change (12 + 1) with 13. rewrite makeDay_january.
    unfold days_from_civil, daysInMonth.
    cbn [Z.eqb Pos.eqb orb Z.ltb Z.leb Z.compare Pos.compare Pos.compare_cont].
    Z.div_mod_to_equations. lia.
  - rewrite makeDay_month by lia.
    assert (Hcase : m = 1 \/ m = 2 \/ m = 3 \/ m = 4 \/ m = 5 \/ m = 6 \/ m = 7
                    \/ m = 8 \/ m = 9 \/ m = 10 \/ m = 11) by lia.
    unfold days_from_civil, daysInMonth.
    destruct (isLeap_spec y) as [[E Hl] | [E Hl]]; rewrite E; clear E;
      repeat (destruct Hcase as [Hcase | Hcase]); subst m;
      cbn [Z.eqb Pos.eqb orb Z.ltb Z.leb Z.compare Pos.compare Pos.compare_cont
           Z.add Pos.add Pos.succ Pos.add_carry];
      Z.div_mod_to_equations; lia.
Qed.

End MonthFacts.
Section ThreeMonthsBack.
Import DateArith.

(** Evaluates the sums, differences and comparisons of numerals that a
    case analysis on the month leaves behind. *)
Ltac month_calc :=
  repeat match goal with
    | |- context [Z.pos ?a - Z.pos ?b] =>
        let v := eval vm_compute in (Z.pos a - Z.pos b) in
        change (Z.pos a - Z.pos b) with v
    | |- context [Z.pos ?a + Z.pos ?b] =>
        let v := eval vm_compute in (Z.pos a + Z.pos b) in
        change (Z.pos a + Z.pos b) with v
    end;
  cbn [Z.eqb Pos.eqb orb Z.ltb Z.leb Z.compare Pos.compare Pos.compare_cont].

(** Three months before month [m] of year [y]: the last day of that
    month, and the lengths of the three months from there to [m]. *)
Lemma three_months_back (y m : Z) :
  1 <= m <= 12 ->
  let yT := if m <=? 3 then y - 1 else y in
  let mT := if m <=? 3 then m + 9 else m - 3 in
  1 <= mT <= 12 /\
  makeDay y (m - 2) 0 = days_from_civil yT mT (daysInMonth yT mT) /\
  exists s,
    days_from_civil y m 1 = days_from_civil yT mT 1 + daysInMonth yT mT + s /\
    89 <= daysInMonth yT mT + s <= 92 /\ 89 <= s + daysInMonth y m <= 92.
Proof.
  intros Hm. cbv zeta.
  assert (HE : makeDay y (m - 2) 0
               = days_from_civil (if m <=? 2 then y - 1 else y)
                   (if m <=? 2 then m + 10 else m - 2) 0).
  { destruct (Z.leb_spec m 2).
    - rewrite makeDay_year, makeDay_month by lia. f_equal. lia.
    - rewrite makeDay_month by lia. reflexivity. }
  rewrite HE. clear HE.
  pose proof (month_cases m Hm) as Hcase.
  split; [destruct (Z.leb_spec m 3); lia |].
  split.
  - unfold days_from_civil, daysInMonth.
    destruct (isLeap_spec y) as [[E Hl] | [E Hl]]; rewrite ?E;
      repeat (destruct Hcase as [Hcase | Hcase]); subst m;
      month_calc; rewrite ?E; Z.div_mod_to_equations; lia.
  - exists (days_from_civil y m 1
            - days_from_civil (if m <=? 3 then y - 1 else y)
                (if m <=? 3 then m + 9 else m - 3) 1
            - daysInMonth (if m <=? 3 then y - 1 else y)
                (if m <=? 3 then m + 9 else m - 3)).
    split; [lia |].
    unfold days_from_civil, daysInMonth.
    destruct (isLeap_spec y) as [[E Hl] | [E Hl]]; rewrite ?E;
      repeat (destruct Hcase as [Hcase | Hcase]); subst m;
      month_calc; rewrite ?E; Z.div_mod_to_equations; lia.
Qed.

End ThreeMonthsBack.

Section TimeRangeFacts.
Context `{tz : TimeZone}.
Import DateArith.

Lemma daysInMonth_range (y m : Z) : 28 <= daysInMonth y m <= 31.
Proof.
  unfold daysInMonth.
  destruct (m =? 2); [destruct (isLeap y); lia |].
  destruct ((m =? 4) || (m =? 6) || (m =? 9) || (m =? 11)); lia.
Qed.

Lemma fields_ofLocal (day ms : Z) :
  0 <= ms < msPerDay -> localFields (ofLocal day ms) = civil_from_days day.
Proof. intros H. unfold localFields. now rewrite localDay_ofLocal. Qed.

(** [subMonths(date, 3)] in a zone with a fixed offset: the same time of
    day a whole number of days earlier, between 89 and 92 of them. *)
Lemma subMonths_three (t : Z) :
  exists k, 89 <= k <= 92 /\ subMonths (TimeValue t) 3 = TimeValue (t - k * msPerDay).
Proof.
  unfold subMonths, addMonths. change (- (3) =? 0) with false. cbv iota zeta.
  pose proof (timeInDay_range t) as Htau.
  pose proof (ofLocal_fields t) as Ht.
  unfold setMonth, setFullYear, getDate, getMonth, getFullYear.
  rewrite fields_ofLocal by assumption. unfold localFields.
  pose proof (civil_from_days_valid (localDay t)) as Hv.
  pose proof (days_from_civil_from_days (localDay t)) as Hb.
  destruct (civil_from_days (localDay t)) as [[y m] d]. cbn [fst snd].
  destruct Hv as [Hm Hd].
  replace (m + - (3) + 1) with (m - 2) by lia.
  destruct (three_months_back y m Hm) as (HmT & HE & s & Hs & Hlo & Hhi).
  cbv zeta in HmT, HE, Hs, Hlo, Hhi.
  set (yT := if m <=? 3 then y - 1 else y) in *.
  set (mT := if m <=? 3 then m + 9 else m - 3) in *.
  pose proof (daysInMonth_range yT mT) as HdT.
  rewrite HE, civil_from_days_from_civil by lia. cbn [fst snd].
  assert (Hday : forall y m d, days_from_civil y m d = days_from_civil y m 0 + d)
    by (intros; unfold days_from_civil; lia).
  rewrite (Hday y m d) in Hb. rewrite (Hday y m 1), (Hday yT mT 1) in Hs.
  destruct (Z.leb_spec (daysInMonth yT mT) d) as [Hle | Hgt].
  - exists (s + d). split; [lia |]. f_equal.
    rewrite <- Ht at 2. unfold ofLocal. rewrite (Hday yT mT (daysInMonth yT mT)). lia.
  - exists (daysInMonth yT mT + s). split; [lia |]. f_equal.
    rewrite makeDay_month by lia.
    rewrite <- Ht at 2. unfold ofLocal. rewrite (Hday yT mT d). lia.
Qed.

End TimeRangeFacts.

(** ** The time range selector *)

Section SelectorFacts.
Context `{tz : TimeZone}.
Import DateArith.

(** [subMonths(date, 3)] by the calendar: the same day of the month three
    months back, or the last day of that month when it is shorter, at the
    same time of day. *)
Lemma subMonths_three_fields (t : Z) :
  let '(y, m, d) := localFields t in
  let '(yT, mT) := threeMonthsBefore y m in
  exists t', subMonths (TimeValue t) 3 = TimeValue t'
             /\ localFields t' = (yT, mT, Z.min d (daysInMonth yT mT))
             /\ timeInDay t' = timeInDay t.
Proof.
  unfold subMonths, addMonths. change (- (3) =? 0) with false. cbv iota zeta.
  pose proof (timeInDay_range t) as Htau.
  unfold setMonth, setFullYear, getDate, getMonth, getFullYear.
  rewrite fields_ofLocal by assumption.
  change (localFields t) with (civil_from_days (localDay t)).
  pose proof (civil_from_days_valid (localDay t)) as Hv.
  destruct (civil_from_days (localDay t)) as [[y m] d]. cbn [fst snd].
  destruct Hv as [Hm Hd].
  replace (m + - (3) + 1) with (m - 2) by lia.
  destruct (three_months_back y m Hm) as (HmT & HE & _).
  cbv zeta in HmT, HE. unfold threeMonthsBefore.
  assert (Hpair : (if m <=? 3 then (y - 1, m + 9) else (y, m - 3))
                  = (if m <=? 3 then y - 1 else y, if m <=? 3 then m + 9 else m - 3))
    by (destruct (m <=? 3); reflexivity).
  rewrite Hpair. clear Hpair.
  set (yT := if m <=? 3 then y - 1 else y) in *.
  set (mT := if m <=? 3 then m + 9 else m - 3) in *.
  pose proof (daysInMonth_range yT mT) as HdT.
  rewrite HE, civil_from_days_from_civil by lia. cbn [fst snd].
  destruct (Z.leb_spec (daysInMonth yT mT) d) as [Hle | Hgt].
  - eexists. split; [reflexivity |].
    rewrite fields_ofLocal, timeInDay_ofLocal by assumption.
    rewrite civil_from_days_from_civil by lia.
    rewrite Z.min_r by lia. split; reflexivity.
  - eexists. split; [reflexivity |].
    rewrite fields_ofLocal, timeInDay_ofLocal by assumption.
    rewrite makeDay_month by lia.
    rewrite civil_from_days_from_civil by lia.
    rewrite Z.min_l by lia. split; reflexivity.
Qed.

End SelectorFacts.

(** X6. What the presets of the chart's selector set the window to, in a
    zone with a fixed offset from UTC: "Last 7 days" and "Last 30 days" the
    7 and the 30 days up to the present instant; "Last 3 months", although
    its option carries [days: 90], a whole number of days between 89 and 92
    (both occur); "Custom Range" leaves the window as it was. *)
Theorem handleTimeRangeChange_window :
  forall (tz : TimeZone) (value : PainChartControls.TimeRange) (now : Z)
         (st : PainChartControls.State),
    (let st' := PainChartControls.handleTimeRangeChange value now st in
     PainChartControls.timeRange st' = value
     /\ match value with
        | PainChartControls.Custom =>
            PainChartControls.dateRange st' = PainChartControls.dateRange st
        | PainChartControls.Last90d =>
            exists k, 89 <= k <= 92 /\ PainChartControls.dateRange st' = lastDays now k
        | _ =>
            PainChartControls.dateRange st' = lastDays now (PainChartControls.days value)
        end)
    /\ PainChartControls.dateRange
         (PainChartControls.handleTimeRangeChange (H := UTC)
            PainChartControls.Last90d may1_2023 st)
       = lastDays may1_2023 89
    /\ PainChartControls.dateRange
         (PainChartControls.handleTimeRangeChange (H := UTC)
            PainChartControls.Last90d oct1_2023 st)
       = lastDays oct1_2023 92.
Proof.
  intros tz value now st. split; [| split; reflexivity].
  cbv zeta. split; [destruct value; reflexivity |].
  destruct value; cbn [PainChartControls.handleTimeRangeChange PainChartControls.dateRange
                       PainChartControls.days].
  - now rewrite subDays_spec.
  - now rewrite subDays_spec.
  - destruct (subMonths_three now) as (k & Hk & Hs). exists k. split; [exact Hk |].
    unfold lastDays. now rewrite Hs.
  - reflexivity.
Qed.

(** X7. "Last 3 months" by the calendar: the window starts on the same day
    of the month three months before the present day, or on the last day of
    that month when it has no such day (from 31 May: the last day of
    February), at the present time of day. *)
Theorem last_three_months_starts_on_the_same_day_of_month :
  forall (tz : TimeZone) (now : Z) (st : PainChartControls.State),
    let '(y, m, d) := localFields now in
    let '(yT, mT) := threeMonthsBefore y m in
    exists t,
      PainChart.from
        (PainChartControls.dateRange
           (PainChartControls.handleTimeRangeChange PainChartControls.Last90d now st))
      = TimeValue t
      /\ localFields t = (yT, mT, Z.min d (daysInMonth yT mT))
      /\ DateArith.timeInDay t = DateArith.timeInDay now.
Proof.
  intros tz now st. pose proof (subMonths_three_fields now) as H.
  destruct (localFields now) as [[y m] d].
  destruct (threeMonthsBefore y m) as [yT mT].
  destruct H as (t & Hs & Hf & Ht). exists t. split; [exact Hs |]. split; assumption.
Qed.

(** ** The table of entries *)

Lemma StronglySorted_weaken {A} (R S : A -> A -> Prop) (l : list A) :
  (forall a b, R a b -> S a b) -> StronglySorted R l -> StronglySorted S l.
Proof.
  intros HRS. induction 1 as [| x l Hs IH Hx]; constructor.
  - exact IH.
  - eapply Forall_impl; [| exact Hx]. intros b. apply HRS.
Qed.

Lemma newestFirst_key (a b : PainEntry) (x y : Z) :
  option_map Z.opp (getTime (date a)) = Some x ->
  option_map Z.opp (getTime (date b)) = Some y ->
  ((PainEntriesTable.newestFirst a b <=? 0) = true <-> x <= y).
Proof.
  unfold PainEntriesTable.newestFirst.
  destruct (date a) as [ta |], (date b) as [tb |]; simpl; try discriminate.
  intros [= <-] [= <-]. rewrite Z.leb_le. lia.
Qed.

(** X8. The table lists exactly the entries the chart aggregates for the
    same window (the entries whose time lies within it, each as often as it
    occurs), newest first; with the entries or a bound of the window
    missing it lists nothing. *)
Theorem table_lists_the_window_newest_first :
  forall (entries : list PainEntry) (from to : Date),
    let shown :=
      PainEntriesTable.filteredEntries (Some entries)
        (Some {| PainEntriesTable.from := Some from; PainEntriesTable.to := Some to |}) in
    Permutation (PainChart.filteredEntries entries
                   {| PainChart.from := from; PainChart.to := to |}) shown
    /\ StronglySorted notOlder shown
    /\ (forall r, PainEntriesTable.filteredEntries None r = [])
    /\ PainEntriesTable.filteredEntries (Some entries) None = []
    /\ PainEntriesTable.filteredEntries (Some entries)
         (Some {| PainEntriesTable.from := None; PainEntriesTable.to := Some to |}) = []
    /\ PainEntriesTable.filteredEntries (Some entries)
         (Some {| PainEntriesTable.from := Some from; PainEntriesTable.to := None |}) = [].
Proof.
  intros entries f t. cbv zeta.
  cbn [PainEntriesTable.filteredEntries]. unfold PainChart.filteredEntries.
  set (r := {| PainChart.from := f; PainChart.to := t |}).
  split; [apply sort_perm |]. split; [| repeat split; reflexivity].
  assert (Hk : Forall (fun e => exists x, option_map Z.opp (getTime (date e)) = Some x)
                 (filter (PainChart.inRange r) entries)).
  { apply Forall_forall. intros e He. apply filter_In in He. destruct He as [_ He].
    apply inRange_valid in He. destruct He as [x Hx]. rewrite Hx. simpl. eauto. }
  destruct (sort_sorted PainEntriesTable.newestFirst
              (fun e => option_map Z.opp (getTime (date e))) newestFirst_key _ Hk)
    as [_ Hs].
  eapply StronglySorted_weaken; [| exact Hs].
  intros a b (x & y & Ha & Hb & Hxy). unfold notOlder.
  destruct (date a) as [ta |], (date b) as [tb |]; simpl in *; try discriminate.
  injection Ha as <-. injection Hb as <-. exists ta, tb. repeat split; lia.
Qed.

Section DefaultRangeFacts.
Context `{tz : TimeZone}.

Lemma inRange_after (r : PainChart.DateRange) (e : PainEntry) (t u : Z) :
  date e = TimeValue t -> PainChart.to r = TimeValue u -> u < t ->
  PainChart.inRange r e = false.
Proof.
  intros He Hr Hlt. unfold PainChart.inRange, JsDate.le. rewrite He, Hr. simpl.
  replace (t <=? u) with false by (symmetry; apply Z.leb_gt; lia).
  apply andb_false_r.
Qed.

Lemma filter_skips {A} (f : A -> bool) (l1 l2 : list A) (x : A) :
  f x = false -> filter f (l1 ++ x :: l2) = filter f (l1 ++ l2).
Proof. intros H. rewrite !filter_app. simpl. now rewrite H. Qed.

End DefaultRangeFacts.

(** X9. The window the table starts with, in a zone with a fixed offset
    from UTC: when the two readings of the clock that make its start fall
    on the same day of the month, it starts 30 days before the first of
    them; read at one instant, it is the window of the "Last 30 days"
    preset that the selector shows at the start. *)
Theorem defaultDateRange_is_the_last_thirty_days :
  forall (tz : TimeZone) (now1 now2 now3 : Z),
    DateArith.getDate now2 = DateArith.getDate now1 ->
    PainEntriesTable.defaultDateRange now1 now2 now3
    = {| PainChart.from := TimeValue (now1 - 30 * msPerDay);
         PainChart.to := TimeValue now3 |}
    /\ forall st,
         PainEntriesTable.defaultDateRange now1 now1 now1
         = PainChartControls.dateRange
             (PainChartControls.handleTimeRangeChange PainChartControls.Last30d now1 st).
Proof.
  intros tz now1 now2 now3 Hd.
  assert (H : forall n a, PainEntriesTable.defaultDateRange n n a
                          = {| PainChart.from := TimeValue (n - 30 * msPerDay);
                               PainChart.to := TimeValue a |}).
  { intros n a. unfold PainEntriesTable.defaultDateRange.
    replace (DateArith.getDate n - 30) with (DateArith.getDate n + - 30) by lia.
    rewrite setDate_shift. repeat f_equal; lia. }
  split.
  - unfold PainEntriesTable.defaultDateRange. rewrite Hd. apply H.
  - intros st. rewrite H.
    cbn [PainChartControls.handleTimeRangeChange PainChartControls.dateRange
         PainChartControls.days].
    now rewrite subDays_spec.
Qed.

Lemma defaultDateRange_is_the_last_thirty_days_witness :
  PainEntriesTable.defaultDateRange (H := UTC) jan2_2024 (jan2_2024 + 1) (jan2_2024 + 2)
  = {| PainChart.from := TimeValue (jan2_2024 - 30 * msPerDay);
       PainChart.to := TimeValue (jan2_2024 + 2) |}.
Proof.
  apply (defaultDateRange_is_the_last_thirty_days UTC jan2_2024 (jan2_2024 + 1)
           (jan2_2024 + 2)).
  reflexivity.
Defined.

(** X10. The table's default window is computed once, when the module is
    loaded, and its end is that instant: an entry dated later (one added
    later in the session with the form's default date, say) changes neither
    the table nor the chart while the default window is in place. *)
Theorem entry_after_page_load_is_not_shown :
  forall (tz : TimeZone) (now1 now2 now3 : Z) (newer older : list PainEntry)
         (e : PainEntry) (t : Z),
    date e = TimeValue t -> now3 < t ->
    let r := PainEntriesTable.defaultDateRange now1 now2 now3 in
    PainEntriesTable.filteredEntries (Some (newer ++ e :: older)) (bothBounds r)
    = PainEntriesTable.filteredEntries (Some (newer ++ older)) (bothBounds r)
    /\ PainChart.chartData (newer ++ e :: older) r
       = PainChart.chartData (newer ++ older) r.
Proof.
  intros tz now1 now2 now3 newer older e t He Hlt r.
  assert (Hout : PainChart.inRange r e = false)
    by (apply (inRange_after r e t now3); [exact He | reflexivity | exact Hlt]).
  split.
  - unfold bothBounds. cbn [PainEntriesTable.filteredEntries].
    replace {| PainChart.from := PainChart.from r; PainChart.to := PainChart.to r |}
      with r by reflexivity.
    now rewrite (filter_skips _ _ _ _ Hout).
  - unfold PainChart.chartData, PainChart.dailyData, PainChart.filteredEntries.
    now rewrite (filter_skips _ _ _ _ Hout).
Qed.

Lemma entry_after_page_load_is_not_shown_witness :
  PainEntriesTable.filteredEntries (Some ([] ++ entryAt jan2_2024 7 :: [entryAt dec31_2023 3]))
    (bothBounds (PainEntriesTable.defaultDateRange (H := UTC) jan1_2024 jan1_2024 jan1_2024))
  = PainEntriesTable.filteredEntries (Some ([] ++ [entryAt dec31_2023 3]))
      (bothBounds (PainEntriesTable.defaultDateRange (H := UTC) jan1_2024 jan1_2024 jan1_2024))
  /\ PainChart.chartData (H := UTC) ([] ++ entryAt jan2_2024 7 :: [entryAt dec31_2023 3])
       (PainEntriesTable.defaultDateRange (H := UTC) jan1_2024 jan1_2024 jan1_2024)
     = PainChart.chartData (H := UTC) ([] ++ [entryAt dec31_2023 3])
         (PainEntriesTable.defaultDateRange (H := UTC) jan1_2024 jan1_2024 jan1_2024).
Proof.
  apply (entry_after_page_load_is_not_shown UTC jan1_2024 jan1_2024 jan1_2024 []
           [entryAt dec31_2023 3] (entryAt jan2_2024 7) jan2_2024).
  - reflexivity.
  - reflexivity.
Defined.

(** ** The feedback page: previews, removal and the outcome of a submission *)

Section PreviewFacts.
Import Feedback.

Lemma addFile_aligned (queued : nat) (fs : list File) (b : Batch) :
  List.length (newUrls b) = List.length (newFiles b) ->
  List.length (newUrls (fold_left (addFile queued) fs b))
  = List.length (newFiles (fold_left (addFile queued) fs b)).
Proof.
  revert b. induction fs as [| x fs IH]; intros b Hb; simpl; [exact Hb |].
  apply IH. unfold addFile. destruct (validateFile x) as [[|] ts]; [| exact Hb].
  destruct (3 <=? queued + List.length (newFiles b))%nat; [exact Hb |].
  cbn [newUrls newFiles]. rewrite !length_app, Hb. reflexivity.
Qed.

Lemma removeAt_firstn_skipn {A} (index : nat) (l : list A) :
  removeAt index l = firstn index l ++ skipn (S index) l.
Proof.
  revert index. induction l as [| x l IH]; intros [| i]; simpl; try reflexivity.
  now rewrite IH.
Qed.

Lemma removeAt_same_length {A B} (index : nat) (l : list A) (l' : list B) :
  List.length l = List.length l' ->
  List.length (removeAt index l) = List.length (removeAt index l').
Proof.
  revert index l'. induction l as [| x l IH]; intros [| i] [| y l'] H; simpl in *;
    try discriminate; try reflexivity; try lia.
  f_equal. apply IH. lia.
Qed.

End PreviewFacts.

(** X11. In every state the feedback page can reach there is one preview
    URL per queued file. *)
Theorem reachable_one_preview_per_file :
  forall st : Feedback.State,
    reachable st ->
    List.length (Feedback.previewUrls st) = List.length (Feedback.selectedFiles st).
Proof.
  induction 1 as [| st files _ IH | st index _ IH | W B u fb st w _ IH].
  - reflexivity.
  - destruct files as [fs |]; simpl; [| exact IH].
    rewrite !length_app, IH. f_equal. now apply addFile_aligned.
  - simpl. now apply removeAt_same_length.
  - unfold Feedback.onSubmit. destruct u as [user |]; [| exact IH].
    destruct (dateNow _) as [now w1]. destruct (addDoc _ _ _) as [[e | tt] w2]; simpl;
      [exact IH | reflexivity].
Qed.

Lemma reachable_one_preview_per_file_witness :
  List.length (Feedback.previewUrls threeQueued)
  = List.length (Feedback.selectedFiles threeQueued).
Proof.
  apply (reachable_one_preview_per_file threeQueued).
  apply reach_change, reach_initial.
Defined.

(** X12. [removeFile] takes the file at the given position out of the
    queue together with the preview at the same position, and keeps the
    order of the others; a position past the end of the queue changes
    nothing; no toast is shown either way. *)
Theorem removeFile_takes_out_one_position :
  forall (st : Feedback.State) (index : nat),
    Feedback.selectedFiles (Feedback.removeFile st index)
    = firstn index (Feedback.selectedFiles st) ++ skipn (S index) (Feedback.selectedFiles st)
    /\ Feedback.previewUrls (Feedback.removeFile st index)
       = firstn index (Feedback.previewUrls st) ++ skipn (S index) (Feedback.previewUrls st)
    /\ Feedback.toasts (Feedback.removeFile st index) = Feedback.toasts st
    /\ ((index < List.length (Feedback.selectedFiles st))%nat ->
        S (List.length (Feedback.selectedFiles (Feedback.removeFile st index)))
        = List.length (Feedback.selectedFiles st))
    /\ ((List.length (Feedback.selectedFiles st) <= index)%nat ->
        Feedback.selectedFiles (Feedback.removeFile st index) = Feedback.selectedFiles st).
Proof.
  intros st index. cbn [Feedback.removeFile Feedback.selectedFiles Feedback.previewUrls
                        Feedback.toasts].
  rewrite !removeAt_firstn_skipn. repeat split.
  - intros Hlt. rewrite length_app, length_firstn, length_skipn. lia.
  - intros Hge. rewrite firstn_all2, skipn_all2 by lia. apply app_nil_r.
Qed.

Section OutcomeFacts.
Context {W : Type} `{B : Backend W}.
Import Feedback.

Lemma upload_loop_toasts (user : User) (files : list File) (u : Uploading W) :
  upToasts (fold_left (uploadOne user) files u)
  = upToasts u ++ map uploadFailed (failedUploads user files (world u)).
Proof.
  revert u. induction files as [| f fs IH]; intros u; simpl.
  - now rewrite app_nil_r.
  - rewrite IH. unfold uploadOne, attempt.
    destruct (dateNow (world u)) as [now w1].
    destruct (uploadBytes _ f w1) as [[e | ref] w2].
    + cbn [upToasts world map]. now rewrite <- app_assoc.
    + destruct (getDownloadURL ref w2) as [[e | url] w3]; cbn [upToasts world map].
      * now rewrite <- app_assoc.
      * reflexivity.
Qed.

End OutcomeFacts.

(** X13. How a submission by a signed-in user ends, against any backend:
    the page is no longer submitting and has shown one "Upload Failed"
    toast per file whose upload failed, in queue order; then either the
    queue and the previews are empty, the success state is on and the
    toast "Feedback Submitted" closes the list (also when every upload
    failed), or the queue, the previews and the success state are as
    before and the toast "Error" closes it. *)
Theorem onSubmit_outcome :
  forall (W : Type) (B : Backend W) (user : User) (feedback : string)
         (st : Feedback.State) (w : W),
    let st' := fst (fst (Feedback.onSubmit (Some user) feedback st w)) in
    let failed := failedUploads user (Feedback.selectedFiles st) w in
    Feedback.isSubmitting st' = false
    /\ ((Feedback.selectedFiles st' = [] /\ Feedback.previewUrls st' = []
         /\ Feedback.showSuccess st' = true
         /\ Feedback.toasts st'
            = Feedback.toasts st ++ map Feedback.uploadFailed failed ++ [feedbackSubmitted])
        \/ (Feedback.selectedFiles st' = Feedback.selectedFiles st
            /\ Feedback.previewUrls st' = Feedback.previewUrls st
            /\ Feedback.showSuccess st' = Feedback.showSuccess st
            /\ Feedback.toasts st'
               = Feedback.toasts st ++ map Feedback.uploadFailed failed
                 ++ [feedbackNotSubmitted])).
Proof.
  intros W B user feedback st w. cbv zeta. unfold Feedback.onSubmit.
  pose proof (upload_loop_toasts user (Feedback.selectedFiles st)
                {| Feedback.attachmentUrls := []; Feedback.upToasts := Feedback.toasts st;
                   Feedback.calls := []; Feedback.world := w |}) as Ht.
  cbn [Feedback.upToasts Feedback.world] in Ht.
  set (u := fold_left (Feedback.uploadOne user) (Feedback.selectedFiles st) _) in *.
  destruct (dateNow (Feedback.world u)) as [now w1].
  destruct (addDoc "feedback" _ w1) as [[e | tt] w2]; cbn [fst Feedback.isSubmitting
    Feedback.selectedFiles Feedback.previewUrls Feedback.showSuccess Feedback.toasts];
    rewrite Ht, <- app_assoc; (split; [reflexivity |]); [right | left]; repeat split.
Qed.

(** X14. When a submission leaves a non-empty queue in place (the feedback
    document could not be written), the next submission starts an upload
    for every queued file once more, although the first one started them
    all already. *)
Theorem resubmission_uploads_the_queue_again :
  forall (W : Type) (B : Backend W) (user : User) (feedback feedback' : string)
         (st : Feedback.State) (w w' : W),
    let st1 := fst (fst (Feedback.onSubmit (Some user) feedback st w)) in
    Feedback.selectedFiles st1 = Feedback.selectedFiles st ->
    uploadsStarted (snd (Feedback.onSubmit (Some user) feedback st w))
    = Feedback.selectedFiles st
    /\ uploadsStarted (snd (Feedback.onSubmit (Some user) feedback' st1 w'))
       = Feedback.selectedFiles st.
Proof.
  intros W B.
  assert (Hstart : forall user feedback st (w : W),
             uploadsStarted (snd (Feedback.onSubmit (Some user) feedback st w))
             = Feedback.selectedFiles st).
  { intros user feedback st w.
    pose proof (upload_loop_spec user (Feedback.selectedFiles st)
                  {| Feedback.attachmentUrls := []; Feedback.upToasts := Feedback.toasts st;
                     Feedback.calls := []; Feedback.world := w |}) as (_ & _ & Hu & _).
    cbn zeta in Hu. cbn [Feedback.calls] in Hu. simpl app in Hu.
    unfold Feedback.onSubmit.
    set (u := fold_left (Feedback.uploadOne user) (Feedback.selectedFiles st) _) in *.
    destruct (dateNow (Feedback.world u)) as [now w1].
    destruct (addDoc "feedback" _ w1) as [[e | tt] w2]; cbn [snd];
      unfold uploadsStarted in *; rewrite flat_map_app, Hu; simpl; apply app_nil_r. }
  intros user feedback feedback' st w w' st1 Hkept.
  split; [apply Hstart |]. rewrite Hstart. exact Hkept.
Qed.

Lemma resubmission_uploads_the_queue_again_witness :
  uploadsStarted
    (snd (Feedback.onSubmit (H := firestoreDown) (Some someUser) "It works well"
            threeQueued 0))
  = Feedback.selectedFiles threeQueued
  /\ uploadsStarted
       (snd (Feedback.onSubmit (H := firestoreDown) (Some someUser) "It works well"
               (fst (fst (Feedback.onSubmit (H := firestoreDown) (Some someUser)
                            "It works well" threeQueued 0)))
               7))
     = Feedback.selectedFiles threeQueued.
Proof.
  apply (resubmission_uploads_the_queue_again Z firestoreDown someUser "It works well"
           "It works well" threeQueued 0 7).
  vm_compute. reflexivity.
Defined.

Section FormFacts.
Context {W : Type} `{B : Backend W}.

Lemma onSubmit_docs (user : User) (feedback : string) (st : Feedback.State) (w : W) :
  exists urls now,
    docsAdded (snd (Feedback.onSubmit (Some user) feedback st w))
    = [FeedbackDoc (uid user) (email user) feedback urls now].
Proof.
  pose proof (upload_loop_spec user (Feedback.selectedFiles st)
                {| Feedback.attachmentUrls := []; Feedback.upToasts := Feedback.toasts st;
                   Feedback.calls := []; Feedback.world := w |}) as (_ & _ & _ & Hd).
  cbn zeta in Hd. cbn [Feedback.calls] in Hd. simpl docsAdded in Hd.
  unfold Feedback.onSubmit.
  set (u := fold_left (Feedback.uploadOne user) (Feedback.selectedFiles st) _) in *.
  destruct (dateNow (Feedback.world u)) as [now w1].
  exists (Feedback.attachmentUrls u), now.
  destruct (addDoc "feedback" _ w1) as [[e | tt] w2]; cbn [snd];
    unfold docsAdded in *; rewrite flat_map_app, Hd; reflexivity.
Qed.

End FormFacts.

(** X15. The feedback form hands a submission to [onSubmit] only when the
    text is a string of at least 10 characters: every document a
    submission writes carries such a text, together with the uid and the
    email of the signed-in user; with a shorter text, or with nobody signed
    in, nothing is uploaded or written and the page stays as it is. *)
Theorem feedback_form_needs_ten_characters :
  forall (W : Type) (B : Backend W) (currentUser : option User) (feedback : Zod.Value)
         (st : Feedback.State) (w : W),
    let '(st', w', cs) := FeedbackPage.submit currentUser feedback (st, w, []) in
    (forall doc, In doc (docsAdded cs) ->
       exists user text urls now,
         currentUser = Some user /\ feedback = Zod.Str text
         /\ (10 <= String.length text)%nat
         /\ doc = FeedbackDoc (uid user) (email user) text urls now)
    /\ ((forall text, feedback = Zod.Str text -> (String.length text < 10)%nat) ->
        (st', w', cs) = (st, w, []))
    /\ (currentUser = None -> (st', w', cs) = (st, w, [])).
Proof.
  intros W B currentUser feedback st w.
  unfold FeedbackPage.submit, Zod.handleSubmit, Feedback.feedbackSchema, Zod.min,
    Zod.string_.
  destruct feedback as [| text | | |];
    try (split; [intros doc [] | split; reflexivity]).
  destruct (Nat.leb_spec 10 (String.length text)) as [Hlen | Hlen].
  - destruct currentUser as [user |].
    + destruct (onSubmit_docs user text st w) as (urls & now & Hd).
      destruct (Feedback.onSubmit (Some user) text st w) as [[st' w'] cs].
      cbn [snd] in Hd. cbn [app]. split; [| split].
      * intros doc Hin. rewrite Hd in Hin. destruct Hin as [<- | []].
        exists user, text, urls, now. repeat split. exact Hlen.
      * intros Hshort. specialize (Hshort text eq_refl). lia.
      * discriminate.
    + cbn [Feedback.onSubmit app]. split; [intros doc [] | split; reflexivity].
  - split; [intros doc [] | split; reflexivity].
Qed.

(** ** The rules and the writes of the client *)

Section RuleFacts.

Lemma signedInAs_spec (request : FirestoreRules.Request) (field : option string) :
  FirestoreRules.signedInAs request field = true
  <-> exists u, FirestoreRules.auth_uid request = Some u /\ field = Some u.
Proof.
  unfold FirestoreRules.signedInAs.
  destruct (FirestoreRules.auth_uid request) as [u |], field as [v |];
    try (split; [discriminate | intros (x & H1 & H2); discriminate]).
  rewrite String.eqb_eq. split.
  - intros ->. eauto.
  - intros (x & [= ->] & [= ->]). reflexivity.
Qed.

Lemma accepted_types_are_images (t : string) :
  Feedback.includes Feedback.ACCEPTED_IMAGE_TYPES t = true ->
  StorageRules.matches_image t = true.
Proof.
  intros H. apply includes_In in H. simpl in H.
  destruct H as [<- | [<- | [<- | [<- | []]]]]; reflexivity.
Qed.

End RuleFacts.

(** X16. Whom the Firestore rules let in: nobody who is not signed in;
    for a pain entry, the user whose uid the stored document carries (to
    read, update or delete it) or the new document carries (to create
    it); for a user document, the user whose uid is the document's id; for
    feedback, the user whose uid the new document carries, and only to
    create it: no request reads, updates or deletes feedback. *)
Theorem firestore_rules_admit_only_the_owner :
  forall (collection docId : string) (request : FirestoreRules.Request),
    FirestoreRules.allow collection docId request = true ->
    exists u,
      FirestoreRules.auth_uid request = Some u
      /\ ((collection = "painEntries"
           /\ match FirestoreRules.method request with
              | FirestoreRules.Create => FirestoreRules.incoming_userId request = Some u
              | _ => FirestoreRules.existing_userId request = Some u
              end)
          \/ (collection = "users" /\ docId = u)
          \/ (collection = "feedback"
              /\ FirestoreRules.method request = FirestoreRules.Create
              /\ FirestoreRules.incoming_userId request = Some u)).
Proof.
  intros collection docId request. unfold FirestoreRules.allow.
  destruct (String.eqb_spec collection "painEntries") as [-> | _].
  - unfold FirestoreRules.painEntries.
    destruct (FirestoreRules.method request); intros H; apply signedInAs_spec in H;
      destruct H as (u & Hu & Hf); exists u; (split; [exact Hu |]); left;
      (split; [reflexivity | exact Hf]).
  - destruct (String.eqb_spec collection "users") as [-> | _].
    + unfold FirestoreRules.users. intros H. apply signedInAs_spec in H.
      destruct H as (u & Hu & [= ->]). exists u. split; [exact Hu |].
      right. left. split; reflexivity.
    + destruct (String.eqb_spec collection "feedback") as [-> | _]; [| discriminate].
      unfold FirestoreRules.feedback.
      destruct (FirestoreRules.method request) eqn:Hm; try discriminate.
      intros H. apply signedInAs_spec in H. destruct H as (u & Hu & Hf).
      exists u. split; [exact Hu |]. right. right. repeat split; assumption.
Qed.

Lemma firestore_rules_admit_only_the_owner_witness :
  exists u,
    FirestoreRules.auth_uid
      (createRequest (Some "u1") (FeedbackDoc "u1" None "It works well" [] 0)) = Some u
    /\ (("feedback" = "painEntries"
         /\ FirestoreRules.incoming_userId
              (createRequest (Some "u1") (FeedbackDoc "u1" None "It works well" [] 0))
            = Some u)
        \/ ("feedback" = "users" /\ "f1" = u)
        \/ ("feedback" = "feedback"
            /\ FirestoreRules.Create = FirestoreRules.Create
            /\ FirestoreRules.incoming_userId
                 (createRequest (Some "u1") (FeedbackDoc "u1" None "It works well" [] 0))
               = Some u)).
Proof.
  apply (firestore_rules_admit_only_the_owner "feedback" "f1"
           (createRequest (Some "u1") (FeedbackDoc "u1" None "It works well" [] 0))).
  reflexivity.
Defined.

(** X17. The rule for updating a pain entry looks at the stored document
    only: the owner may replace the entry by one that carries another
    user's uid, and once the entry is stored that way the rules deny the
    former owner to read, update or delete it. *)
Theorem painEntries_update_can_give_the_entry_away :
  forall (entry owner other : string),
    owner <> other ->
    FirestoreRules.allow "painEntries" entry
      {| FirestoreRules.auth_uid := Some owner;
         FirestoreRules.method := FirestoreRules.Update;
         FirestoreRules.incoming_userId := Some other;
         FirestoreRules.existing_userId := Some owner |} = true
    /\ forall m incoming,
         m <> FirestoreRules.Create ->
         FirestoreRules.allow "painEntries" entry
           {| FirestoreRules.auth_uid := Some owner;
              FirestoreRules.method := m;
              FirestoreRules.incoming_userId := incoming;
              FirestoreRules.existing_userId := Some other |} = false.
Proof.
  intros entry owner other Hne. split.
  - cbn. apply String.eqb_refl.
  - intros m incoming Hm. cbn.
    destruct m; try contradiction; cbn; now apply String.eqb_neq.
Qed.

Lemma painEntries_update_can_give_the_entry_away_witness :
  FirestoreRules.allow "painEntries" "e1"
    {| FirestoreRules.auth_uid := Some "u1";
       FirestoreRules.method := FirestoreRules.Update;
       FirestoreRules.incoming_userId := Some "u2";
       FirestoreRules.existing_userId := Some "u1" |} = true.
Proof.
  apply (painEntries_update_can_give_the_entry_away "e1" "u1" "u2").
  discriminate.
Defined.

(** X18. The documents the forms write pass the rules on behalf of the
    signed-in user: the pain entries of the new-entry form in the
    collection painEntries, the feedback of the feedback page in the
    collection feedback; and no other user may create them. *)
Theorem client_documents_pass_the_firestore_rules :
  forall (W : Type) (B : Backend W) (user : User),
    (forall (values : NewEntryForm.FormValues) (w : W) (doc : Doc),
        In doc (NewEntryForm.written
                  (NewEntryForm.submit (Some user) values
                     {| NewEntryForm.written := []; NewEntryForm.toasts := [];
                        NewEntryForm.world := w |})) ->
        forall id who,
          FirestoreRules.allow "painEntries" id (createRequest who doc) = true
          <-> who = Some (uid user))
    /\ (forall (feedback : string) (st : Feedback.State) (w : W) (coll : string) (doc : Doc),
           In (coll, doc) (docsAddedTo (snd (Feedback.onSubmit (Some user) feedback st w))) ->
           coll = "feedback"
           /\ forall id who,
                FirestoreRules.allow coll id (createRequest who doc) = true
                <-> who = Some (uid user)).
Proof.
  intros W B user.
  assert (Hrule : forall who u, (match who with
                                 | Some x => String.eqb x u
                                 | None => false
                                 end = true) <-> who = Some u).
  { intros [x |] u; [rewrite String.eqb_eq | ]; split; congruence. }
  split.
  - intros values w doc Hin id who.
    unfold NewEntryForm.submit, Zod.handleSubmit in Hin.
    destruct (NewEntryForm.entrySchema values) as [data |]; [| destruct Hin].
    unfold NewEntryForm.onSubmit in Hin. cbn [NewEntryForm.world NewEntryForm.written] in Hin.
    destruct (dateNow w) as [now w1].
    destruct (addDoc "painEntries" _ w1) as [[e | tt] w2];
      cbn [NewEntryForm.written app] in Hin; [destruct Hin |].
    destruct Hin as [<- | []]. cbn. apply Hrule.
  - intros feedback st w coll doc Hin.
    assert (Hnone : forall files (u : Feedback.Uploading W),
               docsAddedTo (Feedback.calls (fold_left (Feedback.uploadOne user) files u))
               = docsAddedTo (Feedback.calls u)).
    { induction files as [| f fs IH]; intros u; simpl; [reflexivity |].
      rewrite IH. unfold Feedback.uploadOne, docsAddedTo.
      destruct (dateNow (Feedback.world u)) as [now w1].
      destruct (uploadBytes _ f w1) as [[e | ref] w2].
      - cbn [Feedback.calls]. rewrite flat_map_app. simpl. apply app_nil_r.
      - destruct (getDownloadURL ref w2) as [[e | url] w3]; cbn [Feedback.calls];
          rewrite flat_map_app; simpl; apply app_nil_r. }
    unfold Feedback.onSubmit in Hin.
    specialize (Hnone (Feedback.selectedFiles st)
                  {| Feedback.attachmentUrls := []; Feedback.upToasts := Feedback.toasts st;
                     Feedback.calls := []; Feedback.world := w |}).
    cbn [Feedback.calls] in Hnone.
    set (u := fold_left (Feedback.uploadOne user) (Feedback.selectedFiles st) _) in *.
    destruct (dateNow (Feedback.world u)) as [now w1].
    assert (Hdoc : (coll, doc)
                   = ("feedback",
                      FeedbackDoc (uid user) (email user) feedback
                        (Feedback.attachmentUrls u) now)).
    { destruct (addDoc "feedback" _ w1) as [[e | tt] w2]; cbn [snd] in Hin;
        unfold docsAddedTo in *; rewrite flat_map_app, Hnone in Hin; simpl in Hin;
        destruct Hin as [H | []]; now symmetry. }
    injection Hdoc as -> ->. split; [reflexivity |].
    intros id who. cbn. apply Hrule.
Qed.

(** X19. The guard of the feedback page against the storage rule for
    feedback attachments, for an upload in the user's own name: a file the
    guard accepts is refused by the rule exactly when it has 5,242,880
    bytes; every file the rule lets through passes the size test of the
    guard; and the rule lets through image types the guard refuses (a GIF,
    for one). *)
Theorem validateFile_against_the_storage_rule :
  (forall (file : File) (userId : string),
      fst (Feedback.validateFile file) = true ->
      StorageRules.feedbackAttachments_create userId (uploadRequest (Some userId) file)
      = negb (size file =? 5242880)%N)
  /\ (forall (file : File) (userId : string) (who : option string),
         StorageRules.feedbackAttachments_create userId (uploadRequest who file) = true ->
         (Feedback.MAX_FILE_SIZE <? size file)%N = false
         /\ who = Some userId)
  /\ (forall userId : string,
         StorageRules.feedbackAttachments_create userId
           (uploadRequest (Some userId) (screenshot 1000 "image/gif")) = true
         /\ fst (Feedback.validateFile (screenshot 1000 "image/gif")) = false).
Proof.
  split; [| split].
  - intros file userId Hok.
    pose proof (validateFile_cases file) as Hc.
    unfold StorageRules.feedbackAttachments_create, StorageRules.signedInAs, uploadRequest.
    cbn [StorageRules.auth_uid StorageRules.resource_size StorageRules.resource_contentType].
    rewrite String.eqb_refl. cbn [andb].
    unfold Feedback.validateFile in Hok. unfold Feedback.MAX_FILE_SIZE in *.
    change (5 * 1024 * 1024)%N with 5242880%N in *.
    destruct (N.ltb_spec 5242880 (size file)) as [Hbig | Hsmall]; [discriminate |].
    destruct (Feedback.includes Feedback.ACCEPTED_IMAGE_TYPES (type file)) eqn:Hty;
      [| discriminate].
    rewrite (accepted_types_are_images _ Hty), andb_true_r.
    destruct (N.ltb_spec (size file) 5242880), (N.eqb_spec (size file) 5242880);
      simpl; try reflexivity; lia.
  - intros file userId who H.
    unfold StorageRules.feedbackAttachments_create, StorageRules.signedInAs, uploadRequest in H.
    cbn [StorageRules.auth_uid StorageRules.resource_size StorageRules.resource_contentType] in H.
    apply andb_true_iff in H. destruct H as [H _].
    apply andb_true_iff in H. destruct H as [Hwho Hsize].
    change (5 * 1024 * 1024)%N with 5242880%N in Hsize.
    apply N.ltb_lt in Hsize. split.
    + unfold Feedback.MAX_FILE_SIZE. change (5 * 1024 * 1024)%N with 5242880%N.
      apply N.ltb_ge. lia.
    + destruct who as [u |]; [| discriminate]. apply String.eqb_eq in Hwho. now subst.
  - intros userId. split; [| reflexivity].
    unfold StorageRules.feedbackAttachments_create, StorageRules.signedInAs, uploadRequest.
    cbn [StorageRules.auth_uid StorageRules.resource_size StorageRules.resource_contentType].
    rewrite String.eqb_refl. reflexivity.
Qed.

(** ** The settings page and the sign-up form *)

(** Takes the next answer of the backend apart. *)
Ltac answer :=
  match goal with
  | |- context [Profile.createUserWithEmailAndPassword ?a ?p ?w] =>
      destruct (Profile.createUserWithEmailAndPassword a p w) as [[? | ?] ?]
  | |- context [uploadBytes ?p ?f ?w] => destruct (uploadBytes p f w) as [[? | ?] ?]
  | |- context [getDownloadURL ?r ?w] => destruct (getDownloadURL r w) as [[? | ?] ?]
  | |- context [Profile.updateProfile ?u ?n ?p ?w] =>
      destruct (Profile.updateProfile u n p w) as [[? | ?] ?]
  | |- context [dateNow ?w] => destruct (dateNow w) as [? ?]
  | |- context [Profile.setDoc ?c ?i ?d ?m ?w] =>
      destruct (Profile.setDoc c i d m w) as [[? | ?] ?]
  end; cbn [app].

(** Reads the properties of a log off the log itself. *)
Ltac read_log :=
  cbn [onlyLastMayFail succeeded forallb existsb snd fst andb negb isPictureCall orb
       hd_error];
  repeat split; try discriminate; try reflexivity.

Section ProfileFacts.
Context {W : Type} `{B : Backend W} `{A : Profile.AuthBackend W}.

Lemma save_log (account : Profile.Account) (data : Settings.FormData) (w : W) :
  let '(result, w', log) := SettingsPage.save account data w [] in
  let u := Profile.user account in
  let name := Settings.data_displayName data in
  onlyLastMayFail log = true
  /\ succeeded log = match result with inl _ => false | inr _ => true end
  /\ (succeeded log = true ->
      exists uploads photo now,
        log = uploads
              ++ [(Profile.UpdateProfile (uid u) name photo, true);
                  (Profile.SetDoc "users" (uid u)
                     {| Profile.doc_email := email u; Profile.doc_displayName := name;
                        Profile.doc_photoURL := photo;
                        Profile.doc_stamp := Profile.UpdatedAt now |} true, true)]
        /\ forallb (fun e => isPictureCall (fst e)) uploads = true
        /\ (uploads = [] -> photo = Profile.photoURL account))
  /\ (forall file rest,
         Settings.data_profilePicture data = Some (file :: rest) ->
         exists ok, hd_error log
                    = Some (Profile.UploadBytes (Profile.storagePath u file) file, ok))
  /\ (existsb (fun e => isPictureCall (fst e) && negb (snd e)) log = true ->
      forallb (fun e => isPictureCall (fst e)) log = true).
Proof.
  unfold SettingsPage.save, Profile.uploadPicture, Task.bind, Task.await, Task.read,
    Task.ret.
  destruct (Settings.data_profilePicture data) as [[| file rest] |]; cbn [app];
    repeat answer; read_log.
  all: try (intros f r [= <- <-]; eexists; reflexivity).
  all: intros _;
    first [ exists []; do 2 eexists; repeat split; reflexivity
          | eexists [_; _]; do 2 eexists; repeat split; try reflexivity; discriminate ].
Qed.

Lemma register_log (data : AuthForm.RegisterData) (w : W) :
  let '(result, w', log) := SignUp.register data w [] in
  let name := AuthForm.data_displayName data in
  onlyLastMayFail log = true
  /\ succeeded log = match result with inl _ => false | inr _ => true end
  /\ (exists ok,
         hd_error log
         = Some (Profile.CreateUser (AuthForm.data_email (AuthForm.auth data))
                   (AuthForm.data_password (AuthForm.auth data)), ok))
  /\ (succeeded log = true ->
      exists u uploads photo now,
        log = (Profile.CreateUser (AuthForm.data_email (AuthForm.auth data))
                 (AuthForm.data_password (AuthForm.auth data)), true)
              :: uploads
              ++ [(Profile.UpdateProfile (uid u) name photo, true);
                  (Profile.SetDoc "users" (uid u)
                     {| Profile.doc_email := email u; Profile.doc_displayName := name;
                        Profile.doc_photoURL := photo;
                        Profile.doc_stamp := Profile.CreatedAt now |} false, true)]
        /\ forallb (fun e => isPictureCall (fst e)) uploads = true
        /\ (uploads = [] -> photo = None))
  /\ (succeeded log = false ->
      forall c, In (c, true) log ->
                match c with Profile.SetDoc _ _ _ _ => False | _ => True end).
Proof.
  unfold SignUp.register, Profile.uploadPicture, Task.bind, Task.await, Task.read,
    Task.ret.
  answer; [read_log; [eexists; reflexivity | intros _ c [[= <-] | []]; exact I] |].
  destruct (AuthForm.data_profilePicture data) as [[| file rest] |]; cbn [app];
    repeat answer; read_log.
  all: try (eexists; reflexivity).
  all: try (intros _ c Hin; cbn [In] in Hin;
            repeat (destruct Hin as [Heq | Hin];
                    [first [discriminate Heq | injection Heq as <-; exact I] |]);
            destruct Hin).
  all: intros _; eexists;
    first [ exists []; do 2 eexists; repeat split; reflexivity
          | eexists [_; _]; do 2 eexists; repeat split; try reflexivity; discriminate ].
Qed.

Lemma min_length (n : nat) (v : Zod.Value) (s : string) :
  Zod.min n Zod.string_ v = Some s -> v = Zod.Str s /\ (n <= String.length s)%nat.
Proof.
  unfold Zod.min, Zod.string_. destruct v as [| s0 | | |]; try discriminate.
  destruct (Nat.leb_spec n (String.length s0)); [| discriminate].
  intros [= ->]. split; [reflexivity | assumption].
Qed.

End ProfileFacts.

(** X20. The picture guard of the settings page only decides about the
    preview: a first file it refuses (more than 5MB, or a type off its
    list) leaves the preview as it was and draws one destructive toast,
    but the file stays in the form, and the next submission with a valid
    display name starts by uploading that very file to the user's
    profile-pictures folder. *)
Theorem settings_refused_picture_is_still_uploaded :
  forall (W : Type) (B : Backend W) (A : Profile.AuthBackend W)
         (account : Profile.Account) (file : File) (rest : list File) (name : string)
         (page : SettingsPage.Page) (w : W),
    (SettingsPage.MAX_FILE_SIZE <? size file)%N = true
    \/ Feedback.includes SettingsPage.ACCEPTED_IMAGE_TYPES (type file) = false ->
    (2 <= String.length name <= 50)%nat ->
    let page' := SettingsPage.change (file :: rest) page in
    SettingsPage.previewUrl (SettingsPage.state page')
    = SettingsPage.previewUrl (SettingsPage.state page)
    /\ (exists t,
           SettingsPage.toasts (SettingsPage.state page')
           = SettingsPage.toasts (SettingsPage.state page) ++ [t]
           /\ destructive t = true)
    /\ exists ok,
         hd_error (snd (SettingsPage.submit (Some account) (Zod.Str name) page' w))
         = Some (Profile.UploadBytes
                   (Profile.storagePath (Profile.user account) file) file, ok).
Proof.
  intros W B A account file rest name page w Hrefused Hname page'.
  assert (Hguard : SettingsPage.previewUrl (SettingsPage.state page')
                   = SettingsPage.previewUrl (SettingsPage.state page)
                   /\ exists t,
                        SettingsPage.toasts (SettingsPage.state page')
                        = SettingsPage.toasts (SettingsPage.state page) ++ [t]
                        /\ destructive t = true).
  { subst page'. cbn [SettingsPage.change SettingsPage.state
                      SettingsPage.handleProfilePictureChange].
    destruct (SettingsPage.MAX_FILE_SIZE <? size file)%N.
    - split; [reflexivity |]. eexists. split; reflexivity.
    - destruct Hrefused as [Hbig | Htype]; [discriminate |]. rewrite Htype.
      split; [reflexivity |]. eexists. split; reflexivity. }
  destruct Hguard as [Hpreview Htoast]. split; [exact Hpreview |].
  split; [exact Htoast |].
  subst page'. unfold SettingsPage.submit, Settings.settingsSchema.
  cbn [SettingsPage.change SettingsPage.profilePicture SettingsPage.state
       Settings.displayName Settings.profilePicture].
  assert (Hparse : Zod.max 50 (Zod.min 2 Zod.string_) (Zod.Str name) = Some name)
    by (apply string_min_max; split; [reflexivity | exact Hname]).
  rewrite Hparse. cbn [Zod.optional Zod.instanceofFileList].
  unfold SettingsPage.onSubmit.
  pose proof (save_log account
                {| Settings.data_displayName := name;
                   Settings.data_profilePicture := Some (file :: rest) |} w) as Hlog.
  destruct (SettingsPage.save account _ w []) as [[result w'] log].
  destruct Hlog as (_ & _ & _ & Hfirst & _). cbn [snd].
  apply (Hfirst file rest). reflexivity.
Qed.

Lemma settings_refused_picture_is_still_uploaded_witness :
  exists ok,
    hd_error
      (snd (SettingsPage.submit (H := flakyBackend) (H0 := accounts) (Some someAccount)
              (Zod.Str "Ann")
              (SettingsPage.change [screenshot 1000 "application/pdf"]
                 {| SettingsPage.state :=
                      {| SettingsPage.loading := false; SettingsPage.previewUrl := None;
                         SettingsPage.toasts := []; SettingsPage.objectUrls := 0 |};
                    SettingsPage.profilePicture := Zod.Undefined |})
              0))
    = Some (Profile.UploadBytes
              (Profile.storagePath (Profile.user someAccount)
                 (screenshot 1000 "application/pdf"))
              (screenshot 1000 "application/pdf"), ok).
Proof.
  apply (settings_refused_picture_is_still_uploaded Z flakyBackend accounts someAccount
           (screenshot 1000 "application/pdf") [] "Ann"
           {| SettingsPage.state :=
                {| SettingsPage.loading := false; SettingsPage.previewUrl := None;
                   SettingsPage.toasts := []; SettingsPage.objectUrls := 0 |};
              SettingsPage.profilePicture := Zod.Undefined |} 0).
  - right. reflexivity.
  - simpl. lia.
Defined.

(** X21. A submission of the settings by a signed-in user, against any
    backend: it stops at the first call the backend rejects, so a failed
    upload of the picture leaves the display name unsaved as well; it ends
    with the page no longer loading and with the toast "Settings Updated"
    when every call was fulfilled and "Error" otherwise; and when every
    call was fulfilled, the last two are the update of the Auth profile and
    the merge into the user's document, with the same display name and
    photo URL, the user's former photo URL when no picture was uploaded. *)
Theorem settings_onSubmit_stops_at_the_first_failure :
  forall (W : Type) (B : Backend W) (A : Profile.AuthBackend W)
         (account : Profile.Account) (data : Settings.FormData)
         (st : SettingsPage.State) (w : W),
    let '(st', w', log) := SettingsPage.onSubmit (Some account) data st w in
    let u := Profile.user account in
    let name := Settings.data_displayName data in
    SettingsPage.loading st' = false
    /\ SettingsPage.toasts st'
       = SettingsPage.toasts st
         ++ [if succeeded log then settingsUpdated else settingsNotUpdated]
    /\ onlyLastMayFail log = true
    /\ (existsb (fun e => isPictureCall (fst e) && negb (snd e)) log = true ->
        forallb (fun e => isPictureCall (fst e)) log = true)
    /\ (succeeded log = true ->
        exists uploads photo now,
          log = uploads
                ++ [(Profile.UpdateProfile (uid u) name photo, true);
                    (Profile.SetDoc "users" (uid u)
                       {| Profile.doc_email := email u; Profile.doc_displayName := name;
                          Profile.doc_photoURL := photo;
                          Profile.doc_stamp := Profile.UpdatedAt now |} true, true)]
          /\ forallb (fun e => isPictureCall (fst e)) uploads = true
          /\ (uploads = [] -> photo = Profile.photoURL account)).
Proof.
  intros W B A account data st w. unfold SettingsPage.onSubmit.
  pose proof (save_log account data w) as Hlog.
  destruct (SettingsPage.save account data w []) as [[result w'] log].
  cbv zeta in Hlog |- *. destruct Hlog as (Hlast & Hok & Hall & _ & Hpic).
  cbn [SettingsPage.loading SettingsPage.toasts].
  split; [reflexivity |]. split; [| split; [exact Hlast | split; [exact Hpic | exact Hall]]].
  rewrite Hok. destruct result; reflexivity.
Qed.

(** X22. The sign-up form hands [onRegister] a password of at least 6
    characters, so its early return (nobody signed in, empty email and
    empty password) never applies to a submitted form: whether or not
    somebody is signed in already, the first thing a submission does is to
    ask for a new account with the email and the password of the form. *)
Theorem sign_up_always_asks_for_a_new_account :
  forall (W : Type) (B : Backend W) (A : Profile.AuthBackend W) (P : Zod.EmailPattern)
         (currentUser : option Profile.Account) (values : AuthForm.FormValues)
         (data : AuthForm.RegisterData) (st : SignUp.State) (w : W),
    AuthForm.registerSchema values = Some data ->
    (6 <= String.length (AuthForm.data_password (AuthForm.auth data)))%nat
    /\ exists ok,
         hd_error (snd (SignUp.submit currentUser values st w))
         = Some (Profile.CreateUser (AuthForm.data_email (AuthForm.auth data))
                   (AuthForm.data_password (AuthForm.auth data)), ok).
Proof.
  intros W B A P currentUser values data st w Hdata.
  assert (Hpw : (6 <= String.length (AuthForm.data_password (AuthForm.auth data)))%nat).
  { unfold AuthForm.registerSchema, AuthForm.authSchema in Hdata.
    destruct (Zod.email_ Zod.string_ (AuthForm.email values)) as [e |]; [| discriminate].
    destruct (Zod.min 6 Zod.string_ (AuthForm.password values)) as [p |] eqn:Hp;
      [| discriminate].
    destruct (Zod.min 2 Zod.string_ (AuthForm.displayName values)); [| discriminate].
    destruct (Zod.optional Zod.instanceofFileList (AuthForm.profilePicture values));
      [| discriminate].
    injection Hdata as <-. cbn. apply min_length in Hp. tauto. }
  split; [exact Hpw |].
  unfold SignUp.submit. rewrite Hdata. unfold SignUp.onRegister.
  assert (Hne : String.eqb (AuthForm.data_password (AuthForm.auth data)) "" = false).
  { apply String.eqb_neq. intros Heq. rewrite Heq in Hpw. simpl in Hpw. lia. }
  rewrite Hne, andb_false_r.
  pose proof (register_log data w) as Hlog.
  destruct (SignUp.register data w []) as [[result w'] log].
  destruct Hlog as (_ & _ & Hfirst & _).
  destruct result; cbn [snd]; exact Hfirst.
Qed.

Lemma sign_up_always_asks_for_a_new_account_witness :
  exists ok,
    hd_error
      (snd (SignUp.submit (H := flakyBackend) (H0 := accounts) (H1 := hasAtSign)
              (Some someAccount)
              {| AuthForm.email := Zod.Str "b@c.de"; AuthForm.password := Zod.Str "secret";
                 AuthForm.displayName := Zod.Str "Bea";
                 AuthForm.profilePicture := Zod.Undefined |}
              {| SignUp.error := ""; SignUp.isRegistering := false; SignUp.toasts := [] |}
              0))
    = Some (Profile.CreateUser "b@c.de" "secret", ok).
Proof.
  apply (sign_up_always_asks_for_a_new_account Z flakyBackend accounts hasAtSign
           (Some someAccount)
           {| AuthForm.email := Zod.Str "b@c.de"; AuthForm.password := Zod.Str "secret";
              AuthForm.displayName := Zod.Str "Bea";
              AuthForm.profilePicture := Zod.Undefined |}
           {| AuthForm.auth := {| AuthForm.data_email := "b@c.de";
                                  AuthForm.data_password := "secret" |};
              AuthForm.data_displayName := "Bea";
              AuthForm.data_profilePicture := None |}
           {| SignUp.error := ""; SignUp.isRegistering := false; SignUp.toasts := [] |} 0).
  reflexivity.
Defined.



(** ** The feedback page: which files a selection adds *)

Section SelectionFacts.
Import Feedback.

Lemma addFile_takes_the_first (queued : nat) (fs : list File) (b : Batch) :
  newFiles (fold_left (addFile queued) fs b)
  = newFiles b
    ++ firstn (3 - queued - List.length (newFiles b))
         (filter (fun f => fst (validateFile f)) fs).
Proof.
  revert b. induction fs as [| x fs IH]; intros b; cbn [fold_left filter].
  - rewrite firstn_nil. now rewrite app_nil_r.
  - rewrite IH. unfold addFile. destruct (validateFile x) as [[|] ts]; cbn [fst].
    + destruct (Nat.leb_spec 3 (queued + List.length (newFiles b))) as [Hfull | Hroom];
        cbn [newFiles].
      * replace (3 - queued - List.length (newFiles b))%nat with 0%nat by lia.
        reflexivity.
      * rewrite length_app. cbn [List.length].
        replace (3 - queued - List.length (newFiles b))%nat
          with (S (3 - queued - (List.length (newFiles b) + 1)))%nat by lia.
        cbn [firstn]. now rewrite <- app_assoc.
    + reflexivity.
Qed.

Lemma addFile_counts (queued : nat) (fs : list File) (b : Batch) :
  created (fold_left (addFile queued) fs b)
  = (created b
     + (List.length (newFiles (fold_left (addFile queued) fs b))
        - List.length (newFiles b)))%nat
  /\ (List.length (newFiles b) <= List.length (newFiles (fold_left (addFile queued) fs b)))%nat.
Proof.
  revert b. induction fs as [| x fs IH]; intros b; cbn [fold_left]; [lia |].
  destruct (IH (addFile queued b x)) as [IHc IHl]. rewrite IHc.
  assert (Hone : created (addFile queued b x)
                 = (created b + (List.length (newFiles (addFile queued b x))
                                 - List.length (newFiles b)))%nat
                 /\ (List.length (newFiles b)
                     <= List.length (newFiles (addFile queued b x)))%nat).
  { unfold addFile. destruct (validateFile x) as [[|] ts]; cbn [created newFiles];
      [| lia].
    destruct (3 <=? queued + List.length (newFiles b))%nat; cbn [created newFiles];
      [lia |].
    rewrite length_app. cbn [List.length]. lia. }
  lia.
Qed.

End SelectionFacts.

(** X24. Which files a selection adds to the queue: the files of the batch
    that pass [validateFile], in the order of the batch, as many of them as
    there are places left up to 3; the files queued before stay in front,
    and one object URL is created per file added. *)
Theorem handleFileChange_adds_the_first_valid_files :
  forall (st : Feedback.State) (fs : list File),
    let st' := Feedback.handleFileChange st (Some fs) in
    let added :=
      firstn (3 - List.length (Feedback.selectedFiles st))
        (filter (fun f => fst (Feedback.validateFile f)) fs) in
    Feedback.selectedFiles st' = Feedback.selectedFiles st ++ added
    /\ Feedback.objectUrls st' = (Feedback.objectUrls st + List.length added)%nat
    /\ Feedback.handleFileChange st None = st.
Proof.
  intros st fs. cbv zeta. cbn [Feedback.handleFileChange Feedback.selectedFiles
                              Feedback.objectUrls].
  set (b0 := {| Feedback.newFiles := []; Feedback.newUrls := [];
                Feedback.shown := Feedback.toasts st;
                Feedback.created := Feedback.objectUrls st |}).
  pose proof (addFile_takes_the_first (List.length (Feedback.selectedFiles st)) fs b0) as Hn.
  destruct (addFile_counts (List.length (Feedback.selectedFiles st)) fs b0) as [Hc _].
  cbn [Feedback.newFiles Feedback.created b0 List.length app] in Hn, Hc.
  rewrite Nat.sub_0_r in Hn, Hc. rewrite Hc, Hn. repeat split.
Qed.
